(** * The stockbroker agent: orchestration graph and purchase sub-flow

    A shallow embedding of the backend graph of the stockbroker assistant
    (the LangGraph workflow with the nodes [llm], [tools],
    [prepare_purchase_details] and [execute_purchase]) and of the
    [purchase_stock] tool schema, followed by the properties of the routing
    function and of the two purchase nodes.

    Conventions of the embedding.
    - A JavaScript [number] is a [Js.number]: its value, a rational or an
      infinity, together with the text JavaScript prints for it. The code
      receives its numbers from JSON or writes them as literals; it
      compares, tests and prints them and never computes with them, so the
      text travels with the value.
    - [undefined] is [None]; a value of type [T | null] is an [option T];
      the three-valued [T | null | undefined] of a reducer argument has its
      own type [Nullish].
    - A thrown [Error] is the outcome [Thrown msg]; external calls (search,
      structured extraction, price snapshot, console) are recorded in an
      effect trace and answered by an environment [Env]. *)

From Stdlib Require Import ZArith QArith String List Bool Ascii DecimalString Lia.
Import ListNotations.
Close Scope Q_scope.
Open Scope string_scope.
#[local] Set Warnings "-register-all".

(** ** Strings, numbers and JSON text *)

Module Js.

(** The double-quote character (code 34). *)
Definition dquote : string := String (ascii_of_nat 34) EmptyString.

(** Truthiness of an optional string: [undefined] and the empty string are
    falsy, every other string is truthy. *)
Definition truthy (v : option string) : bool :=
  match v with
  | None => false
  | Some s => negb (s =? "")
  end.

(** The value of a number: a rational or one of the two infinities. Every
    double but [NaN] is one of these, and no JSON text denotes [NaN]. *)
Inductive magnitude : Type :=
| NegInfinity
| Finite (q : Q)
| PosInfinity.

(** A number as the program holds it: the value, and the text that
    [String(n)] and a template string give for it ([300.25], [1e+21],
    [Infinity]). Numbers arrive from [JSON.parse] and from tool-call
    arguments, which come with both; the program compares and prints
    them and computes no new one. Not every pair is a JavaScript number
    (one third is no double); what is proved of all pairs holds of those
    that are. *)
Record number : Type := mkNumber {
  value : magnitude;
  text : string
}.

(** [`${n}`]. *)
Definition number_to_string (n : number) : string := text n.

(** The number an integer literal denotes, such as the [1] that
    [preparePurchaseDetails] gives an absent quantity: below 2^53 in
    magnitude JavaScript prints an integer as its decimal digits. *)
Definition of_Z (z : Z) : number :=
  {| value := Finite (inject_Z z);
     text := NilZero.string_of_int (Z.to_int z) |}.

Definition lt_magnitude (a b : magnitude) : bool :=
  match a, b with
  | NegInfinity, NegInfinity => false
  | NegInfinity, _ => true
  | Finite _, NegInfinity => false
  | Finite p, Finite q => negb (Qle_bool q p)
  | Finite _, PosInfinity => true
  | PosInfinity, _ => false
  end.

(** [a > b]. *)
Definition gtb (a b : number) : bool := lt_magnitude (value b) (value a).

(** zod's [.positive()]: [n > 0]. *)
Definition positive (n : number) : bool := gtb n (of_Z 0).

(** [Number.isInteger(n)], zod's [.int()]. *)
Definition is_integer (n : number) : bool :=
  match value n with
  | Finite q => (Qnum q mod Zpos (Qden q) =? 0)%Z
  | _ => false
  end.

(** Truthiness of a number: every number but zero. *)
Definition nonzero (n : number) : bool :=
  match value n with
  | Finite q => negb (Qnum q =? 0)%Z
  | _ => true
  end.

(** [JSON.stringify(n)]: the text of a finite number, [null] for an
    infinite one. *)
Definition stringify_number (n : number) : string :=
  match value n with
  | Finite _ => text n
  | _ => "null"
  end.

Definition hex_digit (n : nat) : string :=
  match n with
  | 0 => "0" | 1 => "1" | 2 => "2" | 3 => "3" | 4 => "4" | 5 => "5"
  | 6 => "6" | 7 => "7" | 8 => "8" | 9 => "9" | 10 => "a" | 11 => "b"
  | 12 => "c" | 13 => "d" | 14 => "e" | _ => "f"
  end%nat.

(** One character of [JSON.stringify] applied to a string. *)
Definition quote_char (c : ascii) : string :=
  let n := nat_of_ascii c in
  if (n =? 34)%nat then "\" ++ dquote
  else if (n =? 92)%nat then "\\"
  else if (n =? 8)%nat then "\b"
  else if (n =? 12)%nat then "\f"
  else if (n =? 10)%nat then "\n"
  else if (n =? 13)%nat then "\r"
  else if (n =? 9)%nat then "\t"
  else if (n <? 32)%nat then "\u00" ++ hex_digit (n / 16) ++ hex_digit (n mod 16)
  else String c EmptyString.

Fixpoint quote_chars (s : string) : string :=
  match s with
  | EmptyString => EmptyString
  | String c rest => quote_char c ++ quote_chars rest
  end.

(** [JSON.stringify(s)] for a string [s]. *)
Definition stringify_string (s : string) : string :=
  dquote ++ quote_chars s ++ dquote.

(** A parsed JSON document, as [JSON.parse] returns it. *)
Inductive json : Type :=
| JNull
| JBool (b : bool)
| JNumber (n : number)
| JString (s : string)
| JArray (items : list json)
| JObject (fields : list (string * json)).

Fixpoint assoc (key : string) (fields : list (string * json)) : option json :=
  match fields with
  | [] => None
  | (k, v) :: rest => if k =? key then Some v else assoc key rest
  end.

End Js.

(** ** Outcomes and the effect monad *)

Inductive Outcome (A : Type) : Type :=
| Returned (a : A)
| Thrown (msg : string).
Arguments Returned {A} a.
Arguments Thrown {A} msg.

(** [stockPurchaseSchema]: the inferred type [StockPurchase]. *)
Record StockPurchase : Type := mkStockPurchase {
  sp_ticker : string;
  sp_quantity : Js.number;
  sp_maxPurchasePrice : Js.number
}.

(** What a node does to the outside world. *)
Inductive Effect : Type :=
| EWebSearch (query : string)
| EExtractTicker (prompt : string)
| EPriceSnapshot (ticker : string)
| EConsoleLog (purchase : StockPurchase)
| ELlm
| EToolNode.

(** An asynchronous computation: the effects performed, then the outcome. *)
Definition M (A : Type) : Type := (list Effect * Outcome A)%type.

Definition ret {A} (a : A) : M A := ([], Returned a).
Definition throw {A} (msg : string) : M A := ([], Thrown msg).
Definition perform {A} (e : Effect) (answer : Outcome A) : M A := ([e], answer).

Definition bind {A B} (m : M A) (k : A -> M B) : M B :=
  match m with
  | (t, Thrown msg) => (t, Thrown msg)
  | (t, Returned a) => let (t', r) := k a in ((t ++ t')%list, r)
  end.

Notation "x <- m ;; k" := (bind m (fun x => k))
  (at level 61, m at next level, right associativity).
Notation "m ;;; k" := (bind m (fun _ => k))
  (at level 61, right associativity).

Definition trace {A} (m : M A) : list Effect := fst m.
Definition outcome {A} (m : M A) : Outcome A := snd m.

(** [xs.map(f)] where [f] may throw. *)
Fixpoint mapM {A B} (f : A -> M B) (xs : list A) : M (list B) :=
  match xs with
  | [] => ret []
  | x :: rest => y <- f x ;; ys <- mapM f rest ;; ret (y :: ys)
  end.

(** ** Messages and conversation state *)

(** The arguments of a tool call, as the purchase nodes read them
    ([ticker?: string; companyName?: string; quantity?: number;
    maxPurchasePrice?: number]). *)
Record ToolArgs : Type := mkToolArgs {
  ticker : option string;
  companyName : option string;
  quantity : option Js.number;
  maxPurchasePrice : option Js.number
}.

Record ToolCall : Type := mkToolCall {
  id : option string;
  name : string;
  args : ToolArgs
}.

Inductive BaseMessage : Type :=
| HumanMessage (content : string)
| SystemMessage (content : string)
| AIMessage (content : string) (tool_calls : option (list ToolCall))
| ToolMessage (tool_call_id : string) (content : string).

Definition _getType (m : BaseMessage) : string :=
  match m with
  | HumanMessage _ => "human"
  | SystemMessage _ => "system"
  | AIMessage _ _ => "ai"
  | ToolMessage _ _ => "tool"
  end.

(** [(m as AIMessage).tool_calls]: [undefined] on every other message. *)
Definition tool_calls_of (m : BaseMessage) : option (list ToolCall) :=
  match m with
  | AIMessage _ tcs => tcs
  | _ => None
  end.

(** [tool_calls?.length] as a condition. *)
Definition has_length (tcs : option (list ToolCall)) : bool :=
  match tcs with
  | Some (_ :: _) => true
  | _ => false
  end.

(** [tool_calls ?? []]. *)
Definition or_empty (tcs : option (list ToolCall)) : list ToolCall :=
  match tcs with
  | Some l => l
  | None => []
  end.

(** [messages[messages.length - 1]]. *)
Definition last_message (messages : list BaseMessage) : option BaseMessage :=
  match rev messages with
  | [] => None
  | m :: _ => Some m
  end.

Record State : Type := mkState {
  messages : list BaseMessage;
  requestedStockPurchaseDetails : option StockPurchase
}.

(** *** Channels *)

(** An update of the [messages] channel: one message or an array. *)
Inductive MessagesUpdate : Type :=
| OneMessage (m : BaseMessage)
| ManyMessages (ms : list BaseMessage).

(** The reducer of the [messages] channel. *)
Definition messages_value (current : option (list BaseMessage))
    (update : option MessagesUpdate) : list BaseMessage :=
  match current with
  | None | Some [] =>
      match update with
      | Some (ManyMessages ms) => ms
      | Some (OneMessage m) => [m]
      | None => []
      end
  | Some cur =>
      match update with
      | None => cur
      | Some (OneMessage m) => (cur ++ [m])%list
      | Some (ManyMessages ms) => (cur ++ ms)%list
      end
  end.

Definition messages_default : list BaseMessage := [].

Inductive Nullish (A : Type) : Type :=
| Undefined
| Null
| Value (a : A).
Arguments Undefined {A}.
Arguments Null {A}.
Arguments Value {A} a.

(** The reducer of the [requestedStockPurchaseDetails] channel. *)
Definition requestedStockPurchaseDetails_value
    (_current : option StockPurchase) (update : Nullish StockPurchase)
    : option StockPurchase :=
  match update with
  | Undefined => None
  | Null => None
  | Value p => Some p
  end.

Definition requestedStockPurchaseDetails_default : option StockPurchase := None.

(** What a node returns ([Partial<State>]): for each channel, [None] when
    the key is not in the returned object. *)
Record PartialState : Type := mkPartial {
  upd_messages : option MessagesUpdate;
  upd_requestedStockPurchaseDetails : option (Nullish StockPurchase)
}.

(** The graph runtime writes a channel only for the keys present in a
    node's return value, through that channel's reducer. *)
Definition applyUpdate (st : State) (u : PartialState) : State :=
  {| messages :=
       match upd_messages u with
       | None => messages st
       | Some mu => messages_value (Some (messages st)) (Some mu)
       end;
     requestedStockPurchaseDetails :=
       match upd_requestedStockPurchaseDetails u with
       | None => requestedStockPurchaseDetails st
       | Some v =>
           requestedStockPurchaseDetails_value (requestedStockPurchaseDetails st) v
       end |}.

(** ** Node names and routing *)

Definition LLM_NODE : string := "llm".
Definition TOOLS_NODE : string := "tools".
Definition PREPARE_PURCHASE_NODE : string := "prepare_purchase_details".
Definition EXECUTE_PURCHASE_NODE : string := "execute_purchase".
Definition END : string := "__end__".

(** The return type [string | string[]] of the router. *)
Inductive Route : Type :=
| Single (destination : string)
| Fanout (destinations : list string).

Definition shouldContinue (state : State) : Outcome Route :=
  match last_message (messages state) with
  | None => Thrown "TypeError: Cannot read properties of undefined (reading '_getType')"
  | Some lastMessage =>
      let messageCastAI := lastMessage in
      if negb (_getType messageCastAI =? "ai")
         || negb (has_length (tool_calls_of messageCastAI))
      then Returned (Single END)
      else
        match requestedStockPurchaseDetails state with
        | Some _ => Returned (Single EXECUTE_PURCHASE_NODE)
        | None =>
            let tool_calls := tool_calls_of messageCastAI in
            if negb (has_length tool_calls)
            then Thrown "Expected tool_calls to be an array with at least one element"
            else Returned (Fanout
                   (map (fun tc => if name tc =? "purchase_stock"
                                   then PREPARE_PURCHASE_NODE else TOOLS_NODE)
                        (or_empty tool_calls)))
        end
  end.

(** ** The [purchase_stock] tool schema *)

(** [z.T().optional()]: an absent field passes, a present one is checked. *)
Definition optional {A} (check : A -> bool) (v : option A) : bool :=
  match v with
  | None => true
  | Some a => check a
  end.

(** The schema registered with [purchaseStockTool]: four optional fields,
    [quantity] a positive integer and [maxPurchasePrice] positive. *)
Definition purchaseStockTool_schema (input : ToolArgs) : bool :=
  optional (fun _ : string => true) (ticker input)
  && optional (fun _ : string => true) (companyName input)
  && optional (fun q => Js.is_integer q && Js.positive q) (quantity input)
  && optional Js.positive (maxPurchasePrice input).

(** ** External collaborators *)

Record Env : Type := mkEnv {
  (** the content of the system message of [callModel] *)
  systemMessageContent : string;
  (** [llm.bindTools(ALL_TOOLS_LIST).invoke] *)
  llmWithTools_invoke : list BaseMessage -> Outcome BaseMessage;
  (** the prebuilt [ToolNode] over [ALL_TOOLS_LIST]: the messages it appends *)
  toolNode_invoke : State -> Outcome (list BaseMessage);
  (** [webSearchTool.invoke] *)
  webSearchTool_invoke : string -> Outcome string;
  (** [llm.withStructuredOutput({ticker: string}).invoke], for a company name *)
  llmWithTickerOutput_invoke : string -> list BaseMessage -> Outcome string;
  (** [priceSnapshotTool.invoke] *)
  priceSnapshotTool_invoke : string -> Outcome string;
  (** [JSON.parse] *)
  JSON_parse : string -> Outcome Js.json
}.

Definition newline : string := String (ascii_of_nat 10) EmptyString.

(** [JSON.stringify] of a [StockPurchase] object literal
    [{ ticker, quantity, maxPurchasePrice }]. *)
Definition JSON_stringify_StockPurchase (p : StockPurchase) : string :=
  "{" ++ Js.dquote ++ "ticker" ++ Js.dquote ++ ":" ++ Js.stringify_string (sp_ticker p)
  ++ "," ++ Js.dquote ++ "quantity" ++ Js.dquote ++ ":" ++ Js.stringify_number (sp_quantity p)
  ++ "," ++ Js.dquote ++ "maxPurchasePrice" ++ Js.dquote ++ ":"
  ++ Js.stringify_number (sp_maxPurchasePrice p) ++ "}".

(** A node result that only appends messages. *)
Definition only_messages (ms : list BaseMessage) : PartialState :=
  {| upd_messages := Some (ManyMessages ms);
     upd_requestedStockPurchaseDetails := None |}.

Section Nodes.

Variable env : Env.

Definition callModel (state : State) : M PartialState :=
  let systemMessage := SystemMessage (systemMessageContent env) in
  result <- perform ELlm (llmWithTools_invoke env (systemMessage :: messages state)) ;;
  ret (only_messages [result]).

Definition findCompanyName (companyName : string) : M string :=
  let query := "What is the ticker symbol for " ++ companyName ++ "?" in
  searchResults <- perform (EWebSearch query) (webSearchTool_invoke env query) ;;
  let prompt := "Given the following search results, extract the ticker symbol for "
                ++ companyName ++ ":" ++ newline ++ searchResults in
  extractedTicker <- perform (EExtractTicker prompt)
                       (llmWithTickerOutput_invoke env companyName
                          [AIMessage prompt (Some [])]) ;;
  ret extractedTicker.

(** The [try] block of [preparePurchaseDetails]: parse the snapshot, read
    its [price] and insist on a number; the outcome is the price or the
    message of the exception the [catch] clause receives. *)
Definition read_currentPrice (priceSnapshotOutput : string) : Outcome Js.number :=
  match JSON_parse env priceSnapshotOutput with
  | Thrown msg => Thrown msg
  | Returned snapshotData =>
      match snapshotData with
      | Js.JNull => Thrown "Cannot read properties of null (reading 'price')"
      | Js.JObject fields =>
          match Js.assoc "price" fields with
          | Some (Js.JNumber price) => Returned price
          | _ => Thrown "Price is not a number"
          end
      | _ => Thrown "Price is not a number"
      end
  end.

(** [x ?? ""], used where a truthiness test has already excluded
    [undefined]. *)
Definition or_blank (v : option string) : string :=
  match v with
  | Some s => s
  | None => ""
  end.

(** The function mapped over the tool calls in the missing-information
    branch of [preparePurchaseDetails]. *)
Definition missing_info (tc : ToolCall) : M BaseMessage :=
  if negb (Js.truthy (id tc)) then throw "Tool call ID missing in mapping"
  else ret (ToolMessage (or_blank (id tc)) ("Missing info for " ++ name tc)).

(** The second half of [preparePurchaseDetails], from the test that follows
    the resolution of the ticker to the end: the price snapshot, the
    ceiling and the pending record. *)
Definition purchase_with_ticker (purchaseStockToolCall_id : string)
    (args : ToolArgs) (ticker : string) : M PartialState :=
  if negb (Js.truthy (Some ticker)) then
    ret (only_messages
           [ToolMessage purchaseStockToolCall_id "Could not determine ticker.";
            AIMessage "Could not determine ticker." (Some [])])
  else
    priceSnapshotOutput <- perform (EPriceSnapshot ticker)
                             (priceSnapshotTool_invoke env ticker) ;;
    match read_currentPrice priceSnapshotOutput with
    | Thrown e =>
        ret (only_messages
               [ToolMessage purchaseStockToolCall_id ("Price error: " ++ e)])
    | Returned currentPrice =>
        let quantity := match quantity args with
                        | None => Js.of_Z 1
                        | Some q => q
                        end in
        match maxPurchasePrice args with
        | None => throw "maxPurchasePrice is undefined in tool call args"
        | Some maxPurchasePrice =>
            if Js.gtb currentPrice maxPurchasePrice then
              ret (only_messages
                     [ToolMessage purchaseStockToolCall_id
                        ("Price " ++ Js.number_to_string currentPrice
                         ++ " > max " ++ Js.number_to_string maxPurchasePrice)])
            else
              let requestedStockPurchaseDetails :=
                {| sp_ticker := ticker; sp_quantity := quantity;
                   sp_maxPurchasePrice := maxPurchasePrice |} in
              let toolMessage :=
                ToolMessage purchaseStockToolCall_id
                  (JSON_stringify_StockPurchase requestedStockPurchaseDetails) in
              ret {| upd_messages := Some (ManyMessages [toolMessage]);
                     upd_requestedStockPurchaseDetails :=
                       Some (Value requestedStockPurchaseDetails) |}
        end
    end.

(** The first half, once the [purchase_stock] call is found: the
    resolution of the ticker, with its early return. *)
Definition purchase_for_call (tool_calls : list ToolCall)
    (purchaseStockToolCall : ToolCall) : M PartialState :=
  let args := args purchaseStockToolCall in
  let purchaseStockToolCall_id := or_blank (id purchaseStockToolCall) in
  if negb (Js.truthy (ticker args)) then
    if negb (Js.truthy (companyName args)) then
      toolMessages <- mapM missing_info tool_calls ;;
      ret (only_messages
             (toolMessages ++ [AIMessage "Ticker or company name required." (Some [])])%list)
    else
      ticker <- findCompanyName (or_blank (companyName args)) ;;
      purchase_with_ticker purchaseStockToolCall_id args ticker
  else
    purchase_with_ticker purchaseStockToolCall_id args (or_blank (ticker args)).

Definition preparePurchaseDetails (state : State) : M PartialState :=
  match last_message (messages state) with
  | None => throw "TypeError: Cannot read properties of undefined (reading '_getType')"
  | Some lastMessage =>
      if negb (_getType lastMessage =? "ai")
      then throw "Expected the last message to be an AI message"
      else
        let messageCastAI := lastMessage in
        match find (fun tc => name tc =? "purchase_stock")
                   (or_empty (tool_calls_of messageCastAI)) with
        | None => throw "Expected purchase_stock tool call"
        | Some purchaseStockToolCall =>
            if negb (Js.truthy (id purchaseStockToolCall))
            then throw "Purchase stock tool call ID missing"
            else purchase_for_call (or_empty (tool_calls_of messageCastAI))
                   purchaseStockToolCall
        end
  end.

(** The predicate of the backward search of [executePurchase]. *)
Definition relevant (pending : StockPurchase) (tc : ToolCall) : bool :=
  (name tc =? "purchase_stock")
  || match ticker (args tc) with
     | Some t => t =? sp_ticker pending
     | None => false
     end.

(** The [for] loop of [executePurchase], over the history latest first. *)
Fixpoint search_backward (pending : StockPurchase) (latest_first : list BaseMessage)
    : option string :=
  match latest_first with
  | [] => None
  | msg :: earlier =>
      if _getType msg =? "ai" then
        match find (relevant pending) (or_empty (tool_calls_of msg)) with
        | Some relevantToolCall =>
            if Js.truthy (id relevantToolCall) then id relevantToolCall
            else search_backward pending earlier
        | None => search_backward pending earlier
        end
      else search_backward pending earlier
  end.

(** [lastAiMsg?.tool_calls?.[0]?.id] for the latest AI message with calls. *)
Definition first_call_of_last_ai (messages : list BaseMessage) : option string :=
  match find (fun m => (_getType m =? "ai") && has_length (tool_calls_of m))
             (rev messages) with
  | Some lastAiMsg =>
      match or_empty (tool_calls_of lastAiMsg) with
      | tc :: _ => id tc
      | [] => None
      end
  | None => None
  end.

(** What [executePurchase] returns once it has an id to answer to. *)
Definition purchase_confirmation (originalToolCallId : string)
    (pending : StockPurchase) : PartialState :=
  let toolMessageResponse :=
    ToolMessage originalToolCallId
      ("Simulated purchase of " ++ Js.number_to_string (sp_quantity pending)
       ++ " of " ++ sp_ticker pending
       ++ " at <= " ++ Js.number_to_string (sp_maxPurchasePrice pending) ++ ".") in
  {| upd_messages := Some (ManyMessages [toolMessageResponse]);
     upd_requestedStockPurchaseDetails := Some Null |}.

Definition executePurchase (state : State) : M PartialState :=
  match requestedStockPurchaseDetails state with
  | None => throw "Missing purchase details"
  | Some pending =>
      perform (EConsoleLog pending) (Returned tt) ;;;
      let originalToolCallId := search_backward pending (rev (messages state)) in
      let originalToolCallId :=
        if negb (Js.truthy originalToolCallId)
        then first_call_of_last_ai (messages state)
        else originalToolCallId in
      if negb (Js.truthy originalToolCallId)
      then throw "Cannot find tool_call_id for purchase response"
      else ret (purchase_confirmation (or_blank originalToolCallId) pending)
  end.

End Nodes.

(** ** The workflow *)

(** The graph is driven by the LangGraph runtime. What follows records the
    part of its behaviour the workflow relies on: a node's return value is
    merged channel by channel through the reducers, only for the keys it
    holds; the conditional edge out of [llm] is read after the update of
    [llm] is merged; the nodes selected by one routing decision all run on
    the same input state before control returns to [llm]; an exception in
    a node fails the run. *)

(** The mapping handed to [addConditionalEdges]. *)
Definition conditionalEdgeMapping : list (string * string) :=
  [ (TOOLS_NODE, TOOLS_NODE);
    (PREPARE_PURCHASE_NODE, PREPARE_PURCHASE_NODE);
    (EXECUTE_PURCHASE_NODE, EXECUTE_PURCHASE_NODE);
    (END, END) ].

Fixpoint lookup_edge (key : string) (mapping : list (string * string)) : option string :=
  match mapping with
  | [] => None
  | (k, v) :: rest => if k =? key then Some v else lookup_edge key rest
  end.

(** Where the graph stands between two steps: about to run the [llm]
    node, about to run the nodes the router selected (all on the same
    input state), stopped with the final state, or failed. *)
Inductive Config : Type :=
| AtLLM (st : State)
| AtNodes (nodes : list string) (st : State)
| Stopped (st : State)
| Failed (msg : string).

Definition destinations (r : Route) : list string :=
  match r with
  | Single d => [d]
  | Fanout ds => ds
  end.

(** The destinations of a route through the edge mapping; [None] when one
    of them is not a key of the mapping. *)
Fixpoint resolve (ds : list string) : option (list string) :=
  match ds with
  | [] => Some []
  | d :: rest =>
      match lookup_edge d conditionalEdgeMapping, resolve rest with
      | Some n, Some ns => Some (n :: ns)
      | _, _ => None
      end
  end.

(** The conditional edge out of [llm]: a destination named several times
    is triggered once, and [END] triggers nothing. *)
Definition route (st : State) : Config :=
  match shouldContinue st with
  | Thrown msg => Failed msg
  | Returned r =>
      match resolve (destinations r) with
      | None => Failed "Branch returned an unknown destination"
      | Some ns =>
          match filter (fun n => negb (n =? END)) (nodup string_dec ns) with
          | [] => Stopped st
          | next => AtNodes next st
          end
      end
  end.

Section Workflow.

Variable env : Env.

(** [workflow.addNode]: the function behind each node name. *)
Definition runNode (n : string) (st : State) : M PartialState :=
  if n =? LLM_NODE then callModel env st
  else if n =? TOOLS_NODE then
    ms <- perform EToolNode (toolNode_invoke env st) ;; ret (only_messages ms)
  else if n =? PREPARE_PURCHASE_NODE then preparePurchaseDetails env st
  else if n =? EXECUTE_PURCHASE_NODE then executePurchase st
  else throw "Unknown node".

(** One step with several nodes: each runs on the state the step started
    from, and the updates are merged through the channels. *)
Fixpoint run_nodes (ns : list string) (input acc : State) : M State :=
  match ns with
  | [] => ret acc
  | n :: rest => u <- runNode n input ;; run_nodes rest input (applyUpdate acc u)
  end.

(** [llm] is the entry point; its conditional edge is [shouldContinue];
    [tools], [prepare_purchase_details] and [execute_purchase] each have one
    edge back to [llm]. *)
Definition step (c : Config) : Config :=
  match c with
  | AtLLM st =>
      match outcome (callModel env st) with
      | Thrown msg => Failed msg
      | Returned u => route (applyUpdate st u)
      end
  | AtNodes ns st =>
      match outcome (run_nodes ns st st) with
      | Thrown msg => Failed msg
      | Returned st' => AtLLM st'
      end
  | Stopped st => Stopped st
  | Failed msg => Failed msg
  end.

Fixpoint steps (k : nat) (c : Config) : Config :=
  match k with
  | O => c
  | S k' => steps k' (step c)
  end.

(** The configurations a run of the compiled graph goes through, from the
    input state [init]. *)
Inductive reachable (init : State) : Config -> Prop :=
| reachable_start : reachable init (AtLLM init)
| reachable_step : forall c, reachable init c -> reachable init (step c).

End Workflow.

(** ** Counting tool results *)

(** The tool-result messages of [ms] that answer the call [call_id]. *)
Fixpoint results_for (call_id : string) (ms : list BaseMessage) : nat :=
  match ms with
  | [] => 0
  | ToolMessage i _ :: rest =>
      if i =? call_id then S (results_for call_id rest) else results_for call_id rest
  | _ :: rest => results_for call_id rest
  end.

(** The messages a node result appends. *)
Definition new_messages (u : PartialState) : list BaseMessage :=
  match upd_messages u with
  | None => []
  | Some (OneMessage m) => [m]
  | Some (ManyMessages ms) => ms
  end.

(** The state a configuration carries, if any. *)
Definition state_of (c : Config) : option State :=
  match c with
  | AtLLM st | AtNodes _ st | Stopped st => Some st
  | Failed _ => None
  end.

(** The numbers of tool results for the call ids [i] and [j] in the
    history once the nodes selected for [st] have run. *)
Definition results_after (env : Env) (st : State) (i j : string)
    : option (nat * nat) :=
  option_map (fun st' => (results_for i (messages st'), results_for j (messages st')))
             (state_of (step env (route st))).

(** ** The results of Purchase Preparation *)

(** The tool message of the missing-information branch for one call. *)
Definition missing_info_message (tc : ToolCall) : BaseMessage :=
  ToolMessage (or_blank (id tc)) ("Missing info for " ++ name tc).

(** The five ways [preparePurchaseDetails] returns, for the id [pid] of the
    [purchase_stock] call it found among the calls [tcs] of the message. *)
Inductive Prepared (pid : string) (tcs : list ToolCall) : PartialState -> Prop :=
| prepared_missing_info :
    Forall (fun tc => Js.truthy (id tc) = true) tcs ->
    Prepared pid tcs
      (only_messages
         (map missing_info_message tcs
          ++ [AIMessage "Ticker or company name required." (Some [])])%list)
| prepared_no_ticker :
    Prepared pid tcs
      (only_messages [ToolMessage pid "Could not determine ticker.";
                      AIMessage "Could not determine ticker." (Some [])])
| prepared_price_error (e : string) :
    Prepared pid tcs (only_messages [ToolMessage pid ("Price error: " ++ e)])
| prepared_rejected (currentPrice max : Js.number) :
    Js.gtb currentPrice max = true ->
    Prepared pid tcs
      (only_messages [ToolMessage pid ("Price " ++ Js.number_to_string currentPrice
                                       ++ " > max " ++ Js.number_to_string max)])
| prepared_accepted (p : StockPurchase) :
    Prepared pid tcs
      {| upd_messages :=
           Some (ManyMessages [ToolMessage pid (JSON_stringify_StockPurchase p)]);
         upd_requestedStockPurchaseDetails := Some (Value p) |}.

(** The ticker that [preparePurchaseDetails] goes on with: the [ticker]
    argument when it is truthy, otherwise what [findCompanyName] returns
    for a truthy [companyName]. *)
Definition resolves_to (env : Env) (a : ToolArgs) (t : string) : Prop :=
  (Js.truthy (ticker a) = true /\ ticker a = Some t)
  \/ (Js.truthy (ticker a) = false /\ Js.truthy (companyName a) = true
      /\ outcome (findCompanyName env (or_blank (companyName a))) = Returned t).

(** The price snapshots requested in an effect trace. *)
Fixpoint snapshot_calls (tr : list Effect) : nat :=
  match tr with
  | [] => 0
  | EPriceSnapshot _ :: rest => S (snapshot_calls rest)
  | _ :: rest => snapshot_calls rest
  end.

(** ** The history seen by Purchase Execution *)

(** No call of any message of [ms] is purchase-named or has the pending
    ticker as its [ticker] argument. *)
Definition no_relevant_call (pending : StockPurchase) (ms : list BaseMessage) : Prop :=
  Forall (fun m => Forall (fun tc => relevant pending tc = false)
                          (or_empty (tool_calls_of m))) ms.

(** No message of [ms] carries a tool call. *)
Definition no_tool_calls (ms : list BaseMessage) : Prop :=
  Forall (fun m => has_length (tool_calls_of m) = false) ms.

(** Some message of [ms] carries a call named [purchase_stock]. *)
Definition mentions_purchase_call (ms : list BaseMessage) : bool :=
  existsb (fun m => existsb (fun tc => name tc =? "purchase_stock")
                            (or_empty (tool_calls_of m))) ms.

(** ** What the router schedules *)

(** The nodes scheduled after [llm] agree with the pending purchase:
    Execution alone when a purchase is pending, tools and Preparation only
    when none is. *)
Definition scheduled_ok (c : Config) : Prop :=
  match c with
  | AtNodes ns st =>
      ((exists p, requestedStockPurchaseDetails st = Some p)
       /\ ns = [EXECUTE_PURCHASE_NODE])
      \/ (requestedStockPurchaseDetails st = None
          /\ Forall (fun n => n = TOOLS_NODE \/ n = PREPARE_PURCHASE_NODE) ns)
  | _ => True
  end.

(** The destination [shouldContinue] gives to one tool call. *)
Definition destination_of (tc : ToolCall) : string :=
  if name tc =? "purchase_stock" then PREPARE_PURCHASE_NODE else TOOLS_NODE.

(** ** Further vocabulary for the nodes *)

(** Some assistant message of [ms] holds a tool call whose id is [i]. *)
Definition call_in_history (i : string) (ms : list BaseMessage) : Prop :=
  exists content tcs tc,
    In (AIMessage content (Some tcs)) ms /\ In tc tcs /\ id tc = Some i.

(** The web searches and structured extractions of an effect trace. *)
Fixpoint lookup_calls (tr : list Effect) : nat :=
  match tr with
  | [] => 0
  | EWebSearch _ :: rest => S (lookup_calls rest)
  | EExtractTicker _ :: rest => S (lookup_calls rest)
  | _ :: rest => lookup_calls rest
  end.

(** [quantity === undefined ? 1 : quantity]. *)
Definition quantity_or_one (a : ToolArgs) : Js.number :=
  match quantity a with
  | None => Js.of_Z 1
  | Some q => q
  end.

(** The query and the prompt [findCompanyName] builds for a company. *)
Definition ticker_query (companyName : string) : string :=
  "What is the ticker symbol for " ++ companyName ++ "?".

Definition ticker_prompt (companyName searchResults : string) : string :=
  "Given the following search results, extract the ticker symbol for "
  ++ companyName ++ ":" ++ newline ++ searchResults.

(** The four messages with which [preparePurchaseDetails] rejects a state
    before it looks at the arguments of the purchase call. *)
Definition preparation_guards : list string :=
  [ "TypeError: Cannot read properties of undefined (reading '_getType')";
    "Expected the last message to be an AI message";
    "Expected purchase_stock tool call";
    "Purchase stock tool call ID missing" ].

(** ** Concrete conversations *)

Module Examples.

(** A snapshot payload with a numeric price. *)
Definition snapshot (price : Js.number) : Js.json :=
  Js.JObject [("price", Js.JNumber price); ("ticker", Js.JString "AAPL")].

(** An environment whose price snapshot always parses to [payload], whose
    search and extraction resolve every company to [ACME], and whose
    model answers in plain text. *)
Definition env_with (payload : Outcome Js.json) : Env :=
  {| systemMessageContent := "You are an expert financial analyst.";
     llmWithTools_invoke := fun _ => Returned (AIMessage "Done." (Some []));
     toolNode_invoke := fun _ => Returned [];
     webSearchTool_invoke := fun _ => Returned "Acme Corp (NYSE: ACME)";
     llmWithTickerOutput_invoke := fun _ _ => Returned "ACME";
     priceSnapshotTool_invoke := fun _ => Returned "<snapshot>";
     JSON_parse := fun _ => payload |}.

Definition env_price (price : Js.number) : Env := env_with (Returned (snapshot price)).

Definition purchase_call (call_id : string) (a : ToolArgs) : ToolCall :=
  {| id := Some call_id; name := "purchase_stock"; args := a |}.

Definition no_args : ToolArgs :=
  {| ticker := None; companyName := None; quantity := None; maxPurchasePrice := None |}.

Definition aapl_args : ToolArgs :=
  {| ticker := Some "AAPL"; companyName := None;
     quantity := Some (Js.of_Z 5); maxPurchasePrice := Some (Js.of_Z 300) |}.

Definition aapl_purchase : StockPurchase :=
  {| sp_ticker := "AAPL"; sp_quantity := Js.of_Z 5;
     sp_maxPurchasePrice := Js.of_Z 300 |}.

(** The user asks to buy and the model requests [purchase_stock]. *)
Definition aapl_request : State :=
  {| messages := [HumanMessage "Buy 5 AAPL at no more than 300";
                  AIMessage "" (Some [purchase_call "call_1" aapl_args])];
     requestedStockPurchaseDetails := None |}.

Definition aapl_record_text : string :=
  "{" ++ Js.dquote ++ "ticker" ++ Js.dquote ++ ":" ++ Js.dquote ++ "AAPL" ++ Js.dquote
  ++ "," ++ Js.dquote ++ "quantity" ++ Js.dquote ++ ":5,"
  ++ Js.dquote ++ "maxPurchasePrice" ++ Js.dquote ++ ":300}".

Definition msft_args : ToolArgs :=
  {| ticker := Some "MSFT"; companyName := None;
     quantity := Some (Js.of_Z 2); maxPurchasePrice := Some (Js.of_Z 100) |}.

(** One assistant message asking for two purchases at once. *)
Definition two_purchases : State :=
  {| messages := [HumanMessage "Buy 5 AAPL and 2 MSFT";
                  AIMessage "" (Some [purchase_call "call_1" aapl_args;
                                      purchase_call "call_2" msft_args])];
     requestedStockPurchaseDetails := None |}.

(** A tool node that answers every call of the last assistant message,
    as the prebuilt [ToolNode] does. *)
Definition answer_every_call (st : State) : Outcome (list BaseMessage) :=
  match last_message (messages st) with
  | Some m =>
      Returned (map (fun tc => ToolMessage (or_blank (id tc)) ("Result of " ++ name tc))
                    (or_empty (tool_calls_of m)))
  | None => Returned []
  end.

(** An environment like [env_price price] with that tool node. *)
Definition env_answering (price : Js.number) : Env :=
  {| systemMessageContent := "You are an expert financial analyst.";
     llmWithTools_invoke := fun _ => Returned (AIMessage "Done." (Some []));
     toolNode_invoke := answer_every_call;
     webSearchTool_invoke := fun _ => Returned "Acme Corp (NYSE: ACME)";
     llmWithTickerOutput_invoke := fun _ _ => Returned "ACME";
     priceSnapshotTool_invoke := fun _ => Returned "<snapshot>";
     JSON_parse := fun _ => Returned (snapshot price) |}.

(** One assistant message asking for a purchase and for a price. *)
Definition purchase_and_lookup : State :=
  {| messages := [HumanMessage "Buy 5 AAPL and show me MSFT";
                  AIMessage "" (Some [purchase_call "call_1" aapl_args;
                                      {| id := Some "call_2"; name := "price_snapshot";
                                         args := msft_args |}])];
     requestedStockPurchaseDetails := None |}.

(** Preparation has accepted the AAPL purchase, and the model now asks
    for the price of MSFT. *)
Definition lookup_while_pending : State :=
  {| messages := [HumanMessage "Buy 5 AAPL at no more than 300";
                  AIMessage "" (Some [purchase_call "call_1" aapl_args]);
                  ToolMessage "call_1" aapl_record_text;
                  AIMessage "" (Some [{| id := Some "call_3"; name := "price_snapshot";
                                         args := msft_args |}])];
     requestedStockPurchaseDetails := Some aapl_purchase |}.

(** A purchase request with a ceiling of 100. *)
Definition capped_args : ToolArgs :=
  {| ticker := Some "AAPL"; companyName := None;
     quantity := None; maxPurchasePrice := Some (Js.of_Z 100) |}.

Definition capped_request : State :=
  {| messages := [HumanMessage "Buy AAPL below 100";
                  AIMessage "" (Some [purchase_call "call_1" capped_args])];
     requestedStockPurchaseDetails := None |}.

(** A purchase request naming neither a ticker nor a company, next to a
    call of another tool. *)
Definition anonymous_request : State :=
  {| messages := [HumanMessage "Buy some stock";
                  AIMessage "" (Some [purchase_call "call_1" no_args;
                                      {| id := Some "call_2"; name := "price_snapshot";
                                         args := aapl_args |}])];
     requestedStockPurchaseDetails := None |}.

(** A purchase request without a price ceiling. *)
Definition uncapped_args : ToolArgs :=
  {| ticker := Some "AAPL"; companyName := None;
     quantity := Some (Js.of_Z 5); maxPurchasePrice := None |}.

Definition uncapped_request : State :=
  {| messages := [HumanMessage "Buy 5 AAPL";
                  AIMessage "" (Some [purchase_call "call_1" uncapped_args])];
     requestedStockPurchaseDetails := None |}.

(** An assistant message with an empty list of tool calls. *)
Definition empty_calls : State :=
  {| messages := [HumanMessage "Hello"; AIMessage "" (Some [])];
     requestedStockPurchaseDetails := None |}.

(** A purchase is pending and the model asks for a price snapshot. *)
Definition pending_with_other_call : State :=
  {| messages := [HumanMessage "What about MSFT?";
                  AIMessage "" (Some [{| id := Some "call_9"; name := "price_snapshot";
                                         args := msft_args |}])];
     requestedStockPurchaseDetails := Some aapl_purchase |}.

(** The user has asked to buy; the model has not answered yet. *)
Definition aapl_asked : State :=
  {| messages := [HumanMessage "Buy 5 AAPL at no more than 300"];
     requestedStockPurchaseDetails := None |}.

(** An environment like [env_price 190] whose model requests the purchase. *)
Definition env_buying : Env :=
  {| systemMessageContent := "You are an expert financial analyst.";
     llmWithTools_invoke :=
       fun _ => Returned (AIMessage "" (Some [purchase_call "call_1" aapl_args]));
     toolNode_invoke := fun _ => Returned [];
     webSearchTool_invoke := fun _ => Returned "Acme Corp (NYSE: ACME)";
     llmWithTickerOutput_invoke := fun _ _ => Returned "ACME";
     priceSnapshotTool_invoke := fun _ => Returned "<snapshot>";
     JSON_parse := fun _ => Returned (snapshot (Js.of_Z 190)) |}.

(** The conversation after Preparation has accepted the AAPL purchase. *)
Definition aapl_prepared : State :=
  {| messages := [HumanMessage "Buy 5 AAPL at no more than 300";
                  AIMessage "" (Some [purchase_call "call_1" aapl_args]);
                  ToolMessage "call_1" aapl_record_text];
     requestedStockPurchaseDetails := Some aapl_purchase |}.

(** The same conversation once the model has asked again for the purchase,
    which routes to Execution. *)
Definition aapl_confirming : State :=
  {| messages := [HumanMessage "Buy 5 AAPL at no more than 300";
                  AIMessage "" (Some [purchase_call "call_1" aapl_args]);
                  ToolMessage "call_1" aapl_record_text;
                  AIMessage "" (Some [purchase_call "call_2" aapl_args])];
     requestedStockPurchaseDetails := Some aapl_purchase |}.

(** A purchase is pending but the history holds no tool call at all. *)
Definition pending_without_calls : State :=
  {| messages := [HumanMessage "Go ahead"];
     requestedStockPurchaseDetails := Some aapl_purchase |}.

(** The last message is the user's. *)
Definition greeting : State :=
  {| messages := [HumanMessage "Hello"];
     requestedStockPurchaseDetails := None |}.

(** An environment given by what the search, the extraction and the
    parsing of the snapshot answer. *)
Definition env_lookup (search extracted : Outcome string)
    (payload : Outcome Js.json) : Env :=
  {| systemMessageContent := "You are an expert financial analyst.";
     llmWithTools_invoke := fun _ => Returned (AIMessage "Done." (Some []));
     toolNode_invoke := fun _ => Returned [];
     webSearchTool_invoke := fun _ => search;
     llmWithTickerOutput_invoke := fun _ _ => extracted;
     priceSnapshotTool_invoke := fun _ => Returned "<snapshot>";
     JSON_parse := fun _ => payload |}.

(** A purchase request that names the company only. *)
Definition acme_args : ToolArgs :=
  {| ticker := None; companyName := Some "Acme Corp";
     quantity := None; maxPurchasePrice := Some (Js.of_Z 50) |}.

Definition acme_request : State :=
  {| messages := [HumanMessage "Buy Acme Corp below 50";
                  AIMessage "" (Some [purchase_call "call_1" acme_args])];
     requestedStockPurchaseDetails := None |}.

Definition acme_purchase : StockPurchase :=
  {| sp_ticker := "ACME"; sp_quantity := Js.of_Z 1;
     sp_maxPurchasePrice := Js.of_Z 50 |}.

Definition acme_query : string := "What is the ticker symbol for Acme Corp?".

Definition acme_prompt : string :=
  "Given the following search results, extract the ticker symbol for Acme Corp:"
  ++ newline ++ "Acme Corp (NYSE: ACME)".

(** The number 300.25. *)
Definition a_quarter_above_300 : Js.number :=
  {| Js.value := Js.Finite (Qmake 30025 100); Js.text := "300.25" |}.

(** The number 10^21, the first integer JavaScript prints with an
    exponent. *)
Definition sextillion : Js.number :=
  {| Js.value := Js.Finite (inject_Z (10 ^ 21)); Js.text := "1e+21" |}.

(** A purchase request for AAPL with a ceiling of 10^21. *)
Definition open_args : ToolArgs :=
  {| ticker := Some "AAPL"; companyName := None;
     quantity := None; maxPurchasePrice := Some sextillion |}.

Definition open_request : State :=
  {| messages := [HumanMessage "Buy AAPL at any price";
                  AIMessage "" (Some [purchase_call "call_1" open_args])];
     requestedStockPurchaseDetails := None |}.

Definition open_purchase : StockPurchase :=
  {| sp_ticker := "AAPL"; sp_quantity := Js.of_Z 1;
     sp_maxPurchasePrice := sextillion |}.

Definition open_record_text : string :=
  "{" ++ Js.dquote ++ "ticker" ++ Js.dquote ++ ":" ++ Js.dquote ++ "AAPL" ++ Js.dquote
  ++ "," ++ Js.dquote ++ "quantity" ++ Js.dquote ++ ":1,"
  ++ Js.dquote ++ "maxPurchasePrice" ++ Js.dquote ++ ":1e+21}".

(** The result of Preparation on an accepted purchase. *)
Definition accepted (call_id : string) (p : StockPurchase) : PartialState :=
  {| upd_messages :=
       Some (ManyMessages [ToolMessage call_id (JSON_stringify_StockPurchase p)]);
     upd_requestedStockPurchaseDetails := Some (Value p) |}.

End Examples.

(** * The tool registry: the financial-data API and the tools built on it *)

Module Tools.

(** ** HTTP, as [fetch] shows it *)

Inductive Method : Type := GET | POST.

Definition method_name (m : Method) : string :=
  match m with
  | GET => "GET"
  | POST => "POST"
  end.

Record Request : Type := mkRequest {
  url : string;
  method : string;
  headers : list (string * string);
  body : option string
}.

(** A response: [ok], [status], [statusText] and the body. The body is
    read once: [response_body] is [None] for a response without a body,
    and otherwise what reading the body and parsing it as JSON resolves
    to or is rejected with. *)
Record Response : Type := mkResponse {
  ok : bool;
  status : Js.number;
  statusText : string;
  response_body : option (Outcome Js.json)
}.

(** [response.json()]. Without a body there is nothing to parse. *)
Definition json (response : Response) : Outcome Js.json :=
  match response_body response with
  | Some parsed => parsed
  | None => Thrown "Unexpected end of JSON input"
  end.

(** [response.text()] where the code calls it, after [json()] has been
    rejected: a body has been consumed by then and the call is rejected;
    a response without a body gives the empty string. *)
Definition text (response : Response) : Outcome string :=
  match response_body response with
  | Some _ => Thrown "Body is unusable: Body has already been read"
  | None => Returned ""
  end.

(** The process environment and the built-ins the tools call. *)
Record Http : Type := mkHttp {
  (** [process.env.FINANCIAL_DATASETS_API_KEY] *)
  FINANCIAL_DATASETS_API_KEY : option string;
  (** [fetch] *)
  fetch : Request -> Outcome Response;
  (** [new URLSearchParams(params).toString()] *)
  URLSearchParams_toString : list (string * string) -> string;
  (** [JSON.stringify(value)] and [JSON.stringify(value, null)] *)
  JSON_stringify : Js.json -> string;
  (** [JSON.stringify(value, null, 2)] *)
  JSON_stringify_2 : Js.json -> string
}.

(** ** Effects of a tool *)

Inductive ToolEffect : Type :=
| Fetch (request : Request)
| ConsoleWarn (label message : string)
| ConsoleError (label : string).

Definition T (A : Type) : Type := (list ToolEffect * Outcome A)%type.

Definition pure {A} (a : A) : T A := ([], Returned a).
Definition raise {A} (msg : string) : T A := ([], Thrown msg).
Definition effect {A} (e : ToolEffect) (answer : Outcome A) : T A := ([e], answer).

Definition andThen {A B} (m : T A) (k : A -> T B) : T B :=
  match m with
  | (t, Thrown msg) => (t, Thrown msg)
  | (t, Returned a) => let (t', r) := k a in ((t ++ t')%list, r)
  end.

(** [try { m } catch (e) { handler(e.message) }]. *)
Definition try_catch {A} (m : T A) (handler : string -> T A) : T A :=
  match m with
  | (t, Returned a) => (t, Returned a)
  | (t, Thrown msg) => let (t', r) := handler msg in ((t ++ t')%list, r)
  end.

Definition effects {A} (m : T A) : list ToolEffect := fst m.
Definition result {A} (m : T A) : Outcome A := snd m.

(** The requests among the effects. *)
Fixpoint requests (tr : list ToolEffect) : list Request :=
  match tr with
  | [] => []
  | Fetch r :: rest => r :: requests rest
  | ConsoleWarn _ _ :: rest => requests rest
  | ConsoleError _ :: rest => requests rest
  end.

(** ** JavaScript values read from a response *)

(** Truthiness of a parsed JSON value. *)
Definition truthy_json (v : Js.json) : bool :=
  match v with
  | Js.JNull => false
  | Js.JBool b => b
  | Js.JNumber n => Js.nonzero n
  | Js.JString s => negb (s =? "")
  | Js.JArray _ => true
  | Js.JObject _ => true
  end.

(** [value.key] for a parsed JSON value and a key that is not an own
    property of strings or arrays: a type error on [null], [undefined]
    on the other values that are not objects. *)
Definition get (v : Js.json) (key : string) : Outcome (option Js.json) :=
  match v with
  | Js.JNull => Thrown ("Cannot read properties of null (reading '" ++ key ++ "')")
  | Js.JObject fields => Returned (Js.assoc key fields)
  | _ => Returned None
  end.

(** [field || []]. *)
Definition or_empty_array (field : option Js.json) : Js.json :=
  match field with
  | Some v => if truthy_json v then v else Js.JArray []
  | None => Js.JArray []
  end.

(** ** [callFinancialDatasetAPI] *)

Record ApiFields : Type := mkApiFields {
  endpoint : string;
  params : option (list (string * string));
  api_method : option Method;
  api_body : option Js.json
}.

Definition baseURL : string := "https://api.financialdatasets.ai".

Section WithHttp.

Variable http : Http.

(** The request [callFinancialDatasetAPI] sends with the key [key]. *)
Definition api_request (key : string) (fields : ApiFields) : Request :=
  let queryParams := match params fields with
                     | Some ps => URLSearchParams_toString http ps
                     | None => ""
                     end in
  let url := baseURL ++ endpoint fields
             ++ (if negb (queryParams =? "") then "?" ++ queryParams else "") in
  let requestMethod := match api_method fields with
                       | Some m => m
                       | None => GET
                       end in
  let headers := ("X-API-KEY", key)
                 :: match requestMethod with
                    | POST => [("Content-Type", "application/json")]
                    | GET => []
                    end in
  {| url := url;
     method := method_name requestMethod;
     headers := headers;
     body := match api_body fields with
             | Some b => Some (JSON_stringify http b)
             | None => None
             end |}.

(** The text of a failed response: its JSON, pretty-printed; when
    [json()] is rejected, what [text()] then gives, or else the status
    text. *)
Definition failure_text (response : Response) : string :=
  match json response with
  | Returned v => JSON_stringify_2 http v
  | Thrown _ =>
      match text response with
      | Returned s => s
      | Thrown _ => statusText response
      end
  end.

Definition callFinancialDatasetAPI (fields : ApiFields) : T Js.json :=
  if negb (Js.truthy (FINANCIAL_DATASETS_API_KEY http))
  then raise "FINANCIAL_DATASETS_API_KEY is not set"
  else
    let request := api_request (or_blank (FINANCIAL_DATASETS_API_KEY http)) fields in
    andThen (effect (Fetch request) (fetch http request)) (fun response =>
    if negb (ok response) then
      raise ("Failed to fetch data from " ++ endpoint fields ++ "." ++ newline
             ++ "Status: " ++ Js.number_to_string (status response) ++ newline
             ++ "Response: " ++ failure_text response)
    else ([], json response)).

(** ** The tools *)

(** The [catch] clause shared by the shape of every tool: warn, then
    answer with the error as text. *)
Definition report (warning failure : string) (e : string) : T string :=
  andThen (effect (ConsoleWarn warning e) (Returned tt)) (fun _ =>
  pure (failure ++ e)).

(** The parsed input of the three statement tools. The schema gives
    [period] and [limit] their defaults, so both are defined when the tool
    runs and [input.period ?? "annual"] and [input.limit.toString() ?? "5"]
    are the period and the decimal text of the limit. *)
Record StatementsInput : Type := mkStatementsInput {
  in_ticker : string;
  in_period : string;
  in_limit : Js.number
}.

Definition statements_params (input : StatementsInput) : list (string * string) :=
  [ ("ticker", in_ticker input);
    ("period", in_period input);
    ("limit", Js.number_to_string (in_limit input)) ].

Definition incomeStatementsTool (input : StatementsInput) : T string :=
  try_catch
    (andThen (callFinancialDatasetAPI
                {| endpoint := "/financials/income-statements";
                   params := Some (statements_params input);
                   api_method := None; api_body := None |})
             (fun data => pure (JSON_stringify http data)))
    (report "Error fetching income statements"
            "An error occurred while fetching income statements: ").

Definition balanceSheetsTool (input : StatementsInput) : T string :=
  try_catch
    (andThen (callFinancialDatasetAPI
                {| endpoint := "/financials/balance-sheets";
                   params := Some (statements_params input);
                   api_method := None; api_body := None |})
             (fun data => pure (JSON_stringify http data)))
    (report "Error fetching balance sheets"
            "An error occurred while fetching balance sheets: ").

Definition cashFlowStatementsTool (input : StatementsInput) : T string :=
  try_catch
    (andThen (callFinancialDatasetAPI
                {| endpoint := "/financials/cash-flow-statements";
                   params := Some (statements_params input);
                   api_method := None; api_body := None |})
             (fun data => pure (JSON_stringify http data)))
    (report "Error fetching cash flow statements"
            "An error occurred while fetching cash flow statements: ").

Definition companyFactsTool (ticker : string) : T string :=
  try_catch
    (andThen (callFinancialDatasetAPI
                {| endpoint := "/company/facts";
                   params := Some [("ticker", ticker)];
                   api_method := None; api_body := None |})
             (fun data => pure (JSON_stringify http data)))
    (report "Error fetching company facts"
            "An error occurred while fetching company facts: ").

Definition priceSnapshotTool (ticker : string) : T string :=
  try_catch
    (andThen (callFinancialDatasetAPI
                {| endpoint := "/prices/snapshot";
                   params := Some [("ticker", ticker)];
                   api_method := None; api_body := None |})
             (fun data => pure (JSON_stringify http data)))
    (report "Error fetching price snapshots"
            "An error occurred while fetching price snapshots: ").

Definition financialMetricsSnapshotTool (ticker : string) : T string :=
  try_catch
    (andThen (callFinancialDatasetAPI
                {| endpoint := "/financial-metrics/snapshot";
                   params := Some [("ticker", ticker)];
                   api_method := None; api_body := None |})
             (fun data => pure (JSON_stringify http data)))
    (report "Error fetching financial metrics snapshot"
            "An error occurred while fetching financial metrics snapshot: ").

(** [financialsSearchTool]: the parsed input is the body of the request. *)
Definition financialsSearchTool (input : Js.json) : T string :=
  try_catch
    (andThen (callFinancialDatasetAPI
                {| endpoint := "/financials/search";
                   params := None;
                   api_method := Some POST; api_body := Some input |})
             (fun data => pure (JSON_stringify http data)))
    (report "Error during financial search"
            "An error occurred during financial search: ").

(** The input of [secFilingsTool]. *)
Record SecFilingsInput : Type := mkSecFilingsInput {
  sec_ticker : option string;
  sec_cik : option string;
  sec_filing_type : option string
}.

(** The [params] object [secFilingsTool] fills, key by key. *)
Definition sec_filings_params (input : SecFilingsInput) : list (string * string) :=
  (if Js.truthy (sec_ticker input) then [("ticker", or_blank (sec_ticker input))] else [])
  ++ (if Js.truthy (sec_cik input) then [("cik", or_blank (sec_cik input))] else [])
  ++ (if Js.truthy (sec_filing_type input)
      then [("filing_type", or_blank (sec_filing_type input))] else []).

Definition secFilingsTool (input : SecFilingsInput) : T string :=
  if negb (Js.truthy (sec_ticker input)) && negb (Js.truthy (sec_cik input))
  then pure "Error: Either ticker or CIK must be provided to sec_filings tool."
  else
    try_catch
      (andThen (callFinancialDatasetAPI
                  {| endpoint := "/filings";
                     params := Some (sec_filings_params input);
                     api_method := None; api_body := None |})
               (fun data =>
                  andThen ([], get data "filings") (fun filings =>
                  pure (JSON_stringify_2 http (or_empty_array filings)))))
      (report "Error fetching SEC filings:"
              "An error occurred while fetching SEC filings: ").

Definition getAvailableTickersTool : T string :=
  try_catch
    (andThen (callFinancialDatasetAPI
                {| endpoint := "/filings/tickers/";
                   params := None;
                   api_method := None; api_body := None |})
             (fun data =>
                andThen ([], get data "tickers") (fun tickers =>
                pure (JSON_stringify_2 http (or_empty_array tickers)))))
    (report "Error fetching available tickers:"
            "An error occurred while fetching available tickers: ").

(** The tools of the registry that answer with the text of an API
    response, each with the prefix of its error text. *)
Definition api_tools (input : StatementsInput) (ticker : string) (query : Js.json)
    : list (string * T string) :=
  [ ("An error occurred while fetching income statements: ", incomeStatementsTool input);
    ("An error occurred while fetching balance sheets: ", balanceSheetsTool input);
    ("An error occurred while fetching cash flow statements: ",
     cashFlowStatementsTool input);
    ("An error occurred while fetching company facts: ", companyFactsTool ticker);
    ("An error occurred while fetching price snapshots: ", priceSnapshotTool ticker);
    ("An error occurred while fetching financial metrics snapshot: ",
     financialMetricsSnapshotTool ticker);
    ("An error occurred during financial search: ", financialsSearchTool query);
    ("An error occurred while fetching available tickers: ", getAvailableTickersTool) ].

End WithHttp.

(** ** Schemas *)

(** The raw input of a statement tool, before the schema. *)
Record StatementsRaw : Type := mkStatementsRaw {
  raw_ticker : option string;
  raw_period : option string;
  raw_limit : option Js.number
}.

Definition periods : list string := ["annual"; "quarterly"; "ttm"].

(** The schema shared by the three statement tools: [ticker] a string,
    [period] one of [periods] with default [annual], [limit] a positive
    integer with default 5. [None] is a validation failure. *)
Definition statements_schema (raw : StatementsRaw) : option StatementsInput :=
  match raw_ticker raw with
  | None => None
  | Some t =>
      let period := match raw_period raw with
                    | None => Some "annual"
                    | Some p => if existsb (String.eqb p) periods then Some p else None
                    end in
      let limit := match raw_limit raw with
                   | None => Some (Js.of_Z 5)
                   | Some l => if Js.is_integer l && Js.positive l
                               then Some l else None
                   end in
      match period, limit with
      | Some p, Some l => Some {| in_ticker := t; in_period := p; in_limit := l |}
      | _, _ => None
      end
  end.

Definition filing_types : list string := ["10-K"; "10-Q"; "8-K"; "4"; "144"].

(** [BaseSecFilingsInputSchema]: three optional fields, [filing_type] one
    of [filing_types]. *)
Definition BaseSecFilingsInputSchema (input : SecFilingsInput) : bool :=
  optional (fun f => existsb (String.eqb f) filing_types) (sec_filing_type input).

(** [SecFilingsInputSchema]: the base schema refined by
    [data.ticker || data.cik]. *)
Definition SecFilingsInputSchema (input : SecFilingsInput) : bool :=
  BaseSecFilingsInputSchema input
  && (Js.truthy (sec_ticker input) || Js.truthy (sec_cik input)).

End Tools.

(** * The browser side: filings through the API route *)

Module Frontend.

Import Tools.

(** The browser's [fetch] and [URLSearchParams], the verdict of
    [FilingsResponseSchema.safeParse] (its [data] on success), and the
    text a template literal gives a JSON value. *)
Record Browser : Type := mkBrowser {
  browser_fetch : Request -> Outcome Response;
  queryParams_toString : list (string * string) -> string;
  FilingsResponseSchema_safeParse : Js.json -> option Js.json;
  template_text : Js.json -> string
}.

(** The object [{ filings: [], error }]. *)
Definition no_filings (error : Js.json) : Js.json :=
  Js.JObject [("filings", Js.JArray []); ("error", error)].

(** [value || fallback] for a field read from a response. *)
Definition or_text (field : option Js.json) (fallback : string) : Js.json :=
  match field with
  | Some v => if truthy_json v then v else Js.JString fallback
  | None => Js.JString fallback
  end.

(** Truthiness of a field that may be [undefined]. *)
Definition truthy_field (field : option Js.json) : bool :=
  match field with
  | Some v => truthy_json v
  | None => false
  end.

(** [Array.isArray]. *)
Definition isArray (field : option Js.json) : bool :=
  match field with
  | Some (Js.JArray _) => true
  | _ => false
  end.

Section WithBrowser.

Variable browser : Browser.

Definition filings_request (params : SecFilingsInput) : Request :=
  {| url := "/api/get-filings?"
            ++ queryParams_toString browser (sec_filings_params params);
     method := "GET";
     headers := [("Content-Type", "application/json")];
     body := None |}.

Definition fetchSecFilings (params : SecFilingsInput) : T Js.json :=
  if negb (Js.truthy (sec_ticker params)) && negb (Js.truthy (sec_cik params))
  then pure (no_filings
               (Js.JString "Client Error: Either ticker or CIK must be provided."))
  else
    try_catch
      (andThen (effect (Fetch (filings_request params))
                       (browser_fetch browser (filings_request params)))
         (fun response =>
       andThen ([], json response) (fun data =>
       if negb (ok response) then
         andThen ([], get data "error") (fun error =>
         andThen (effect (ConsoleError
                            ("API Route Error ("
                             ++ Js.number_to_string (status response) ++ "):"))
                         (Returned tt)) (fun _ =>
         pure (no_filings
                 (or_text error
                    ("API request failed with status "
                     ++ Js.number_to_string (status response))))))
       else
         match FilingsResponseSchema_safeParse browser data with
         | None =>
             andThen (effect (ConsoleError
                                "Failed to parse response from /api/get-filings:")
                             (Returned tt)) (fun _ =>
             pure (no_filings
                     (Js.JString "Invalid data format received from server.")))
         | Some parsed => pure parsed
         end)))
      (fun errorMessage =>
         andThen (effect (ConsoleError "Error fetching SEC filings via API route:")
                         (Returned tt)) (fun _ =>
         pure (no_filings (Js.JString ("Client-Side Error: " ++ errorMessage))))).

(** [`${value}`]: a string is its own text. *)
Definition text_of (v : Js.json) : string :=
  match v with
  | Js.JString s => s
  | _ => template_text browser v
  end.

Definition tickers_request : Request :=
  {| url := "/api/get-available-tickers";
     method := "GET";
     headers := [("Content-Type", "application/json")];
     body := None |}.

(** The array with one error entry. *)
Definition error_entry (message : string) : Js.json :=
  Js.JArray [Js.JString ("ERROR: " ++ message)].

Definition fetchAvailableTickers : T Js.json :=
  try_catch
    (andThen (effect (Fetch tickers_request) (browser_fetch browser tickers_request))
       (fun response =>
     andThen ([], json response) (fun data =>
     andThen ([], get data "error") (fun error =>
     if negb (ok response) || truthy_field error
     then
       let errorMessage :=
         or_text error ("API request failed with status "
                        ++ Js.number_to_string (status response)) in
       andThen (effect (ConsoleError
                          "Error fetching available tickers via API route:")
                       (Returned tt)) (fun _ =>
       pure (error_entry (text_of errorMessage)))
     else
       andThen ([], get data "tickers") (fun tickers =>
       if truthy_json data && isArray tickers then
         pure (match tickers with Some v => v | None => Js.JArray [] end)
       else
         andThen (effect (ConsoleError
                            "Unexpected format for available tickers from API route:")
                         (Returned tt)) (fun _ =>
         pure (error_entry "Unexpected format for tickers from API route")))))))
    (fun errorMessage =>
       andThen (effect (ConsoleError "Client-side error fetching available tickers:")
                       (Returned tt)) (fun _ =>
       pure (error_entry errorMessage))).

End WithBrowser.

End Frontend.

(** The graph's environment with the registry's [priceSnapshotTool] in the
    place of the price oracle. *)
Definition with_price_tool (http : Tools.Http) (env : Env) : Env :=
  {| systemMessageContent := systemMessageContent env;
     llmWithTools_invoke := llmWithTools_invoke env;
     toolNode_invoke := toolNode_invoke env;
     webSearchTool_invoke := webSearchTool_invoke env;
     llmWithTickerOutput_invoke := llmWithTickerOutput_invoke env;
     priceSnapshotTool_invoke :=
       fun ticker => Tools.result (Tools.priceSnapshotTool http ticker);
     JSON_parse := JSON_parse env |}.

(** ** Concrete registries *)

Module ToolExamples.

Import Tools.

(** A query string [k=v&k=v] for plain keys and values. *)
Fixpoint query_string (ps : list (string * string)) : string :=
  match ps with
  | [] => ""
  | (k, v) :: rest =>
      k ++ "=" ++ v ++ match rest with
                       | [] => ""
                       | _ => "&" ++ query_string rest
                       end
  end.

(** A process with the key [key] whose every request is answered by
    [answer]. *)
Definition http_with (key : option string) (answer : Outcome Response) : Http :=
  {| FINANCIAL_DATASETS_API_KEY := key;
     fetch := fun _ => answer;
     URLSearchParams_toString := query_string;
     JSON_stringify := fun _ => "<data>";
     JSON_stringify_2 := fun _ => "<pretty data>" |}.

Definition ok_response (data : Js.json) : Response :=
  {| ok := true; status := Js.of_Z 200; statusText := "OK";
     response_body := Some (Returned data) |}.

(** A refusal whose body, [Invalid API key], is not JSON. *)
Definition refused : Response :=
  {| ok := false; status := Js.of_Z 401; statusText := "Unauthorized";
     response_body := Some (Thrown "Unexpected token I in JSON at position 0") |}.

(** A refusal whose body is the JSON document [data]. *)
Definition refused_with (data : Js.json) : Response :=
  {| ok := false; status := Js.of_Z 401; statusText := "Unauthorized";
     response_body := Some (Returned data) |}.

Definition snapshot_fields (ticker : string) : ApiFields :=
  {| endpoint := "/prices/snapshot"; params := Some [("ticker", ticker)];
     api_method := None; api_body := None |}.

Definition annual_five : StatementsInput :=
  {| in_ticker := "AAPL"; in_period := "annual"; in_limit := Js.of_Z 5 |}.

Definition ticker_only : StatementsRaw :=
  {| raw_ticker := Some "AAPL"; raw_period := None; raw_limit := None |}.

Definition aapl_annual_reports : SecFilingsInput :=
  {| sec_ticker := Some "AAPL"; sec_cik := None; sec_filing_type := Some "10-K" |}.

Definition no_company : SecFilingsInput :=
  {| sec_ticker := None; sec_cik := Some ""; sec_filing_type := Some "10-K" |}.

End ToolExamples.

(** * Properties *)

(** ** Numbers *)

(** On integers [>] is the order of [Z]. *)
Lemma gtb_of_Z (a b : Z) : Js.gtb (Js.of_Z a) (Js.of_Z b) = (a >? b)%Z.
Proof.
  unfold Js.gtb, Js.of_Z, Js.lt_magnitude, Js.value, Qle_bool, inject_Z.
  cbn [Qnum Qden]. rewrite !Z.mul_1_r, Z.gtb_ltb, Z.ltb_antisym. reflexivity.
Qed.

(** No number is above itself, and of two numbers at most one is above the
    other. *)
Lemma gtb_asymmetric (a b : Js.number) :
  Js.gtb a b = true -> Js.gtb b a = false.
Proof.
  unfold Js.gtb, Js.lt_magnitude.
  destruct (Js.value a) as [ | p | ], (Js.value b) as [ | q | ];
    try reflexivity; try discriminate.
  intro H. apply negb_true_iff in H. apply negb_false_iff.
  apply Qle_bool_iff. apply Qlt_le_weak. apply Qnot_le_lt.
  intro Hle. apply Qle_bool_iff in Hle. rewrite Hle in H. discriminate.
Qed.

(** ** The effect monad *)

Lemma outcome_bind {A B} (m : M A) (k : A -> M B) :
  outcome (bind m k) =
  match outcome m with
  | Thrown msg => Thrown msg
  | Returned a => outcome (k a)
  end.
Proof.
  destruct m as [t [a | msg]]; simpl; [ | reflexivity ].
  destruct (k a); reflexivity.
Qed.

Lemma trace_bind {A B} (m : M A) (k : A -> M B) :
  trace (bind m k) =
  match outcome m with
  | Thrown _ => trace m
  | Returned a => (trace m ++ trace (k a))%list
  end.
Proof.
  destruct m as [t [a | msg]]; simpl; [ | reflexivity ].
  destruct (k a); reflexivity.
Qed.

Lemma outcome_perform {A} (e : Effect) (answer : Outcome A) :
  outcome (perform e answer) = answer.
Proof. reflexivity. Qed.

(** ** The router *)

Lemma last_message_app (ms : list BaseMessage) (m : BaseMessage) :
  last_message (ms ++ [m]) = Some m.
Proof. unfold last_message. rewrite rev_app_distr. reflexivity. Qed.

(** What [shouldContinue] answers, by cases on the last message and on the
    pending purchase. *)
Lemma shouldContinue_plain (st : State) (m : BaseMessage) :
  last_message (messages st) = Some m ->
  (_getType m =? "ai") && has_length (tool_calls_of m) = false ->
  shouldContinue st = Returned (Single END).
Proof.
  intros Hlast Hplain. unfold shouldContinue. rewrite Hlast.
  rewrite <- negb_andb, Hplain. reflexivity.
Qed.

Lemma shouldContinue_pending (st : State) content tc tcs p :
  last_message (messages st) = Some (AIMessage content (Some (tc :: tcs))) ->
  requestedStockPurchaseDetails st = Some p ->
  shouldContinue st = Returned (Single EXECUTE_PURCHASE_NODE).
Proof.
  intros Hlast Hp. unfold shouldContinue. rewrite Hlast, Hp. reflexivity.
Qed.

Lemma shouldContinue_fanout (st : State) content tc tcs :
  last_message (messages st) = Some (AIMessage content (Some (tc :: tcs))) ->
  requestedStockPurchaseDetails st = None ->
  shouldContinue st =
  Returned (Fanout (map destination_of (tc :: tcs))).
Proof.
  intros Hlast Hp. unfold shouldContinue. rewrite Hlast, Hp. reflexivity.
Qed.

(** The router raises nothing but the type error on an empty history. *)
Lemma shouldContinue_thrown (st : State) (msg : string) :
  shouldContinue st = Thrown msg -> last_message (messages st) = None.
Proof.
  unfold shouldContinue.
  destruct (last_message (messages st)) as [m | ]; [ | reflexivity ].
  destruct m as [c | c | c [[ | tc tcs] | ] | i c]; simpl; try discriminate;
    destruct (requestedStockPurchaseDetails st); discriminate.
Qed.

(** C4. Purchase-confirmation priority: when the latest assistant message
    carries at least one tool call and a purchase is pending, the router
    answers [execute_purchase] and the graph schedules exactly that node,
    whatever the names of the calls in the message. *)
Theorem confirmation_wins (st : State) (content : string)
    (tc : ToolCall) (tcs : list ToolCall) (p : StockPurchase) :
  last_message (messages st) = Some (AIMessage content (Some (tc :: tcs))) ->
  requestedStockPurchaseDetails st = Some p ->
  shouldContinue st = Returned (Single EXECUTE_PURCHASE_NODE)
  /\ route st = AtNodes [EXECUTE_PURCHASE_NODE] st.
Proof.
  intros Hlast Hp.
  pose proof (shouldContinue_pending st content tc tcs p Hlast Hp) as Hr.
  split; [ exact Hr | ].
  unfold route. rewrite Hr. reflexivity.
Qed.

(** C8. Termination on a plain answer: when the last message is not an
    assistant message or carries no tool call, the router answers [END],
    the graph stops with the state as it is, and every later step leaves
    that stopped configuration, hence the history, unchanged. *)
Theorem plain_answer_stops (env : Env) (st : State) (m : BaseMessage) :
  last_message (messages st) = Some m ->
  (_getType m =? "ai") && has_length (tool_calls_of m) = false ->
  shouldContinue st = Returned (Single END)
  /\ route st = Stopped st
  /\ forall k, steps env k (route st) = Stopped st.
Proof.
  intros Hlast Hplain.
  pose proof (shouldContinue_plain st m Hlast Hplain) as Hr.
  assert (Hroute : route st = Stopped st) by (unfold route; rewrite Hr; reflexivity).
  repeat split; trivial.
  rewrite Hroute. intro k. induction k as [ | k IH]; simpl; trivial.
Qed.

(** C5, as the code has it. An assistant message whose tool-call list is
    empty or absent is a plain answer: the router answers [END] and the
    graph stops without an error, whether or not a purchase is pending;
    and no state makes the router raise its tool-call-list error. *)
Theorem empty_tool_calls_stop (st : State) (content : string)
    (tcs : option (list ToolCall)) :
  last_message (messages st) = Some (AIMessage content tcs) ->
  has_length tcs = false ->
  shouldContinue st = Returned (Single END)
  /\ route st = Stopped st
  /\ forall st', shouldContinue st' <>
       Thrown "Expected tool_calls to be an array with at least one element".
Proof.
  intros Hlast Hempty.
  assert (Hr : shouldContinue st = Returned (Single END)).
  { apply shouldContinue_plain with (m := AIMessage content tcs); trivial. }
  repeat split; trivial.
  - unfold route. rewrite Hr. reflexivity.
  - intros st' Hthrown.
    pose proof (shouldContinue_thrown st' _ Hthrown) as Hnone.
    unfold shouldContinue in Hthrown. rewrite Hnone in Hthrown. discriminate.
Qed.

(** ** Purchase Preparation *)

Lemma truthy_inv (v : option string) :
  Js.truthy v = true -> exists s, v = Some s /\ s <> "".
Proof.
  destruct v as [s | ]; simpl; [ | discriminate ].
  intro H. exists s. split; [ reflexivity | ].
  apply negb_true_iff in H. apply String.eqb_neq. exact H.
Qed.

Lemma truthy_some (s : string) : s <> "" -> Js.truthy (Some s) = true.
Proof.
  intro H. simpl. apply negb_true_iff. apply String.eqb_neq. exact H.
Qed.

Lemma mapM_missing_info_ok (tcs : list ToolCall) :
  Forall (fun tc => Js.truthy (id tc) = true) tcs ->
  mapM missing_info tcs = ([], Returned (map missing_info_message tcs)).
Proof.
  induction 1 as [ | tc rest Hid _ IH]; [ reflexivity | ].
  simpl. unfold missing_info at 1. rewrite Hid. simpl. rewrite IH. reflexivity.
Qed.

Lemma mapM_missing_info_returned (tcs : list ToolCall) (ms : list BaseMessage) :
  outcome (mapM missing_info tcs) = Returned ms ->
  Forall (fun tc => Js.truthy (id tc) = true) tcs.
Proof.
  revert ms. induction tcs as [ | tc rest IH]; intros ms H; [ constructor | ].
  simpl in H. rewrite outcome_bind in H. unfold missing_info at 1 in H.
  destruct (Js.truthy (id tc)) eqn:Hid; simpl in H; [ | discriminate ].
  rewrite outcome_bind in H.
  destruct (outcome (mapM missing_info rest)) as [ys | msg] eqn:Hrest;
    [ | discriminate ].
  constructor; [ exact Hid | exact (IH ys eq_refl) ].
Qed.

Lemma purchase_with_ticker_returned (env : Env) (pid : string) (a : ToolArgs)
    (t : string) (tcs : list ToolCall) (u : PartialState) :
  outcome (purchase_with_ticker env pid a t) = Returned u -> Prepared pid tcs u.
Proof.
  unfold purchase_with_ticker.
  destruct (negb (Js.truthy (Some t))).
  - simpl. intros [= <-]. constructor.
  - rewrite outcome_bind, outcome_perform.
    destruct (priceSnapshotTool_invoke env t) as [text | msg]; [ | discriminate ].
    destruct (read_currentPrice env text) as [price | e].
    + destruct (maxPurchasePrice a) as [max | ]; [ | discriminate ].
      destruct (Js.gtb price max) eqn:Hgt; simpl; intros [= <-].
      * apply prepared_rejected. exact Hgt.
      * apply prepared_accepted.
    + simpl. intros [= <-]. apply prepared_price_error.
Qed.

Lemma purchase_for_call_returned (env : Env) (tcs : list ToolCall)
    (pc : ToolCall) (u : PartialState) :
  outcome (purchase_for_call env tcs pc) = Returned u ->
  Prepared (or_blank (id pc)) tcs u.
Proof.
  unfold purchase_for_call.
  destruct (negb (Js.truthy (ticker (args pc)))).
  - destruct (negb (Js.truthy (companyName (args pc)))).
    + rewrite outcome_bind.
      destruct (outcome (mapM missing_info tcs)) as [ms | msg] eqn:Hmap;
        [ | discriminate ].
      pose proof (mapM_missing_info_returned tcs ms Hmap) as Hids.
      rewrite (mapM_missing_info_ok tcs Hids) in Hmap. simpl in Hmap.
      injection Hmap as <-. simpl. intros [= <-]. constructor. exact Hids.
    + rewrite outcome_bind.
      destruct (outcome (findCompanyName env _)) as [t | msg]; [ | discriminate ].
      apply purchase_with_ticker_returned.
  - apply purchase_with_ticker_returned.
Qed.

(** Once the [purchase_stock] call of the last message is known,
    [preparePurchaseDetails] is its first half on that call. *)
Lemma prepare_found (env : Env) (st : State) (content : string)
    (tcs : option (list ToolCall)) (pc : ToolCall) :
  last_message (messages st) = Some (AIMessage content tcs) ->
  find (fun tc => name tc =? "purchase_stock") (or_empty tcs) = Some pc ->
  Js.truthy (id pc) = true ->
  preparePurchaseDetails env st = purchase_for_call env (or_empty tcs) pc.
Proof.
  intros Hlast Hfind Hid. unfold preparePurchaseDetails.
  rewrite Hlast. simpl. rewrite Hfind, Hid. reflexivity.
Qed.

(** Every return of [preparePurchaseDetails] is one of the five results,
    for the first [purchase_stock] call of the last message. *)
Lemma prepare_returned (env : Env) (st : State) (u : PartialState) :
  outcome (preparePurchaseDetails env st) = Returned u ->
  exists content tcs pc pid,
    last_message (messages st) = Some (AIMessage content tcs)
    /\ find (fun tc => name tc =? "purchase_stock") (or_empty tcs) = Some pc
    /\ id pc = Some pid /\ pid <> ""
    /\ Prepared pid (or_empty tcs) u.
Proof.
  unfold preparePurchaseDetails.
  destruct (last_message (messages st)) as [m | ]; [ | discriminate ].
  destruct m as [c | c | c tcs | i c]; simpl; try discriminate.
  destruct (find _ (or_empty tcs)) as [pc | ] eqn:Hfind; [ | discriminate ].
  destruct (Js.truthy (id pc)) eqn:Hid; simpl; [ | discriminate ].
  intro Hret. destruct (truthy_inv _ Hid) as (pid & Hpid & Hne).
  exists c, tcs, pc, pid. repeat split; trivial.
  apply purchase_for_call_returned in Hret. rewrite Hpid in Hret. exact Hret.
Qed.

(** Preparation writes the pending purchase only with a record, never with
    [null]. *)
Lemma Prepared_purchase_key (pid : string) (tcs : list ToolCall) (u : PartialState) :
  Prepared pid tcs u ->
  upd_requestedStockPurchaseDetails u = None
  \/ exists p, upd_requestedStockPurchaseDetails u = Some (Value p).
Proof.
  destruct 1; simpl; auto. right. eexists. reflexivity.
Qed.

Lemma snapshot_calls_app (t1 t2 : list Effect) :
  snapshot_calls (t1 ++ t2) = snapshot_calls t1 + snapshot_calls t2.
Proof.
  induction t1 as [ | e t1 IH]; [ reflexivity | ].
  destruct e; simpl; rewrite IH; reflexivity.
Qed.

Lemma findCompanyName_no_snapshot (env : Env) (c : string) :
  snapshot_calls (trace (findCompanyName env c)) = 0.
Proof.
  unfold findCompanyName, perform, bind.
  destruct (webSearchTool_invoke env _) as [r | msg]; [ | reflexivity ].
  destruct (llmWithTickerOutput_invoke env c _) as [t | msg]; reflexivity.
Qed.

(** With the ticker resolved to [t], the first half of Preparation has the
    outcome and the price snapshots of the second half at [t]. *)
Lemma purchase_for_call_resolved (env : Env) (tcs : list ToolCall)
    (pc : ToolCall) (t : string) :
  resolves_to env (args pc) t ->
  outcome (purchase_for_call env tcs pc)
  = outcome (purchase_with_ticker env (or_blank (id pc)) (args pc) t)
  /\ snapshot_calls (trace (purchase_for_call env tcs pc))
     = snapshot_calls (trace (purchase_with_ticker env (or_blank (id pc)) (args pc) t)).
Proof.
  unfold purchase_for_call.
  intros [[Ht Hticker] | (Ht & Hc & Hfind)]; rewrite Ht; simpl.
  - rewrite Hticker. split; reflexivity.
  - rewrite Hc. simpl. rewrite outcome_bind, trace_bind, Hfind.
    rewrite snapshot_calls_app, findCompanyName_no_snapshot. split; reflexivity.
Qed.

Lemma purchase_with_ticker_priced (env : Env) (pid : string) (a : ToolArgs)
    (t text : string) (price : Js.number) :
  t <> "" ->
  priceSnapshotTool_invoke env t = Returned text ->
  read_currentPrice env text = Returned price ->
  purchase_with_ticker env pid a t =
  ([EPriceSnapshot t],
   match maxPurchasePrice a with
   | None => Thrown "maxPurchasePrice is undefined in tool call args"
   | Some max =>
       if Js.gtb price max then
         Returned (only_messages
                     [ToolMessage pid ("Price " ++ Js.number_to_string price
                                       ++ " > max " ++ Js.number_to_string max)])
       else
         let p := {| sp_ticker := t;
                     sp_quantity := match quantity a with
                                    | None => Js.of_Z 1
                                    | Some q => q
                                    end;
                     sp_maxPurchasePrice := max |} in
         Returned {| upd_messages :=
                       Some (ManyMessages
                               [ToolMessage pid (JSON_stringify_StockPurchase p)]);
                     upd_requestedStockPurchaseDetails := Some (Value p) |}
   end).
Proof.
  intros Ht Hsnap Hprice. unfold purchase_with_ticker.
  rewrite (truthy_some t Ht). simpl. unfold perform, bind.
  rewrite Hsnap, Hprice.
  destruct (maxPurchasePrice a) as [max | ]; [ | reflexivity ].
  destruct (Js.gtb price max); reflexivity.
Qed.

(** C7. Price-ceiling rejection: when the price read from the snapshot of
    the resolved ticker exceeds [maxPurchasePrice], Purchase Preparation
    returns a single tool message, bound to the purchase call, that states
    the price and the ceiling; it asks for the snapshot once; and its
    result does not write the pending purchase, which stays as it was. *)
Theorem price_above_ceiling_rejected (env : Env) (st : State) (content : string)
    (tcs : option (list ToolCall)) (pc : ToolCall) (pid t text : string)
    (price max : Js.number) :
  last_message (messages st) = Some (AIMessage content tcs) ->
  find (fun tc => name tc =? "purchase_stock") (or_empty tcs) = Some pc ->
  id pc = Some pid -> pid <> "" ->
  resolves_to env (args pc) t -> t <> "" ->
  priceSnapshotTool_invoke env t = Returned text ->
  read_currentPrice env text = Returned price ->
  maxPurchasePrice (args pc) = Some max ->
  Js.gtb price max = true ->
  let rejection :=
    only_messages [ToolMessage pid ("Price " ++ Js.number_to_string price
                                    ++ " > max " ++ Js.number_to_string max)] in
  outcome (preparePurchaseDetails env st) = Returned rejection
  /\ snapshot_calls (trace (preparePurchaseDetails env st)) = 1
  /\ upd_requestedStockPurchaseDetails rejection = None
  /\ requestedStockPurchaseDetails (applyUpdate st rejection)
     = requestedStockPurchaseDetails st.
Proof.
  intros Hlast Hfind Hid Hpid Hres Ht Hsnap Hprice Hmax Hgt rejection.
  rewrite (prepare_found env st content tcs pc Hlast Hfind)
    by (rewrite Hid; apply truthy_some; exact Hpid).
  destruct (purchase_for_call_resolved env (or_empty tcs) pc t Hres) as [Ho Htr].
  rewrite Ho, Htr, Hid. simpl or_blank.
  rewrite (purchase_with_ticker_priced env pid (args pc) t text price Ht Hsnap Hprice).
  rewrite Hmax, Hgt. repeat split.
Qed.

(** C10. A missing price ceiling is fatal: the registered schema of
    [purchase_stock] accepts arguments without [maxPurchasePrice], and for
    such a call Purchase Preparation, with a resolved ticker and a numeric
    price read from the snapshot, throws instead of returning any
    message. *)
Theorem missing_ceiling_is_fatal (env : Env) (st : State) (content : string)
    (tcs : option (list ToolCall)) (pc : ToolCall) (pid t text : string)
    (price : Js.number) :
  last_message (messages st) = Some (AIMessage content tcs) ->
  find (fun tc => name tc =? "purchase_stock") (or_empty tcs) = Some pc ->
  id pc = Some pid -> pid <> "" ->
  resolves_to env (args pc) t -> t <> "" ->
  priceSnapshotTool_invoke env t = Returned text ->
  read_currentPrice env text = Returned price ->
  maxPurchasePrice (args pc) = None ->
  outcome (preparePurchaseDetails env st)
  = Thrown "maxPurchasePrice is undefined in tool call args"
  /\ purchaseStockTool_schema (args pc)
     = optional (fun q => Js.is_integer q && Js.positive q) (quantity (args pc)).
Proof.
  intros Hlast Hfind Hid Hpid Hres Ht Hsnap Hprice Hmax.
  rewrite (prepare_found env st content tcs pc Hlast Hfind)
    by (rewrite Hid; apply truthy_some; exact Hpid).
  destruct (purchase_for_call_resolved env (or_empty tcs) pc t Hres) as [Ho _].
  rewrite Ho, Hid. simpl or_blank.
  rewrite (purchase_with_ticker_priced env pid (args pc) t text price Ht Hsnap Hprice).
  rewrite Hmax. split; [ reflexivity | ].
  unfold purchaseStockTool_schema. rewrite Hmax.
  destruct (ticker (args pc)), (companyName (args pc)); simpl;
    apply andb_true_r.
Qed.

Lemma applyUpdate_only_messages (st : State) (ms : list BaseMessage) :
  requestedStockPurchaseDetails (applyUpdate st (only_messages ms))
  = requestedStockPurchaseDetails st.
Proof. reflexivity. Qed.

(** C9. Missing-identity clarification: when the [purchase_stock] call of
    the last assistant message has neither a ticker nor a company name,
    and every call of that message carries an id, Purchase Preparation
    returns, without any external call and without throwing, one
    missing-information tool message per call of the message followed by
    an assistant message asking for the ticker or the company name; the
    result does not write the pending purchase. *)
Theorem missing_identity_clarification (env : Env) (st : State)
    (content : string) (tcs : option (list ToolCall)) (pc : ToolCall) :
  last_message (messages st) = Some (AIMessage content tcs) ->
  find (fun tc => name tc =? "purchase_stock") (or_empty tcs) = Some pc ->
  Js.truthy (ticker (args pc)) = false ->
  Js.truthy (companyName (args pc)) = false ->
  Forall (fun tc => Js.truthy (id tc) = true) (or_empty tcs) ->
  let clarification :=
    only_messages (map missing_info_message (or_empty tcs)
                   ++ [AIMessage "Ticker or company name required." (Some [])])%list in
  preparePurchaseDetails env st = ([], Returned clarification)
  /\ upd_requestedStockPurchaseDetails clarification = None
  /\ requestedStockPurchaseDetails (applyUpdate st clarification)
     = requestedStockPurchaseDetails st.
Proof.
  intros Hlast Hfind Hticker Hcompany Hids clarification.
  assert (Hid : Js.truthy (id pc) = true).
  { apply find_some in Hfind as [Hin _].
    rewrite Forall_forall in Hids. exact (Hids pc Hin). }
  rewrite (prepare_found env st content tcs pc Hlast Hfind Hid).
  unfold purchase_for_call. rewrite Hticker, Hcompany. simpl.
  rewrite (mapM_missing_info_ok _ Hids). repeat split.
Qed.

(** ** Purchase Execution *)

Lemma last_message_inv (ms : list BaseMessage) (m : BaseMessage) :
  last_message ms = Some m -> exists earlier, ms = (earlier ++ [m])%list.
Proof.
  unfold last_message. intro H.
  destruct (rev ms) as [ | x l] eqn:Hrev; [ discriminate | ].
  injection H as ->. exists (rev l).
  rewrite <- (rev_involutive ms), Hrev. reflexivity.
Qed.

Lemma applyUpdate_messages (st : State) (u : PartialState) :
  messages (applyUpdate st u) = (messages st ++ new_messages u)%list.
Proof.
  unfold applyUpdate, new_messages. simpl.
  destruct (upd_messages u) as [[m | ms] | ]; simpl.
  - destruct (messages st); reflexivity.
  - destruct (messages st); reflexivity.
  - symmetry. apply app_nil_r.
Qed.

Lemma find_first {A} (f : A -> bool) (pre : list A) (x : A) (post : list A) :
  Forall (fun y => f y = false) pre -> f x = true ->
  find f (pre ++ x :: post) = Some x.
Proof.
  induction 1 as [ | y pre Hy _ IH]; intro Hx; simpl.
  - rewrite Hx. reflexivity.
  - rewrite Hy. exact (IH Hx).
Qed.

Lemma find_none_all {A} (f : A -> bool) (l : list A) :
  Forall (fun y => f y = false) l -> find f l = None.
Proof.
  induction 1 as [ | y l Hy _ IH]; simpl; [ reflexivity | ].
  rewrite Hy. exact IH.
Qed.

Lemma find_skip {A} (f : A -> bool) (pre rest : list A) :
  Forall (fun y => f y = false) pre -> find f (pre ++ rest) = find f rest.
Proof.
  induction 1 as [ | y pre Hy _ IH]; simpl; [ reflexivity | ].
  rewrite Hy. exact IH.
Qed.

(** The backward search only ever answers a non-empty id. *)
Lemma search_backward_truthy (p : StockPurchase) (l : list BaseMessage) (i : string) :
  search_backward p l = Some i -> Js.truthy (Some i) = true.
Proof.
  induction l as [ | m l IH]; simpl; [ discriminate | ].
  destruct (_getType m =? "ai"); trivial.
  destruct (find (relevant p) (or_empty (tool_calls_of m))) as [tc | ]; trivial.
  destruct (Js.truthy (id tc)) eqn:Hid; trivial.
  intro H. rewrite H in Hid. exact Hid.
Qed.

Lemma search_backward_app (p : StockPurchase) (l1 l2 : list BaseMessage) :
  search_backward p (l1 ++ l2) =
  match search_backward p l1 with
  | Some i => Some i
  | None => search_backward p l2
  end.
Proof.
  induction l1 as [ | m l1 IH]; simpl; [ reflexivity | ].
  destruct (_getType m =? "ai"); trivial.
  destruct (find (relevant p) (or_empty (tool_calls_of m))) as [tc | ]; trivial.
  destruct (Js.truthy (id tc)) eqn:Hid; trivial.
  destruct (truthy_inv _ Hid) as (i & -> & _). reflexivity.
Qed.

Lemma search_backward_no_relevant (p : StockPurchase) (l : list BaseMessage) :
  no_relevant_call p l -> search_backward p l = None.
Proof.
  induction 1 as [ | m l Hm _ IH]; simpl; [ reflexivity | ].
  rewrite (find_none_all _ _ Hm). destruct (_getType m =? "ai"); exact IH.
Qed.

Lemma no_relevant_call_rev (p : StockPurchase) (l : list BaseMessage) :
  no_relevant_call p l -> no_relevant_call p (rev l).
Proof. apply Forall_rev. Qed.

Lemma no_tool_calls_no_relevant (p : StockPurchase) (l : list BaseMessage) :
  no_tool_calls l -> no_relevant_call p l.
Proof.
  unfold no_tool_calls, no_relevant_call. apply Forall_impl.
  intros m Hm. destruct (tool_calls_of m) as [[ | tc tcs] | ];
    simpl in *; [ constructor | discriminate | constructor ].
Qed.

Lemma executePurchase_outcome (st : State) (p : StockPurchase) :
  requestedStockPurchaseDetails st = Some p ->
  outcome (executePurchase st) =
  let found := search_backward p (rev (messages st)) in
  let chosen := if negb (Js.truthy found)
                then first_call_of_last_ai (messages st) else found in
  if negb (Js.truthy chosen)
  then Thrown "Cannot find tool_call_id for purchase response"
  else Returned (purchase_confirmation (or_blank chosen) p).
Proof.
  intro Hp. unfold executePurchase. rewrite Hp.
  rewrite outcome_bind. simpl.
  destruct (negb (Js.truthy (if negb (Js.truthy (search_backward p (rev (messages st))))
                             then first_call_of_last_ai (messages st)
                             else search_backward p (rev (messages st)))));
    reflexivity.
Qed.

Lemma executePurchase_found (st : State) (p : StockPurchase) (i : string) :
  requestedStockPurchaseDetails st = Some p ->
  search_backward p (rev (messages st)) = Some i ->
  outcome (executePurchase st) = Returned (purchase_confirmation i p).
Proof.
  intros Hp Hfound. rewrite (executePurchase_outcome st p Hp). cbv zeta.
  rewrite Hfound. pose proof (search_backward_truthy _ _ _ Hfound) as Ht.
  rewrite Ht. cbn [negb]. rewrite Ht. reflexivity.
Qed.

Lemma rev_around (before after : list BaseMessage) (m : BaseMessage) :
  rev (before ++ m :: after) = (rev after ++ m :: rev before)%list.
Proof.
  rewrite rev_app_distr. simpl. rewrite <- app_assoc. reflexivity.
Qed.

(** C6, as the code has it. With a purchase pending, Purchase Execution
    answers (1) the first call that is purchase-named or has the pending
    ticker as argument, in the latest assistant message holding such a
    call, when that call has a non-empty id; (2) when no call of the
    history is of that kind, the first call of the latest assistant
    message that carries tool calls, when it has a non-empty id; and (3)
    it fails when no message of the history carries a tool call. *)
Theorem execution_binding (st : State) (p : StockPurchase) :
  requestedStockPurchaseDetails st = Some p ->
  (forall before c pre tc post after i,
      messages st = (before ++ AIMessage c (Some (pre ++ tc :: post)) :: after)%list ->
      no_relevant_call p after ->
      Forall (fun x => relevant p x = false) pre ->
      relevant p tc = true -> id tc = Some i -> i <> "" ->
      outcome (executePurchase st) = Returned (purchase_confirmation i p))
  /\ (forall before c tc tcs after i,
      messages st = (before ++ AIMessage c (Some (tc :: tcs)) :: after)%list ->
      no_relevant_call p (messages st) ->
      no_tool_calls after ->
      id tc = Some i -> i <> "" ->
      outcome (executePurchase st) = Returned (purchase_confirmation i p))
  /\ (no_tool_calls (messages st) ->
      outcome (executePurchase st)
      = Thrown "Cannot find tool_call_id for purchase response").
Proof.
  intro Hp. split; [ | split ].
  - intros before c pre tc post after i Hms Hafter Hpre Hrel Hid Hi.
    apply executePurchase_found; trivial.
    rewrite Hms, rev_around, search_backward_app.
    rewrite (search_backward_no_relevant p _ (no_relevant_call_rev p _ Hafter)).
    simpl. rewrite (find_first _ _ _ _ Hpre Hrel), Hid.
    rewrite (truthy_some i Hi). reflexivity.
  - intros before c tc tcs after i Hms Hnone Hafter Hid Hi.
    rewrite (executePurchase_outcome st p Hp). cbv zeta.
    rewrite (search_backward_no_relevant p _ (no_relevant_call_rev p _ Hnone)).
    change (Js.truthy None) with false. cbn [negb].
    assert (Hfirst : first_call_of_last_ai (messages st) = Some i).
    { unfold first_call_of_last_ai. rewrite Hms, rev_around.
      rewrite find_skip.
      - simpl. exact Hid.
      - apply Forall_rev. revert Hafter. apply Forall_impl.
        intros m Hm. rewrite Hm. apply andb_false_r. }
    rewrite Hfirst, (truthy_some i Hi). reflexivity.
  - intro Hnone.
    rewrite (executePurchase_outcome st p Hp). cbv zeta.
    rewrite (search_backward_no_relevant p _
               (no_relevant_call_rev p _ (no_tool_calls_no_relevant p _ Hnone))).
    change (Js.truthy None) with false. cbn [negb].
    assert (Hfirst : first_call_of_last_ai (messages st) = None).
    { unfold first_call_of_last_ai. rewrite find_none_all; trivial.
      apply Forall_rev. revert Hnone. apply Forall_impl.
      intros m Hm. rewrite Hm. apply andb_false_r. }
    rewrite Hfirst. reflexivity.
Qed.

(** ** The purchase round trip *)

(** C1. Successful purchase round trip. The last assistant message asks
    for [purchase_stock] with ticker AAPL, quantity 5 and ceiling 300, and
    the snapshot of AAPL parses to an object whose [price] is a number
    not above 300, such as 190. Then
    Purchase Preparation returns one tool message, bound to that call,
    holding the serialized record, and sets the pending purchase to
    exactly that record; and in any later state of the conversation that
    still holds the record, Purchase Execution returns one tool message
    that reads [Simulated purchase of 5 of AAPL at <= 300.], bound to a
    call id (the id of the purchase call when no later message holds a
    call that is purchase-named or about AAPL), and resets the pending
    purchase to absent. *)
Theorem purchase_round_trip (env : Env) (st : State) (content call_id text : string)
    (fields : list (string * Js.json)) (price : Js.number)
    (later : list BaseMessage) (st2 : State) :
  let request :=
    {| id := Some call_id; name := "purchase_stock";
       args := {| ticker := Some "AAPL"; companyName := None;
                  quantity := Some (Js.of_Z 5); maxPurchasePrice := Some (Js.of_Z 300) |} |} in
  let record :=
    {| sp_ticker := "AAPL"; sp_quantity := Js.of_Z 5;
       sp_maxPurchasePrice := Js.of_Z 300 |} in
  let prepared :=
    {| upd_messages :=
         Some (ManyMessages [ToolMessage call_id Examples.aapl_record_text]);
       upd_requestedStockPurchaseDetails := Some (Value record) |} in
  last_message (messages st) = Some (AIMessage content (Some [request])) ->
  call_id <> "" ->
  priceSnapshotTool_invoke env "AAPL" = Returned text ->
  JSON_parse env text = Returned (Js.JObject fields) ->
  Js.assoc "price" fields = Some (Js.JNumber price) ->
  Js.gtb price (Js.of_Z 300) = false ->
  messages st2 = (messages (applyUpdate st prepared) ++ later)%list ->
  requestedStockPurchaseDetails st2
  = requestedStockPurchaseDetails (applyUpdate st prepared) ->
  outcome (preparePurchaseDetails env st) = Returned prepared
  /\ requestedStockPurchaseDetails (applyUpdate st prepared) = Some record
  /\ exists bound,
       let confirmation :=
         {| upd_messages :=
              Some (ManyMessages
                      [ToolMessage bound "Simulated purchase of 5 of AAPL at <= 300."]);
            upd_requestedStockPurchaseDetails := Some Null |} in
       outcome (executePurchase st2) = Returned confirmation
       /\ (no_relevant_call record later -> bound = call_id)
       /\ requestedStockPurchaseDetails (applyUpdate st2 confirmation) = None.
Proof.
  intros request record prepared Hlast Hid Hsnap Hparse Hprice Hle Hms Hpending.
  assert (Hprep : outcome (preparePurchaseDetails env st) = Returned prepared).
  { rewrite (prepare_found env st content (Some [request]) request Hlast
               eq_refl (truthy_some call_id Hid)).
    assert (Hread : read_currentPrice env text = Returned price).
    { unfold read_currentPrice. rewrite Hparse, Hprice. reflexivity. }
    assert (Hticker : "AAPL" <> "") by discriminate.
    unfold purchase_for_call. simpl.
    rewrite (purchase_with_ticker_priced env call_id _ "AAPL" text price
               Hticker Hsnap Hread).
    cbn [maxPurchasePrice]. rewrite Hle. reflexivity. }
  split; [ exact Hprep | ]. split; [ reflexivity | ].
  assert (Hp2 : requestedStockPurchaseDetails st2 = Some record) by exact Hpending.
  destruct (last_message_inv _ _ Hlast) as [earlier Hearlier].
  assert (Hrev : rev (messages st2)
                 = (rev later ++ ToolMessage call_id Examples.aapl_record_text
                    :: AIMessage content (Some [request]) :: rev earlier)%list).
  { rewrite Hms, applyUpdate_messages, Hearlier. simpl new_messages.
    rewrite !rev_app_distr. reflexivity. }
  assert (Hhere : search_backward record
                    (ToolMessage call_id Examples.aapl_record_text
                     :: AIMessage content (Some [request]) :: rev earlier)
                  = Some call_id).
  { cbn [search_backward _getType tool_calls_of or_empty find].
    change (relevant record request) with true. cbn iota.
    change (id request) with (Some call_id).
    rewrite (truthy_some call_id Hid). reflexivity. }
  destruct (search_backward record (rev later)) as [i | ] eqn:Hlater.
  - exists i. cbv zeta. split; [ | split ].
    + apply (executePurchase_found st2 record i Hp2).
      rewrite Hrev, search_backward_app, Hlater. reflexivity.
    + intro Hnone.
      rewrite (search_backward_no_relevant _ _ (no_relevant_call_rev _ _ Hnone))
        in Hlater. discriminate.
    + reflexivity.
  - exists call_id. cbv zeta. split; [ | split ].
    + apply (executePurchase_found st2 record call_id Hp2).
      rewrite Hrev, search_backward_app, Hlater. exact Hhere.
    + reflexivity.
    + reflexivity.
Qed.

(** ** The pending purchase along a run *)

Lemma resolve_destinations (tcs : list ToolCall) :
  resolve (map destination_of tcs) = Some (map destination_of tcs).
Proof.
  induction tcs as [ | tc tcs IH]; [ reflexivity | ].
  cbn [map resolve]. rewrite IH.
  assert (Hedge : lookup_edge (destination_of tc) conditionalEdgeMapping
                  = Some (destination_of tc)).
  { unfold destination_of. destruct (name tc =? "purchase_stock"); reflexivity. }
  rewrite Hedge. reflexivity.
Qed.

Lemma destination_of_cases (tcs : list ToolCall) :
  Forall (fun n => n = TOOLS_NODE \/ n = PREPARE_PURCHASE_NODE)
         (map destination_of tcs).
Proof.
  induction tcs as [ | tc tcs IH]; constructor; trivial.
  unfold destination_of. destruct (name tc =? "purchase_stock"); auto.
Qed.

(** The three answers of the router. *)
Lemma shouldContinue_returned (st : State) (r : Route) :
  shouldContinue st = Returned r ->
  r = Single END
  \/ (r = Single EXECUTE_PURCHASE_NODE
      /\ exists p, requestedStockPurchaseDetails st = Some p)
  \/ (requestedStockPurchaseDetails st = None
      /\ exists tcs, r = Fanout (map destination_of tcs)).
Proof.
  unfold shouldContinue.
  destruct (last_message (messages st)) as [m | ]; [ | discriminate ].
  destruct m as [c | c | c [[ | tc tcs] | ] | i c]; simpl;
    try (intros [= <-]; left; reflexivity).
  destruct (requestedStockPurchaseDetails st) as [p | ]; intros [= <-].
  - right. left. split; [ reflexivity | exists p; reflexivity ].
  - right. right. split; [ reflexivity | exists (tc :: tcs); reflexivity ].
Qed.

Lemma route_state (st : State) : 
  state_of (route st) = None \/ state_of (route st) = Some st.
Proof.
  unfold route. destruct (shouldContinue st) as [r | msg]; [ | left; reflexivity ].
  destruct (resolve (destinations r)) as [ns | ]; [ | left; reflexivity ].
  destruct (filter _ _); right; reflexivity.
Qed.

Lemma route_scheduled_ok (st : State) : scheduled_ok (route st).
Proof.
  unfold route. destruct (shouldContinue st) as [r | msg] eqn:Hr; [ | exact I ].
  destruct (shouldContinue_returned st r Hr)
    as [-> | [[-> [p Hp]] | [Hp [tcs ->]]]].
  - exact I.
  - left. split; [ exists p; exact Hp | reflexivity ].
  - simpl destinations. rewrite resolve_destinations.
    destruct (filter _ _) as [ | n ns] eqn:Hfilter; [ exact I | ].
    right. split; [ exact Hp | ].
    rewrite <- Hfilter. apply Forall_forall. intros x Hx.
    apply filter_In in Hx as [Hx _]. apply nodup_In in Hx.
    pose proof (destination_of_cases tcs) as Hall.
    rewrite Forall_forall in Hall. exact (Hall x Hx).
Qed.

Lemma callModel_only_messages (env : Env) (st : State) (u : PartialState) :
  outcome (callModel env st) = Returned u ->
  upd_requestedStockPurchaseDetails u = None.
Proof.
  unfold callModel. rewrite outcome_bind, outcome_perform.
  destruct (llmWithTools_invoke env _) as [m | msg]; [ | discriminate ].
  simpl. intros [= <-]. reflexivity.
Qed.

(** Every configuration of a run schedules nodes as [scheduled_ok] says. *)
Lemma reachable_scheduled_ok (env : Env) (init : State) (c : Config) :
  reachable env init c -> scheduled_ok c.
Proof.
  induction 1 as [ | c Hc IH]; [ exact I | ].
  destruct c as [st | ns st | st | msg]; simpl; try exact I.
  - destruct (outcome (callModel env st)); [ apply route_scheduled_ok | exact I ].
  - destruct (outcome (run_nodes env ns st st)); exact I.
Qed.

Lemma runNode_tools (env : Env) (st : State) :
  runNode env TOOLS_NODE st
  = (ms <- perform EToolNode (toolNode_invoke env st) ;; ret (only_messages ms)).
Proof. reflexivity. Qed.

Lemma runNode_prepare (env : Env) (st : State) :
  runNode env PREPARE_PURCHASE_NODE st = preparePurchaseDetails env st.
Proof. reflexivity. Qed.

Lemma runNode_execute (env : Env) (st : State) :
  runNode env EXECUTE_PURCHASE_NODE st = executePurchase st.
Proof. reflexivity. Qed.

(** Tools and Preparation together change the pending purchase only by
    Preparation setting a record. *)
Lemma run_nodes_pending (env : Env) (ns : list string) (input acc st' : State) :
  Forall (fun n => n = TOOLS_NODE \/ n = PREPARE_PURCHASE_NODE) ns ->
  outcome (run_nodes env ns input acc) = Returned st' ->
  requestedStockPurchaseDetails st' = requestedStockPurchaseDetails acc
  \/ (In PREPARE_PURCHASE_NODE ns
      /\ exists p, requestedStockPurchaseDetails st' = Some p).
Proof.
  intro Hns. revert acc. induction Hns as [ | n ns Hn _ IH]; intros acc.
  - simpl. intros [= <-]. left. reflexivity.
  - simpl run_nodes. rewrite outcome_bind.
    destruct (outcome (runNode env n input)) as [u | msg] eqn:Hu; [ | discriminate ].
    intro Hrest. specialize (IH _ Hrest).
    destruct IH as [Hsame | [Hin Hset]]; [ | right; split; [ right | ]; trivial ].
    rewrite Hsame. destruct Hn as [-> | ->].
    + left. rewrite runNode_tools, outcome_bind, outcome_perform in Hu.
      destruct (toolNode_invoke env input); [ | discriminate ].
      simpl in Hu. injection Hu as <-. reflexivity.
    + rewrite runNode_prepare in Hu.
      destruct (prepare_returned env input u Hu)
        as (c & tcs & pc & pid & _ & _ & _ & _ & Hprep).
      destruct (Prepared_purchase_key _ _ _ Hprep) as [Hkey | [p Hkey]];
        unfold applyUpdate; simpl; rewrite Hkey.
      * left. reflexivity.
      * right. split; [ left; reflexivity | exists p; reflexivity ].
Qed.

Lemma executePurchase_clears (st : State) (u : PartialState) :
  outcome (executePurchase st) = Returned u ->
  upd_requestedStockPurchaseDetails u = Some Null.
Proof.
  unfold executePurchase.
  destruct (requestedStockPurchaseDetails st) as [p | ]; [ | discriminate ].
  rewrite outcome_bind. simpl.
  match goal with |- context [if ?b then _ else _] => destruct b end;
    [ discriminate | ].
  simpl. intros [= <-]. reflexivity.
Qed.

(** C2. At most one pending purchase. Along every run of the graph, from
    any input state: Purchase Preparation is scheduled only in a state
    with no pending purchase; and each step either leaves the pending
    purchase as it is, or sets it from absent in a step that runs
    Preparation, or clears it from present in a step that runs Execution
    alone. A pending record is thus never replaced by another one. *)
Theorem at_most_one_pending (env : Env) (init : State) (c : Config)
    (st st' : State) :
  reachable env init c ->
  state_of c = Some st ->
  state_of (step env c) = Some st' ->
  (forall ns, c = AtNodes ns st -> In PREPARE_PURCHASE_NODE ns ->
              requestedStockPurchaseDetails st = None)
  /\ (requestedStockPurchaseDetails st' = requestedStockPurchaseDetails st
      \/ (requestedStockPurchaseDetails st = None
          /\ (exists ns, c = AtNodes ns st /\ In PREPARE_PURCHASE_NODE ns)
          /\ exists p, requestedStockPurchaseDetails st' = Some p)
      \/ ((exists p, requestedStockPurchaseDetails st = Some p)
          /\ c = AtNodes [EXECUTE_PURCHASE_NODE] st
          /\ requestedStockPurchaseDetails st' = None)).
Proof.
  intros Hreach Hst Hst'.
  pose proof (reachable_scheduled_ok env init c Hreach) as Hok.
  split.
  - intros ns -> Hin. simpl in Hok.
    destruct Hok as [[_ ->] | [Hnone _]]; [ | exact Hnone ].
    destruct Hin as [Hin | []]. discriminate.
  - destruct c as [s | ns s | s | msg]; simpl in Hst; try discriminate;
      injection Hst as ->.
    + (* the llm node *)
      left. simpl in Hst'.
      destruct (outcome (callModel env st)) as [u | msg] eqn:Hu; [ | discriminate ].
      destruct (route_state (applyUpdate st u)) as [H | H];
        rewrite H in Hst'; [ discriminate | ].
      injection Hst' as <-. unfold applyUpdate. simpl.
      rewrite (callModel_only_messages env st u Hu). reflexivity.
    + (* the scheduled nodes *)
      simpl in Hst'.
      destruct (outcome (run_nodes env ns st st)) as [s' | msg] eqn:Hrun;
        [ | discriminate ].
      simpl in Hst'. injection Hst' as ->.
      simpl in Hok. destruct Hok as [[[p Hp] ->] | [Hnone Hns]].
      * right. right. split; [ exists p; exact Hp | ]. split; [ reflexivity | ].
        cbn [run_nodes] in Hrun. rewrite outcome_bind, runNode_execute in Hrun.
        destruct (outcome (executePurchase st)) as [u | msg] eqn:Hu;
          [ | discriminate ].
        simpl in Hrun. injection Hrun as <-.
        unfold applyUpdate. simpl.
        rewrite (executePurchase_clears st u Hu). reflexivity.
      * destruct (run_nodes_pending env ns st st st' Hns Hrun) as [Hsame | [Hin Hp]].
        -- left. exact Hsame.
        -- right. left. split; [ exact Hnone | ].
           split; [ exists ns; split; trivial | exact Hp ].
    + (* stopped *)
      left. simpl in Hst'. injection Hst' as <-. reflexivity.
Qed.

(** * Instances on concrete conversations *)

Section Instances.

Import Examples.

(** [confirmation_wins] on a state with a pending AAPL purchase whose last
    assistant message asks for a price snapshot of MSFT. *)
Lemma confirmation_wins_witness :
  requestedStockPurchaseDetails pending_with_other_call = Some aapl_purchase
  /\ shouldContinue pending_with_other_call = Returned (Single EXECUTE_PURCHASE_NODE)
  /\ route pending_with_other_call
     = AtNodes [EXECUTE_PURCHASE_NODE] pending_with_other_call.
Proof.
  split; [ reflexivity | ].
  exact (confirmation_wins pending_with_other_call ""
           {| id := Some "call_9"; name := "price_snapshot"; args := msft_args |}
           [] aapl_purchase eq_refl eq_refl).
Defined.

(** [plain_answer_stops] on a history that ends with the user's message. *)
Lemma plain_answer_stops_witness :
  last_message (messages greeting) = Some (HumanMessage "Hello")
  /\ shouldContinue greeting = Returned (Single END)
  /\ route greeting = Stopped greeting
  /\ forall k, steps (env_price (Js.of_Z 190)) k (route greeting) = Stopped greeting.
Proof.
  split; [ reflexivity | ].
  exact (plain_answer_stops (env_price (Js.of_Z 190)) greeting (HumanMessage "Hello")
           eq_refl eq_refl).
Defined.

(** [empty_tool_calls_stop] on an assistant message with an empty list. *)
Lemma empty_tool_calls_stop_witness :
  last_message (messages empty_calls) = Some (AIMessage "" (Some []))
  /\ shouldContinue empty_calls = Returned (Single END)
  /\ route empty_calls = Stopped empty_calls
  /\ forall st', shouldContinue st' <>
       Thrown "Expected tool_calls to be an array with at least one element".
Proof.
  split; [ reflexivity | ].
  exact (empty_tool_calls_stop empty_calls "" (Some []) eq_refl eq_refl).
Defined.

(** C5 as stated fails: an assistant message whose tool-call list is empty
    makes the router answer [END] and the graph stop, not fail. *)
Lemma empty_tool_calls_no_error :
  shouldContinue empty_calls = Returned (Single END)
  /\ route empty_calls = Stopped empty_calls
  /\ shouldContinue {| messages := messages empty_calls;
                       requestedStockPurchaseDetails := Some aapl_purchase |}
     = Returned (Single END).
Proof. repeat split. Qed.

(** [price_above_ceiling_rejected] with a ceiling of 100 and a price of
    150, and with a ceiling of 300 and a price of 300.25. *)
Lemma price_above_ceiling_rejected_witness :
  (Js.gtb (Js.of_Z 150) (Js.of_Z 100) = true
   /\ outcome (preparePurchaseDetails (env_price (Js.of_Z 150)) capped_request)
      = Returned (only_messages [ToolMessage "call_1" "Price 150 > max 100"])
   /\ snapshot_calls
        (trace (preparePurchaseDetails (env_price (Js.of_Z 150)) capped_request)) = 1
   /\ upd_requestedStockPurchaseDetails
        (only_messages [ToolMessage "call_1" "Price 150 > max 100"]) = None
   /\ requestedStockPurchaseDetails
        (applyUpdate capped_request
           (only_messages [ToolMessage "call_1" "Price 150 > max 100"]))
      = requestedStockPurchaseDetails capped_request)
  /\ (Js.gtb a_quarter_above_300 (Js.of_Z 300) = true
      /\ outcome (preparePurchaseDetails (env_price a_quarter_above_300) aapl_request)
         = Returned (only_messages [ToolMessage "call_1" "Price 300.25 > max 300"])
      /\ requestedStockPurchaseDetails
           (applyUpdate aapl_request
              (only_messages [ToolMessage "call_1" "Price 300.25 > max 300"]))
         = None).
Proof.
  split.
  - split; [ reflexivity | ].
    refine (price_above_ceiling_rejected (env_price (Js.of_Z 150)) capped_request ""
              (Some [purchase_call "call_1" capped_args])
              (purchase_call "call_1" capped_args) "call_1" "AAPL" "<snapshot>"
              (Js.of_Z 150) (Js.of_Z 100)
              eq_refl eq_refl eq_refl _ _ _ eq_refl eq_refl eq_refl eq_refl).
    + discriminate.
    + left. split; reflexivity.
    + discriminate.
  - split; [ reflexivity | ].
    assert (Hid : "call_1" <> "") by discriminate.
    assert (Hticker : "AAPL" <> "") by discriminate.
    assert (Hres : resolves_to (env_price a_quarter_above_300) aapl_args "AAPL")
      by (left; split; reflexivity).
    destruct (price_above_ceiling_rejected (env_price a_quarter_above_300)
                aapl_request "" (Some [purchase_call "call_1" aapl_args])
                (purchase_call "call_1" aapl_args) "call_1" "AAPL" "<snapshot>"
                a_quarter_above_300 (Js.of_Z 300)
                eq_refl eq_refl eq_refl Hid Hres Hticker eq_refl eq_refl eq_refl
                eq_refl)
      as (Hout & _ & _ & Hkept).
    split; [ exact Hout | exact Hkept ].
Defined.

(** [missing_ceiling_is_fatal] on a request for 5 AAPL without a ceiling. *)
Lemma missing_ceiling_is_fatal_witness :
  maxPurchasePrice uncapped_args = None
  /\ outcome (preparePurchaseDetails (env_price (Js.of_Z 190)) uncapped_request)
     = Thrown "maxPurchasePrice is undefined in tool call args"
  /\ purchaseStockTool_schema uncapped_args = true.
Proof.
  split; [ reflexivity | ].
  refine (missing_ceiling_is_fatal (env_price (Js.of_Z 190)) uncapped_request ""
            (Some [purchase_call "call_1" uncapped_args])
            (purchase_call "call_1" uncapped_args) "call_1" "AAPL" "<snapshot>"
            (Js.of_Z 190) eq_refl eq_refl eq_refl _ _ _ eq_refl eq_refl eq_refl).
  - discriminate.
  - left. split; reflexivity.
  - discriminate.
Defined.

(** [missing_identity_clarification] on a message with an anonymous
    purchase request and a second call. *)
Lemma missing_identity_clarification_witness :
  Js.truthy (ticker no_args) = false /\ Js.truthy (companyName no_args) = false
  /\ preparePurchaseDetails (env_price (Js.of_Z 190)) anonymous_request
     = ([], Returned
              (only_messages
                 [ToolMessage "call_1" "Missing info for purchase_stock";
                  ToolMessage "call_2" "Missing info for price_snapshot";
                  AIMessage "Ticker or company name required." (Some [])]))
  /\ upd_requestedStockPurchaseDetails
       (only_messages
          [ToolMessage "call_1" "Missing info for purchase_stock";
           ToolMessage "call_2" "Missing info for price_snapshot";
           AIMessage "Ticker or company name required." (Some [])]) = None
  /\ requestedStockPurchaseDetails
       (applyUpdate anonymous_request
          (only_messages
             [ToolMessage "call_1" "Missing info for purchase_stock";
              ToolMessage "call_2" "Missing info for price_snapshot";
              AIMessage "Ticker or company name required." (Some [])]))
     = requestedStockPurchaseDetails anonymous_request.
Proof.
  split; [ reflexivity | ]. split; [ reflexivity | ].
  refine (missing_identity_clarification (env_price (Js.of_Z 190)) anonymous_request ""
            (Some [purchase_call "call_1" no_args;
                   {| id := Some "call_2"; name := "price_snapshot";
                      args := aapl_args |}])
            (purchase_call "call_1" no_args) eq_refl eq_refl eq_refl eq_refl _).
  repeat constructor.
Defined.

(** C3. Tool-result completeness does not hold of the code; the pairs
    below count the tool results for two call ids in the history once the
    nodes selected for an assistant message have run and the graph is
    back at the reasoning step.
    - Two [purchase_stock] calls in one message: the message is routed to
      Preparation alone, which answers the first call only; the counts
      are 1 and 0.
    - A [purchase_stock] call next to a call of another tool, with a tool
      node that answers every call of the message: Preparation and the
      tool node both run and both answer the purchase call; the counts
      are 2 and 1, and 2 and 2 when the purchase call names neither a
      ticker nor a company.
    - A purchase is pending and the model asks for a price: Execution
      runs alone and answers the purchase call, which Preparation has
      answered already; the counts are 2 and 0. *)
Theorem tool_results_are_not_one_per_call :
  route two_purchases = AtNodes [PREPARE_PURCHASE_NODE] two_purchases
  /\ step (env_price (Js.of_Z 190)) (route two_purchases)
     = AtLLM {| messages := (messages two_purchases
                             ++ [ToolMessage "call_1" aapl_record_text])%list;
                requestedStockPurchaseDetails := Some aapl_purchase |}
  /\ results_after (env_price (Js.of_Z 190)) two_purchases "call_1" "call_2"
     = Some (1, 0)
  /\ (exists ns,
        route purchase_and_lookup = AtNodes ns purchase_and_lookup
        /\ In PREPARE_PURCHASE_NODE ns /\ In TOOLS_NODE ns)
  /\ results_after (env_answering (Js.of_Z 190)) purchase_and_lookup "call_1" "call_2"
     = Some (2, 1)
  /\ results_after (env_answering (Js.of_Z 190)) anonymous_request "call_1" "call_2"
     = Some (2, 2)
  /\ route lookup_while_pending = AtNodes [EXECUTE_PURCHASE_NODE] lookup_while_pending
  /\ results_after (env_answering (Js.of_Z 190)) lookup_while_pending "call_1" "call_3"
     = Some (2, 0).
Proof.
  repeat split.
  eexists. split; [ reflexivity | ]. split.
  - left. reflexivity.
  - right. left. reflexivity.
Qed.

(** [execution_binding] on three histories: the purchase call is the
    latest relevant call; no call of the history is relevant; the history
    holds no call. *)
Lemma execution_binding_witness :
  outcome (executePurchase aapl_prepared)
  = Returned (purchase_confirmation "call_1" aapl_purchase)
  /\ outcome (executePurchase pending_with_other_call)
     = Returned (purchase_confirmation "call_9" aapl_purchase)
  /\ outcome (executePurchase pending_without_calls)
     = Thrown "Cannot find tool_call_id for purchase response".
Proof.
  split; [ | split ].
  - refine (proj1 (execution_binding aapl_prepared aapl_purchase eq_refl)
              [HumanMessage "Buy 5 AAPL at no more than 300"] ""
              [] (purchase_call "call_1" aapl_args) []
              [ToolMessage "call_1" aapl_record_text] "call_1"
              eq_refl _ _ eq_refl eq_refl _).
    + repeat constructor.
    + constructor.
    + discriminate.
  - refine (proj1 (proj2 (execution_binding pending_with_other_call aapl_purchase
                            eq_refl))
              [HumanMessage "What about MSFT?"] ""
              {| id := Some "call_9"; name := "price_snapshot"; args := msft_args |}
              [] [] "call_9" eq_refl _ _ eq_refl _).
    + repeat constructor.
    + constructor.
    + discriminate.
  - refine (proj2 (proj2 (execution_binding pending_without_calls aapl_purchase
                            eq_refl)) _).
    repeat constructor.
Defined.

(** C6 as stated fails: no message of the history carries a purchase-named
    call, and Purchase Execution still returns its confirmation, bound to
    the price-snapshot call of the last assistant message. *)
Lemma execution_binds_without_purchase_call :
  mentions_purchase_call (messages pending_with_other_call) = false
  /\ executePurchase pending_with_other_call
     = ([EConsoleLog aapl_purchase],
        Returned
          {| upd_messages :=
               Some (ManyMessages
                       [ToolMessage "call_9"
                          "Simulated purchase of 5 of AAPL at <= 300."]);
             upd_requestedStockPurchaseDetails := Some Null |}).
Proof. split; reflexivity. Qed.

(** [purchase_round_trip] on the AAPL conversation, Execution running after
    the model has asked again. *)
Lemma purchase_round_trip_witness :
  last_message (messages aapl_request)
  = Some (AIMessage "" (Some [purchase_call "call_1" aapl_args]))
  /\ Js.assoc "price" [("price", Js.JNumber (Js.of_Z 190)); ("ticker", Js.JString "AAPL")]
     = Some (Js.JNumber (Js.of_Z 190))
  /\ Js.gtb (Js.of_Z 190) (Js.of_Z 300) = false
  /\ outcome (preparePurchaseDetails (env_price (Js.of_Z 190)) aapl_request)
     = Returned {| upd_messages :=
                     Some (ManyMessages [ToolMessage "call_1" aapl_record_text]);
                   upd_requestedStockPurchaseDetails := Some (Value aapl_purchase) |}
  /\ requestedStockPurchaseDetails
       (applyUpdate aapl_request
          {| upd_messages :=
               Some (ManyMessages [ToolMessage "call_1" aapl_record_text]);
             upd_requestedStockPurchaseDetails := Some (Value aapl_purchase) |})
     = Some aapl_purchase
  /\ exists bound,
       outcome (executePurchase aapl_confirming)
       = Returned {| upd_messages :=
                       Some (ManyMessages
                               [ToolMessage bound
                                  "Simulated purchase of 5 of AAPL at <= 300."]);
                     upd_requestedStockPurchaseDetails := Some Null |}
       /\ (no_relevant_call aapl_purchase
             [AIMessage "" (Some [purchase_call "call_2" aapl_args])]
           -> bound = "call_1")
       /\ requestedStockPurchaseDetails
            (applyUpdate aapl_confirming
               {| upd_messages :=
                    Some (ManyMessages
                            [ToolMessage bound
                               "Simulated purchase of 5 of AAPL at <= 300."]);
                  upd_requestedStockPurchaseDetails := Some Null |})
          = None.
Proof.
  split; [ reflexivity | ]. split; [ reflexivity | ]. split; [ reflexivity | ].
  refine (purchase_round_trip (env_price (Js.of_Z 190)) aapl_request "" "call_1" "<snapshot>"
            [("price", Js.JNumber (Js.of_Z 190)); ("ticker", Js.JString "AAPL")]
            (Js.of_Z 190)
            [AIMessage "" (Some [purchase_call "call_2" aapl_args])]
            aapl_confirming eq_refl _ eq_refl eq_refl eq_refl eq_refl eq_refl eq_refl).
  discriminate.
Defined.

(** [at_most_one_pending] on the step that runs Preparation in the AAPL
    conversation. *)
Lemma at_most_one_pending_witness :
  reachable env_buying aapl_asked (AtNodes [PREPARE_PURCHASE_NODE] aapl_request)
  /\ (forall ns, AtNodes [PREPARE_PURCHASE_NODE] aapl_request = AtNodes ns aapl_request ->
                 In PREPARE_PURCHASE_NODE ns ->
                 requestedStockPurchaseDetails aapl_request = None)
  /\ (requestedStockPurchaseDetails aapl_prepared
      = requestedStockPurchaseDetails aapl_request
      \/ (requestedStockPurchaseDetails aapl_request = None
          /\ (exists ns, AtNodes [PREPARE_PURCHASE_NODE] aapl_request
                         = AtNodes ns aapl_request
                         /\ In PREPARE_PURCHASE_NODE ns)
          /\ exists p, requestedStockPurchaseDetails aapl_prepared = Some p)
      \/ ((exists p, requestedStockPurchaseDetails aapl_request = Some p)
          /\ AtNodes [PREPARE_PURCHASE_NODE] aapl_request
             = AtNodes [EXECUTE_PURCHASE_NODE] aapl_request
          /\ requestedStockPurchaseDetails aapl_prepared = None)).
Proof.
  assert (Hreach : reachable env_buying aapl_asked
                     (AtNodes [PREPARE_PURCHASE_NODE] aapl_request)).
  { exact (reachable_step env_buying aapl_asked (AtLLM aapl_asked)
             (reachable_start env_buying aapl_asked)). }
  split; [ exact Hreach | ].
  exact (at_most_one_pending env_buying aapl_asked
           (AtNodes [PREPARE_PURCHASE_NODE] aapl_request)
           aapl_request aapl_prepared Hreach eq_refl eq_refl).
Defined.

End Instances.

(** * Further properties of the graph *)

(** ** The history only grows *)

Lemma run_nodes_appends (env : Env) (ns : list string) (input acc st' : State) :
  outcome (run_nodes env ns input acc) = Returned st' ->
  exists new, messages st' = (messages acc ++ new)%list.
Proof.
  revert acc. induction ns as [ | n ns IH]; intro acc.
  - simpl. intros [= <-]. exists []. symmetry. apply app_nil_r.
  - cbn [run_nodes]. rewrite outcome_bind.
    destruct (outcome (runNode env n input)) as [u | msg]; [ | discriminate ].
    intro Hrest. destruct (IH _ Hrest) as [new Hnew].
    exists (new_messages u ++ new)%list.
    rewrite Hnew, applyUpdate_messages, app_assoc. reflexivity.
Qed.

Lemma step_appends (env : Env) (c : Config) (st st' : State) :
  state_of c = Some st ->
  state_of (step env c) = Some st' ->
  exists new, messages st' = (messages st ++ new)%list.
Proof.
  destruct c as [s | ns s | s | msg]; simpl; try discriminate;
    intros [= ->] Hst'.
  - destruct (outcome (callModel env st)) as [u | msg]; [ | discriminate ].
    destruct (route_state (applyUpdate st u)) as [H | H];
      rewrite H in Hst'; [ discriminate | ].
    injection Hst' as <-. exists (new_messages u). apply applyUpdate_messages.
  - destruct (outcome (run_nodes env ns st st)) as [s' | msg] eqn:Hrun;
      [ | discriminate ].
    simpl in Hst'. injection Hst' as ->.
    exact (run_nodes_appends env ns st st st' Hrun).
  - simpl in Hst'. injection Hst' as <-. exists []. symmetry. apply app_nil_r.
Qed.

Lemma steps_failed (env : Env) (k : nat) (msg : string) :
  steps env k (Failed msg) = Failed msg.
Proof. induction k as [ | k IH]; simpl; trivial. Qed.

(** X1. Append-only history: along any number of steps of the graph, from
    any configuration, the history of the later state is the history of
    the earlier one followed by new messages; nothing is dropped,
    reordered or rewritten. *)
Theorem history_append_only (env : Env) (k : nat) (c : Config) (st st' : State) :
  state_of c = Some st ->
  state_of (steps env k c) = Some st' ->
  exists new, messages st' = (messages st ++ new)%list.
Proof.
  revert c st. induction k as [ | k IH]; intros c st Hst Hst'.
  - simpl in Hst'. rewrite Hst in Hst'. injection Hst' as <-.
    exists []. symmetry. apply app_nil_r.
  - simpl in Hst'.
    destruct (state_of (step env c)) as [s1 | ] eqn:Hs1.
    + destruct (step_appends env c st s1 Hst Hs1) as [new1 H1].
      destruct (IH _ _ Hs1 Hst') as [new2 H2].
      exists (new1 ++ new2)%list. rewrite H2, H1, app_assoc. reflexivity.
    + destruct (step env c) as [s | ns s | s | msg]; try discriminate.
      rewrite steps_failed in Hst'. discriminate.
Qed.

(** ** The reasoning step *)

Lemma resolve_route (st : State) (r : Route) :
  shouldContinue st = Returned r -> resolve (destinations r) <> None.
Proof.
  intro Hr.
  destruct (shouldContinue_returned st r Hr)
    as [-> | [[-> _] | [_ [tcs ->]]]]; try discriminate.
  simpl destinations. rewrite resolve_destinations. discriminate.
Qed.

Lemma route_not_failed (st : State) (m : BaseMessage) (msg : string) :
  last_message (messages st) = Some m -> route st <> Failed msg.
Proof.
  intros Hlast. unfold route.
  destruct (shouldContinue st) as [r | e] eqn:Hr.
  - pose proof (resolve_route st r Hr) as Hres.
    destruct (resolve (destinations r)) as [ns | ]; [ | contradiction ].
    destruct (filter _ _); discriminate.
  - apply shouldContinue_thrown in Hr. rewrite Hr in Hlast. discriminate.
Qed.

Lemma step_llm_returned (env : Env) (st : State) (m : BaseMessage) :
  llmWithTools_invoke env (SystemMessage (systemMessageContent env) :: messages st)
  = Returned m ->
  step env (AtLLM st)
  = route {| messages := (messages st ++ [m])%list;
             requestedStockPurchaseDetails := requestedStockPurchaseDetails st |}.
Proof.
  intro Hllm. unfold step, callModel.
  rewrite outcome_bind, outcome_perform, Hllm.
  change (outcome (ret (only_messages [m]))) with (Returned (only_messages [m])).
  cbv iota beta. f_equal.
  unfold applyUpdate. simpl. destruct (messages st); reflexivity.
Qed.

(** X2. The reasoning step fails only with the model: when the model
    answers with a message, one step from [llm] never fails, whatever the
    message is, and the configuration it reaches carries the history
    extended by exactly that message and the pending purchase as it was. *)
Theorem reasoning_step_never_fails_by_routing (env : Env) (st : State)
    (m : BaseMessage) :
  llmWithTools_invoke env (SystemMessage (systemMessageContent env) :: messages st)
  = Returned m ->
  state_of (step env (AtLLM st))
  = Some {| messages := (messages st ++ [m])%list;
            requestedStockPurchaseDetails := requestedStockPurchaseDetails st |}.
Proof.
  intro Hllm. rewrite (step_llm_returned env st m Hllm).
  set (st1 := {| messages := (messages st ++ [m])%list;
                 requestedStockPurchaseDetails := requestedStockPurchaseDetails st |}).
  destruct (route_state st1) as [Hnone | Hsome]; [ | exact Hsome ].
  exfalso. destruct (route st1) as [s | ns s | s | msg] eqn:Hroute; try discriminate.
  apply (route_not_failed st1 m msg); [ | exact Hroute ].
  apply last_message_app.
Qed.

(** X3. A plain answer ends the turn and keeps the pending purchase: when
    the model answers with a message that is not an assistant message or
    carries no tool call, one step from [llm] stops the graph with the
    history extended by that message, and a purchase that was pending is
    still pending in the final state. *)
Theorem plain_reply_ends_turn (env : Env) (st : State) (m : BaseMessage) :
  llmWithTools_invoke env (SystemMessage (systemMessageContent env) :: messages st)
  = Returned m ->
  (_getType m =? "ai") && has_length (tool_calls_of m) = false ->
  step env (AtLLM st)
  = Stopped {| messages := (messages st ++ [m])%list;
               requestedStockPurchaseDetails := requestedStockPurchaseDetails st |}.
Proof.
  intros Hllm Hplain. rewrite (step_llm_returned env st m Hllm).
  unfold route.
  rewrite (shouldContinue_plain _ m); [ reflexivity | apply last_message_app | exact Hplain ].
Qed.

(** ** The fan-out of the router *)

Lemma destination_of_prepare (c : ToolCall) :
  destination_of c = PREPARE_PURCHASE_NODE <-> name c = "purchase_stock".
Proof.
  unfold destination_of. destruct (String.eqb_spec (name c) "purchase_stock") as [H | H].
  - split; trivial.
  - split; [ discriminate | contradiction ].
Qed.

Lemma destination_of_tools (c : ToolCall) :
  destination_of c = TOOLS_NODE <-> name c <> "purchase_stock".
Proof.
  unfold destination_of. destruct (String.eqb_spec (name c) "purchase_stock") as [H | H].
  - split; [ discriminate | contradiction ].
  - split; trivial.
Qed.

Lemma destination_of_not_end (c : ToolCall) : (destination_of c =? END) = false.
Proof.
  unfold destination_of. destruct (name c =? "purchase_stock"); reflexivity.
Qed.

Lemma route_fanout (st : State) (content : string) (tc : ToolCall)
    (tcs : list ToolCall) :
  last_message (messages st) = Some (AIMessage content (Some (tc :: tcs))) ->
  requestedStockPurchaseDetails st = None ->
  route st = AtNodes (nodup string_dec (map destination_of (tc :: tcs))) st.
Proof.
  intros Hlast Hp. unfold route.
  rewrite (shouldContinue_fanout st content tc tcs Hlast Hp).
  cbn [destinations]. rewrite resolve_destinations.
  assert (Hfilter : forall l : list ToolCall,
             filter (fun n => negb (n =? END)) (nodup string_dec (map destination_of l))
             = nodup string_dec (map destination_of l)).
  { intro l. apply forallb_filter_id. apply forallb_forall. intros n Hn.
    apply nodup_In, in_map_iff in Hn. destruct Hn as (c & <- & _).
    rewrite destination_of_not_end. reflexivity. }
  rewrite Hfilter.
  destruct (nodup string_dec (map destination_of (tc :: tcs))) as [ | n ns] eqn:Hnd;
    [ | reflexivity ].
  exfalso.
  assert (Hin : In (destination_of tc) (nodup string_dec (map destination_of (tc :: tcs))))
    by (apply nodup_In; left; reflexivity).
  rewrite Hnd in Hin. exact Hin.
Qed.

(** X4. Fan-out by name: with no purchase pending and a last assistant
    message that carries tool calls, the router schedules Preparation
    exactly when some call is named [purchase_stock] and the tools node
    exactly when some call has another name, each at most once, and no
    other node; with both kinds of call in the message both nodes run. *)
Theorem fan_out_partition (st : State) (content : string) (tc : ToolCall)
    (tcs : list ToolCall) :
  last_message (messages st) = Some (AIMessage content (Some (tc :: tcs))) ->
  requestedStockPurchaseDetails st = None ->
  exists ns,
    route st = AtNodes ns st
    /\ NoDup ns
    /\ (In PREPARE_PURCHASE_NODE ns
        <-> exists c, In c (tc :: tcs) /\ name c = "purchase_stock")
    /\ (In TOOLS_NODE ns
        <-> exists c, In c (tc :: tcs) /\ name c <> "purchase_stock")
    /\ (forall n, In n ns -> n = PREPARE_PURCHASE_NODE \/ n = TOOLS_NODE).
Proof.
  intros Hlast Hp.
  exists (nodup string_dec (map destination_of (tc :: tcs))).
  split; [ exact (route_fanout st content tc tcs Hlast Hp) | ].
  split; [ apply NoDup_nodup | ].
  split; [ | split ].
  - rewrite nodup_In, in_map_iff. split.
    + intros (c & Hc & Hin). exists c. split; trivial. apply destination_of_prepare, Hc.
    + intros (c & Hin & Hc). exists c. split; trivial. apply destination_of_prepare, Hc.
  - rewrite nodup_In, in_map_iff. split.
    + intros (c & Hc & Hin). exists c. split; trivial. apply destination_of_tools, Hc.
    + intros (c & Hin & Hc). exists c. split; trivial. apply destination_of_tools, Hc.
  - intros n Hn. apply nodup_In in Hn.
    pose proof (destination_of_cases (tc :: tcs)) as Hall.
    rewrite Forall_forall in Hall. destruct (Hall n Hn); auto.
Qed.

(** ** Preparation: guards, payloads and resolution *)

(** X5. Contract violations of Preparation: unless the last message is an
    assistant message whose first [purchase_stock] call carries a
    non-empty id, [preparePurchaseDetails] throws one of its four guard
    errors, and it does so before any external call. *)
Theorem preparation_guards_throw_first (env : Env) (st : State) :
  (forall content tcs pc,
      last_message (messages st) = Some (AIMessage content tcs) ->
      find (fun tc => name tc =? "purchase_stock") (or_empty tcs) = Some pc ->
      Js.truthy (id pc) = false) ->
  trace (preparePurchaseDetails env st) = []
  /\ exists msg, In msg preparation_guards
                 /\ outcome (preparePurchaseDetails env st) = Thrown msg.
Proof.
  intro Hbad. unfold preparePurchaseDetails.
  destruct (last_message (messages st)) as [m | ].
  - destruct m as [c | c | c tcs | i c];
      try (split; [ reflexivity | eexists; split; [ | reflexivity ];
                    unfold preparation_guards; simpl; tauto ]).
    cbn [_getType]. change ("ai" =? "ai") with true. cbn [negb].
    cbn [tool_calls_of].
    destruct (find _ (or_empty tcs)) as [pc | ] eqn:Hfind.
    + rewrite (Hbad c tcs pc eq_refl Hfind). cbn [negb].
      split; [ reflexivity | eexists; split; [ | reflexivity ];
               unfold preparation_guards; simpl; tauto ].
    + split; [ reflexivity | eexists; split; [ | reflexivity ];
               unfold preparation_guards; simpl; tauto ].
  - split; [ reflexivity | eexists; split; [ | reflexivity ];
             unfold preparation_guards; simpl; tauto ].
Qed.

(** X6. What counts as a price: the [try] block of Preparation yields a
    price exactly when the snapshot text parses to an object whose [price]
    field is a number; a parse failure, [null], a non-object or a missing
    or non-numeric [price] all end in the [catch] clause. *)
Theorem price_read_iff_numeric_field (env : Env) (text : string) (price : Js.number) :
  read_currentPrice env text = Returned price
  <-> exists fields,
        JSON_parse env text = Returned (Js.JObject fields)
        /\ Js.assoc "price" fields = Some (Js.JNumber price).
Proof.
  unfold read_currentPrice. split.
  - destruct (JSON_parse env text) as [v | msg]; [ | discriminate ].
    destruct v as [ | b | n | s | items | fields]; try discriminate.
    destruct (Js.assoc "price" fields) as [[ | b | n | s | items | fs] | ] eqn:Hfield;
      try discriminate.
    intros [= ->]. exists fields. split; [ reflexivity | exact Hfield ].
  - intros (fields & -> & ->). reflexivity.
Qed.

(** X7. Malformed price payload: when the [try] block fails with a message
    [e], Preparation returns the single tool message [Price error: e]
    bound to the purchase call instead of throwing, writes no pending
    purchase, and does so whether or not [maxPurchasePrice] was given. *)
Theorem malformed_price_is_reported (env : Env) (st : State) (content : string)
    (tcs : option (list ToolCall)) (pc : ToolCall) (pid t text e : string) :
  last_message (messages st) = Some (AIMessage content tcs) ->
  find (fun tc => name tc =? "purchase_stock") (or_empty tcs) = Some pc ->
  id pc = Some pid -> pid <> "" ->
  resolves_to env (args pc) t -> t <> "" ->
  priceSnapshotTool_invoke env t = Returned text ->
  read_currentPrice env text = Thrown e ->
  outcome (preparePurchaseDetails env st)
  = Returned (only_messages [ToolMessage pid ("Price error: " ++ e)]).
Proof.
  intros Hlast Hfind Hid Hpid Hres Ht Hsnap Hprice.
  rewrite (prepare_found env st content tcs pc Hlast Hfind)
    by (rewrite Hid; apply truthy_some; exact Hpid).
  destruct (purchase_for_call_resolved env (or_empty tcs) pc t Hres) as [Ho _].
  rewrite Ho, Hid. simpl or_blank.
  unfold purchase_with_ticker. rewrite (truthy_some t Ht). cbn [negb].
  rewrite outcome_bind, outcome_perform, Hsnap, Hprice. reflexivity.
Qed.

Lemma findCompanyName_cases (env : Env) (cn : string) :
  findCompanyName env cn =
  match webSearchTool_invoke env (ticker_query cn) with
  | Thrown msg => ([EWebSearch (ticker_query cn)], Thrown msg)
  | Returned results =>
      ([EWebSearch (ticker_query cn); EExtractTicker (ticker_prompt cn results)],
       llmWithTickerOutput_invoke env cn [AIMessage (ticker_prompt cn results) (Some [])])
  end.
Proof.
  unfold findCompanyName, perform, bind. fold (ticker_query cn).
  destruct (webSearchTool_invoke env (ticker_query cn)) as [results | msg];
    [ | reflexivity ].
  fold (ticker_prompt cn results).
  destruct (llmWithTickerOutput_invoke env cn _); reflexivity.
Qed.

Lemma trace_purchase_with_ticker (env : Env) (pid : string) (a : ToolArgs) (t : string) :
  trace (purchase_with_ticker env pid a t)
  = if Js.truthy (Some t) then [EPriceSnapshot t] else [].
Proof.
  unfold purchase_with_ticker.
  destruct (Js.truthy (Some t)); cbn [negb]; [ | reflexivity ].
  unfold perform, bind.
  destruct (priceSnapshotTool_invoke env t) as [text | msg]; [ | reflexivity ].
  destruct (read_currentPrice env text) as [price | e]; [ | reflexivity ].
  destruct (maxPurchasePrice a) as [max | ]; [ | reflexivity ].
  destruct (Js.gtb price max); reflexivity.
Qed.

Lemma bind_pair {A B} (m : M A) (k : A -> M B) :
  bind m k = (trace (bind m k), outcome (bind m k)).
Proof. destruct (bind m k); reflexivity. Qed.

(** X8. Ticker resolution by company name: for a purchase call without a
    ticker but with a company name, Preparation first searches the web with
    the query [What is the ticker symbol for <company>?], then asks for a
    structured extraction over the search results, and then goes on with
    the extracted ticker exactly as it does with a ticker argument. *)
Theorem company_name_resolution (env : Env) (st : State) (content : string)
    (tcs : option (list ToolCall)) (pc : ToolCall) (pid cn results t : string) :
  last_message (messages st) = Some (AIMessage content tcs) ->
  find (fun tc => name tc =? "purchase_stock") (or_empty tcs) = Some pc ->
  id pc = Some pid -> pid <> "" ->
  Js.truthy (ticker (args pc)) = false ->
  companyName (args pc) = Some cn -> cn <> "" ->
  webSearchTool_invoke env (ticker_query cn) = Returned results ->
  llmWithTickerOutput_invoke env cn [AIMessage (ticker_prompt cn results) (Some [])]
  = Returned t ->
  preparePurchaseDetails env st
  = (([EWebSearch (ticker_query cn); EExtractTicker (ticker_prompt cn results)]
      ++ trace (purchase_with_ticker env pid (args pc) t))%list,
     outcome (purchase_with_ticker env pid (args pc) t)).
Proof.
  intros Hlast Hfind Hid Hpid Hticker Hcn Hne Hsearch Hextract.
  rewrite (prepare_found env st content tcs pc Hlast Hfind)
    by (rewrite Hid; apply truthy_some; exact Hpid).
  unfold purchase_for_call. rewrite Hticker, Hcn, Hid, (truthy_some cn Hne).
  cbn [negb or_blank].
  rewrite bind_pair, trace_bind, outcome_bind.
  rewrite findCompanyName_cases, Hsearch, Hextract. reflexivity.
Qed.

(** X9. Unresolvable company: when the extraction answers with an empty
    ticker, Preparation returns the tool message and the assistant message
    [Could not determine ticker.], asks for no price snapshot and writes
    no pending purchase. *)
Theorem unresolved_company_is_reported (env : Env) (st : State) (content : string)
    (tcs : option (list ToolCall)) (pc : ToolCall) (pid cn results : string) :
  last_message (messages st) = Some (AIMessage content tcs) ->
  find (fun tc => name tc =? "purchase_stock") (or_empty tcs) = Some pc ->
  id pc = Some pid -> pid <> "" ->
  Js.truthy (ticker (args pc)) = false ->
  companyName (args pc) = Some cn -> cn <> "" ->
  webSearchTool_invoke env (ticker_query cn) = Returned results ->
  llmWithTickerOutput_invoke env cn [AIMessage (ticker_prompt cn results) (Some [])]
  = Returned "" ->
  preparePurchaseDetails env st
  = ([EWebSearch (ticker_query cn); EExtractTicker (ticker_prompt cn results)],
     Returned (only_messages [ToolMessage pid "Could not determine ticker.";
                              AIMessage "Could not determine ticker." (Some [])])).
Proof.
  intros Hlast Hfind Hid Hpid Hticker Hcn Hne Hsearch Hextract.
  rewrite (prepare_found env st content tcs pc Hlast Hfind)
    by (rewrite Hid; apply truthy_some; exact Hpid).
  unfold purchase_for_call. rewrite Hticker, Hcn, Hid, (truthy_some cn Hne).
  cbn [negb or_blank].
  rewrite findCompanyName_cases, Hsearch, Hextract. reflexivity.
Qed.

(** X10. A failed lookup is fatal: when the web search or the extraction
    behind [findCompanyName] throws, Preparation throws the same error:
    the failure is not turned into a tool message, and no price snapshot
    is requested. *)
Theorem failed_lookup_is_fatal (env : Env) (st : State) (content : string)
    (tcs : option (list ToolCall)) (pc : ToolCall) (pid cn msg : string) :
  last_message (messages st) = Some (AIMessage content tcs) ->
  find (fun tc => name tc =? "purchase_stock") (or_empty tcs) = Some pc ->
  id pc = Some pid -> pid <> "" ->
  Js.truthy (ticker (args pc)) = false ->
  companyName (args pc) = Some cn -> cn <> "" ->
  outcome (findCompanyName env cn) = Thrown msg ->
  outcome (preparePurchaseDetails env st) = Thrown msg
  /\ snapshot_calls (trace (preparePurchaseDetails env st)) = 0.
Proof.
  intros Hlast Hfind Hid Hpid Hticker Hcn Hne Hfail.
  rewrite (prepare_found env st content tcs pc Hlast Hfind)
    by (rewrite Hid; apply truthy_some; exact Hpid).
  unfold purchase_for_call. rewrite Hticker, Hcn, (truthy_some cn Hne).
  cbn [negb or_blank].
  rewrite outcome_bind, trace_bind, Hfail.
  split; [ reflexivity | apply findCompanyName_no_snapshot ].
Qed.

Lemma trace_mapM_missing_info (l : list ToolCall) :
  trace (mapM missing_info l) = [].
Proof.
  induction l as [ | tc l IH]; [ reflexivity | ].
  cbn [mapM]. rewrite trace_bind.
  assert (Hone : trace (missing_info tc) = []).
  { unfold missing_info. destruct (Js.truthy (id tc)); reflexivity. }
  rewrite Hone. destruct (outcome (missing_info tc)); [ | reflexivity ].
  cbn [app]. rewrite trace_bind, IH.
  destruct (outcome (mapM missing_info l)); reflexivity.
Qed.

(** The traces of the two halves of Preparation. *)
Lemma trace_purchase_for_call (env : Env) (tcs : list ToolCall) (pc : ToolCall) :
  (Js.truthy (ticker (args pc)) = true ->
   trace (purchase_for_call env tcs pc)
   = if Js.truthy (Some (or_blank (ticker (args pc))))
     then [EPriceSnapshot (or_blank (ticker (args pc)))] else [])
  /\ (exists q p t,
        trace (purchase_for_call env tcs pc) = []
        \/ trace (purchase_for_call env tcs pc) = [EWebSearch q]
        \/ trace (purchase_for_call env tcs pc) = [EWebSearch q; EExtractTicker p]
        \/ trace (purchase_for_call env tcs pc)
           = [EWebSearch q; EExtractTicker p; EPriceSnapshot t]
        \/ trace (purchase_for_call env tcs pc) = [EPriceSnapshot t]).
Proof.
  unfold purchase_for_call.
  destruct (Js.truthy (ticker (args pc))) eqn:Hticker; cbn [negb].
  - split; [ intros _; apply trace_purchase_with_ticker | ].
    exists "", "", (or_blank (ticker (args pc))).
    rewrite trace_purchase_with_ticker.
    destruct (Js.truthy (Some (or_blank (ticker (args pc))))); tauto.
  - split; [ discriminate | ].
    destruct (Js.truthy (companyName (args pc))); cbn [negb].
    + rewrite trace_bind, findCompanyName_cases.
      set (cn := or_blank (companyName (args pc))).
      destruct (webSearchTool_invoke env (ticker_query cn)) as [results | msg].
      * destruct (llmWithTickerOutput_invoke env cn _) as [t | msg];
          cbn [outcome trace fst snd].
        -- exists (ticker_query cn), (ticker_prompt cn results), t.
           rewrite trace_purchase_with_ticker.
           destruct (Js.truthy (Some t)); simpl; tauto.
        -- exists (ticker_query cn), (ticker_prompt cn results), "". tauto.
      * exists (ticker_query cn), "", "". cbn [outcome trace fst snd]. tauto.
    + exists "", "", "". left.
      rewrite trace_bind.
      rewrite trace_mapM_missing_info.
      destruct (outcome (mapM missing_info tcs)); reflexivity.
Qed.

Lemma preparePurchaseDetails_trace_found (env : Env) (st : State) :
  trace (preparePurchaseDetails env st) = []
  \/ exists content tcs pc,
       last_message (messages st) = Some (AIMessage content tcs)
       /\ find (fun tc => name tc =? "purchase_stock") (or_empty tcs) = Some pc
       /\ preparePurchaseDetails env st = purchase_for_call env (or_empty tcs) pc.
Proof.
  unfold preparePurchaseDetails.
  destruct (last_message (messages st)) as [m | ]; [ | left; reflexivity ].
  destruct m as [c | c | c tcs | i c]; try (left; reflexivity).
  cbn [_getType tool_calls_of]. change ("ai" =? "ai") with true. cbn [negb].
  destruct (find _ (or_empty tcs)) as [pc | ] eqn:Hfind; [ | left; reflexivity ].
  destruct (Js.truthy (id pc)); cbn [negb]; [ | left; reflexivity ].
  right. exists c, tcs, pc. repeat split; trivial.
Qed.

(** X11. The external calls of Preparation: in every state and
    environment, one run of [preparePurchaseDetails] performs nothing, or
    a web search alone, or a search then an extraction, or both followed
    by one price snapshot, or one price snapshot alone; it never repeats a
    call and never asks for a price before the ticker is resolved. *)
Theorem preparation_effects (env : Env) (st : State) :
  exists q p t,
    trace (preparePurchaseDetails env st) = []
    \/ trace (preparePurchaseDetails env st) = [EWebSearch q]
    \/ trace (preparePurchaseDetails env st) = [EWebSearch q; EExtractTicker p]
    \/ trace (preparePurchaseDetails env st)
       = [EWebSearch q; EExtractTicker p; EPriceSnapshot t]
    \/ trace (preparePurchaseDetails env st) = [EPriceSnapshot t].
Proof.
  destruct (preparePurchaseDetails_trace_found env st)
    as [Hnil | (c & tcs & pc & _ & _ & ->)].
  - exists "", "", "". left. exact Hnil.
  - exact (proj2 (trace_purchase_for_call env (or_empty tcs) pc)).
Qed.

(** X12. A ticker argument is never looked up: when the purchase call
    carries a ticker, Preparation performs no web search and no
    extraction, whatever [companyName] holds, and its only external call
    is the price snapshot of that ticker. *)
Theorem given_ticker_is_not_looked_up (env : Env) (st : State) (content : string)
    (tcs : option (list ToolCall)) (pc : ToolCall) (pid t : string) :
  last_message (messages st) = Some (AIMessage content tcs) ->
  find (fun tc => name tc =? "purchase_stock") (or_empty tcs) = Some pc ->
  id pc = Some pid -> pid <> "" ->
  ticker (args pc) = Some t -> t <> "" ->
  trace (preparePurchaseDetails env st) = [EPriceSnapshot t]
  /\ lookup_calls (trace (preparePurchaseDetails env st)) = 0.
Proof.
  intros Hlast Hfind Hid Hpid Hticker Ht.
  rewrite (prepare_found env st content tcs pc Hlast Hfind)
    by (rewrite Hid; apply truthy_some; exact Hpid).
  assert (Htruthy : Js.truthy (ticker (args pc)) = true)
    by (rewrite Hticker; apply truthy_some; exact Ht).
  rewrite (proj1 (trace_purchase_for_call env (or_empty tcs) pc) Htruthy).
  rewrite Hticker. cbn [or_blank]. rewrite (truthy_some t Ht).
  split; reflexivity.
Qed.

(** ** The pending purchase is a validated one *)

Lemma purchase_with_ticker_accepted (env : Env) (pid : string) (a : ToolArgs)
    (t : string) (u : PartialState) (p : StockPurchase) :
  outcome (purchase_with_ticker env pid a t) = Returned u ->
  upd_requestedStockPurchaseDetails u = Some (Value p) ->
  t <> "" /\ sp_ticker p = t /\ sp_quantity p = quantity_or_one a
  /\ maxPurchasePrice a = Some (sp_maxPurchasePrice p)
  /\ new_messages u = [ToolMessage pid (JSON_stringify_StockPurchase p)]
  /\ exists text price,
       priceSnapshotTool_invoke env t = Returned text
       /\ read_currentPrice env text = Returned price
       /\ Js.gtb price (sp_maxPurchasePrice p) = false.
Proof.
  unfold purchase_with_ticker.
  destruct (Js.truthy (Some t)) eqn:Ht; cbn [negb].
  - destruct (truthy_inv _ Ht) as (t' & [= <-] & Hne).
    rewrite outcome_bind, outcome_perform.
    destruct (priceSnapshotTool_invoke env t) as [text | msg]; [ | discriminate ].
    destruct (read_currentPrice env text) as [price | e] eqn:Hread.
    + destruct (maxPurchasePrice a) as [max | ]; [ | discriminate ].
      destruct (Js.gtb price max) eqn:Hgt.
      * simpl. intros [= <-]. discriminate.
      * simpl. intros [= <-]. simpl. intros [= <-]. simpl.
        repeat split; trivial. exists text, price.
        repeat split; trivial.
    + simpl. intros [= <-]. discriminate.
  - simpl. intros [= <-]. discriminate.
Qed.

(** X13. A pending purchase is a validated one: whenever Preparation
    writes the pending purchase, the record holds the resolved, non-empty
    ticker, the requested quantity or 1 when none was given, and the
    ceiling of the call; the price read from the snapshot of that ticker
    is not above the ceiling; and the only message appended is the tool
    message carrying the serialized record, in which each number has the
    text [JSON.stringify] gives it. *)
Theorem pending_purchase_is_validated (env : Env) (st : State)
    (u : PartialState) (p : StockPurchase) :
  outcome (preparePurchaseDetails env st) = Returned u ->
  upd_requestedStockPurchaseDetails u = Some (Value p) ->
  exists content tcs pc pid text price,
    last_message (messages st) = Some (AIMessage content tcs)
    /\ find (fun tc => name tc =? "purchase_stock") (or_empty tcs) = Some pc
    /\ id pc = Some pid
    /\ resolves_to env (args pc) (sp_ticker p) /\ sp_ticker p <> ""
    /\ sp_quantity p = quantity_or_one (args pc)
    /\ maxPurchasePrice (args pc) = Some (sp_maxPurchasePrice p)
    /\ priceSnapshotTool_invoke env (sp_ticker p) = Returned text
    /\ read_currentPrice env text = Returned price
    /\ Js.gtb price (sp_maxPurchasePrice p) = false
    /\ new_messages u = [ToolMessage pid (JSON_stringify_StockPurchase p)].
Proof.
  intros Hret Hkey.
  destruct (prepare_returned env st u Hret)
    as (c & tcs & pc & pid & Hlast & Hfind & Hid & Hne & _).
  assert (Hidt : Js.truthy (id pc) = true)
    by (rewrite Hid; apply truthy_some; exact Hne).
  rewrite (prepare_found env st c tcs pc Hlast Hfind Hidt) in Hret.
  unfold purchase_for_call in Hret. rewrite Hid in Hret. cbn [or_blank] in Hret.
  assert (Hgoal : forall t,
             resolves_to env (args pc) t ->
             outcome (purchase_with_ticker env pid (args pc) t) = Returned u ->
             exists content tcs pc pid text price,
               last_message (messages st) = Some (AIMessage content tcs)
               /\ find (fun tc => name tc =? "purchase_stock") (or_empty tcs) = Some pc
               /\ id pc = Some pid
               /\ resolves_to env (args pc) (sp_ticker p) /\ sp_ticker p <> ""
               /\ sp_quantity p = quantity_or_one (args pc)
               /\ maxPurchasePrice (args pc) = Some (sp_maxPurchasePrice p)
               /\ priceSnapshotTool_invoke env (sp_ticker p) = Returned text
               /\ read_currentPrice env text = Returned price
               /\ Js.gtb price (sp_maxPurchasePrice p) = false
               /\ new_messages u = [ToolMessage pid (JSON_stringify_StockPurchase p)]).
  { intros t Hres Hwith.
    destruct (purchase_with_ticker_accepted env pid (args pc) t u p Hwith Hkey)
      as (Ht & Hticker & Hq & Hmax & Hnew & text & price & Hsnap & Hread & Hle).
    exists c, tcs, pc, pid, text, price. rewrite Hticker.
    repeat split; trivial. }
  destruct (Js.truthy (ticker (args pc))) eqn:Hticker; cbn [negb] in Hret.
  - destruct (truthy_inv _ Hticker) as (t & Ht & _).
    apply (Hgoal t).
    + left. split; trivial.
    + rewrite Ht in Hret. exact Hret.
  - destruct (Js.truthy (companyName (args pc))) eqn:Hcompany; cbn [negb] in Hret.
    + rewrite outcome_bind in Hret.
      destruct (outcome (findCompanyName env (or_blank (companyName (args pc)))))
        as [t | msg] eqn:Hfindc; [ | discriminate ].
      apply (Hgoal t); trivial.
      right. repeat split; trivial.
    + rewrite outcome_bind in Hret.
      destruct (outcome (mapM missing_info (or_empty tcs))); [ | discriminate ].
      simpl in Hret. injection Hret as <-. discriminate.
Qed.

(** ** From Preparation to Execution *)

Lemma find_exists {A} (f : A -> bool) (l : list A) (x : A) :
  In x l -> f x = true -> exists y, find f l = Some y.
Proof.
  induction l as [ | a l IH]; intros Hin Hx; [ destruct Hin | ].
  simpl. destruct (f a) eqn:Ha; [ exists a; reflexivity | ].
  destruct Hin as [-> | Hin]; [ congruence | exact (IH Hin Hx) ].
Qed.

Lemma search_backward_later (p : StockPurchase) (l1 l2 : list BaseMessage) :
  (exists i, search_backward p l2 = Some i) ->
  exists i, search_backward p (l1 ++ l2) = Some i.
Proof.
  intros [i Hi]. rewrite search_backward_app.
  destruct (search_backward p l1) as [j | ]; [ exists j | exists i ]; trivial.
Qed.

(** The search of Execution succeeds on any history that extends the one
    Preparation accepted a purchase on, when the calls of the purchase
    message carry ids. *)
Lemma search_after_preparation (p : StockPurchase) (earlier appended : list BaseMessage)
    (content : string) (tcs : list ToolCall) (pc : ToolCall) :
  In pc tcs -> name pc = "purchase_stock" ->
  Forall (fun tc => Js.truthy (id tc) = true) tcs ->
  exists i,
    search_backward p (rev ((earlier ++ [AIMessage content (Some tcs)]) ++ appended))
    = Some i.
Proof.
  intros Hin Hname Hids.
  rewrite rev_app_distr. apply search_backward_later.
  rewrite rev_app_distr. cbn [rev app].
  cbn [search_backward _getType tool_calls_of or_empty].
  change ("ai" =? "ai") with true. cbv iota.
  assert (Hrel : relevant p pc = true).
  { unfold relevant. rewrite Hname. reflexivity. }
  destruct (find_exists (relevant p) tcs pc Hin Hrel) as [tc Hfind].
  rewrite Hfind. apply find_some in Hfind as [Htc _].
  rewrite Forall_forall in Hids. rewrite (Hids tc Htc).
  destruct (truthy_inv _ (Hids tc Htc)) as (i & Hi & _).
  exists i. exact Hi.
Qed.

Lemma executable_after_preparation (env : Env) (st : State) (content : string)
    (tcs : option (list ToolCall)) (u : PartialState) (p : StockPurchase)
    (later : list BaseMessage) (st2 : State) :
  last_message (messages st) = Some (AIMessage content tcs) ->
  Forall (fun tc => Js.truthy (id tc) = true) (or_empty tcs) ->
  outcome (preparePurchaseDetails env st) = Returned u ->
  messages st2 = (messages (applyUpdate st u) ++ later)%list ->
  requestedStockPurchaseDetails st2 = Some p ->
  exists bound,
    bound <> ""
    /\ outcome (executePurchase st2) = Returned (purchase_confirmation bound p).
Proof.
  intros Hlast Hids Hret Hms Hp.
  destruct (prepare_returned env st u Hret)
    as (c & tcs' & pc & pid & Hlast' & Hfind & _ & _ & _).
  rewrite Hlast in Hlast'. injection Hlast' as <- <-.
  apply find_some in Hfind as [Hin Hname]. apply String.eqb_eq in Hname.
  destruct tcs as [calls | ]; [ | destruct Hin ]. cbn [or_empty] in *.
  destruct (last_message_inv _ _ Hlast) as [earlier Hearlier].
  destruct (search_after_preparation p earlier (new_messages u ++ later)
              content calls pc Hin Hname Hids) as [i Hi].
  exists i. split.
  - pose proof (search_backward_truthy _ _ _ Hi) as Ht.
    destruct (truthy_inv _ Ht) as (i' & [= <-] & Hne). exact Hne.
  - apply executePurchase_found; trivial.
    rewrite Hms, applyUpdate_messages, Hearlier, <- app_assoc. exact Hi.
Qed.

(** X14. An accepted purchase can always be executed: if Preparation
    accepted a purchase on a state whose last assistant message only holds
    calls with ids, then in any later state of the conversation that
    still holds that pending record, whatever was appended since,
    Purchase Execution finds a non-empty call id and returns its
    confirmation for that record. *)
Theorem accepted_purchase_can_be_executed (env : Env) (st : State)
    (content : string) (tcs : option (list ToolCall)) (u : PartialState)
    (p : StockPurchase) (later : list BaseMessage) (st2 : State) :
  last_message (messages st) = Some (AIMessage content tcs) ->
  Forall (fun tc => Js.truthy (id tc) = true) (or_empty tcs) ->
  outcome (preparePurchaseDetails env st) = Returned u ->
  upd_requestedStockPurchaseDetails u = Some (Value p) ->
  messages st2 = (messages (applyUpdate st u) ++ later)%list ->
  requestedStockPurchaseDetails st2 = Some p ->
  exists bound,
    bound <> ""
    /\ outcome (executePurchase st2) = Returned (purchase_confirmation bound p)
    /\ requestedStockPurchaseDetails
         (applyUpdate st2 (purchase_confirmation bound p)) = None.
Proof.
  intros Hlast Hids Hret _ Hms Hp.
  destruct (executable_after_preparation env st content tcs u p later st2
              Hlast Hids Hret Hms Hp) as (bound & Hne & Hexec).
  exists bound. repeat split; trivial.
Qed.

(** ** What Execution answers and logs *)

Lemma search_backward_in (p : StockPurchase) (l : list BaseMessage) (i : string) :
  search_backward p l = Some i -> call_in_history i l.
Proof.
  induction l as [ | m l IH]; [ discriminate | ].
  assert (Hlater : call_in_history i l -> call_in_history i (m :: l)).
  { intros (c & tcs & tc & Hin & Htc & Hid).
    exists c, tcs, tc. split; [ right; exact Hin | split; trivial ]. }
  cbn [search_backward].
  destruct (_getType m =? "ai"); [ | intro H; exact (Hlater (IH H)) ].
  destruct (find (relevant p) (or_empty (tool_calls_of m))) as [tc | ] eqn:Hfind;
    [ | intro H; exact (Hlater (IH H)) ].
  destruct (Js.truthy (id tc)); [ | intro H; exact (Hlater (IH H)) ].
  intro Hid. apply find_some in Hfind as [Hin _].
  destruct m as [c | c | c [tcs | ] | j c]; try destruct Hin.
  exists c, tcs, tc. split; [ left; reflexivity | split; assumption ].
Qed.

Lemma first_call_of_last_ai_in (ms : list BaseMessage) (i : string) :
  first_call_of_last_ai ms = Some i -> call_in_history i ms.
Proof.
  unfold first_call_of_last_ai.
  destruct (find _ (rev ms)) as [m | ] eqn:Hfind; [ | discriminate ].
  apply find_some in Hfind as [Hin _]. apply in_rev in Hin.
  destruct m as [c | c | c [[ | tc tcs] | ] | j c]; try discriminate.
  cbn [tool_calls_of or_empty]. intro Hid.
  exists c, (tc :: tcs), tc. split; [ exact Hin | split; [ left; reflexivity | exact Hid ] ].
Qed.

Lemma call_in_history_rev (i : string) (ms : list BaseMessage) :
  call_in_history i (rev ms) -> call_in_history i ms.
Proof.
  intros (c & tcs & tc & Hin & Htc & Hid).
  exists c, tcs, tc. split; [ apply in_rev; exact Hin | split; trivial ].
Qed.

(** X15. The confirmation answers a call of the history: whenever
    Purchase Execution returns, a purchase was pending, the result is the
    confirmation of that purchase with the pending record cleared, and
    the id it is bound to is non-empty and is the id of a tool call of
    some assistant message of the history. *)
Theorem confirmation_answers_a_call_of_the_history (st : State) (u : PartialState) :
  outcome (executePurchase st) = Returned u ->
  exists p i,
    requestedStockPurchaseDetails st = Some p
    /\ u = purchase_confirmation i p
    /\ i <> ""
    /\ call_in_history i (messages st)
    /\ requestedStockPurchaseDetails (applyUpdate st u) = None.
Proof.
  intro Hret.
  destruct (requestedStockPurchaseDetails st) as [p | ] eqn:Hp;
    [ | unfold executePurchase in Hret; rewrite Hp in Hret; discriminate ].
  rewrite (executePurchase_outcome st p Hp) in Hret. cbv zeta in Hret.
  destruct (search_backward p (rev (messages st))) as [i | ] eqn:Hsearch.
  - pose proof (search_backward_truthy _ _ _ Hsearch) as Ht.
    rewrite Ht in Hret. cbn [negb] in Hret. rewrite Ht in Hret.
    cbn [negb or_blank] in Hret. injection Hret as <-.
    destruct (truthy_inv _ Ht) as (i' & [= <-] & Hne).
    exists p, i. repeat split; trivial.
    apply call_in_history_rev, (search_backward_in p). exact Hsearch.
  - change (Js.truthy None) with false in Hret. cbn [negb] in Hret.
    destruct (Js.truthy (first_call_of_last_ai (messages st))) eqn:Ht;
      cbn [negb] in Hret; [ | discriminate ].
    destruct (truthy_inv _ Ht) as (i & Hi & Hne).
    rewrite Hi in Hret. cbn [or_blank] in Hret. injection Hret as <-.
    exists p, i. repeat split; trivial.
    apply first_call_of_last_ai_in. exact Hi.
Qed.

(** X16. The simulated trade comes first: Purchase Execution without a
    pending purchase throws [Missing purchase details] and logs nothing;
    with a pending purchase it logs the trade exactly once and only then
    looks for a call id, so that it either returns the confirmation or
    fails with [Cannot find tool_call_id for purchase response] after
    the trade was logged. *)
Theorem execution_logs_before_binding (st : State) :
  match requestedStockPurchaseDetails st with
  | None => executePurchase st = ([], Thrown "Missing purchase details")
  | Some p =>
      trace (executePurchase st) = [EConsoleLog p]
      /\ (outcome (executePurchase st)
          = Thrown "Cannot find tool_call_id for purchase response"
          \/ exists i, outcome (executePurchase st)
                       = Returned (purchase_confirmation i p))
  end.
Proof.
  destruct (requestedStockPurchaseDetails st) as [p | ] eqn:Hp.
  - split.
    + unfold executePurchase. rewrite Hp. rewrite trace_bind. simpl.
      match goal with |- context [if ?b then _ else _] => destruct b end;
        reflexivity.
    + rewrite (executePurchase_outcome st p Hp). cbv zeta.
      match goal with |- context [if negb (Js.truthy ?c) then _ else _] =>
        destruct (negb (Js.truthy c)); [ left; reflexivity | right; eexists; reflexivity ]
      end.
  - unfold executePurchase. rewrite Hp. reflexivity.
Qed.

(** ** A purchase through the graph *)

Lemma State_eta (st : State) :
  st = {| messages := messages st;
          requestedStockPurchaseDetails := requestedStockPurchaseDetails st |}.
Proof. destruct st; reflexivity. Qed.

Lemma run_single_node (env : Env) (n : string) (st : State) (u : PartialState) :
  outcome (runNode env n st) = Returned u ->
  step env (AtNodes [n] st) = AtLLM (applyUpdate st u).
Proof.
  intro Hu. unfold step. cbn [run_nodes]. rewrite outcome_bind, Hu. reflexivity.
Qed.

(** X17. A purchase through the graph: from the step that runs Preparation
    on an accepted purchase, if the model then answers with any assistant
    message that carries tool calls, three steps of the graph (Preparation,
    the model, Execution) lead back to the reasoning step with the history
    extended by the serialized record, the model's message and the
    confirmation, in this order, and with no purchase pending. *)
Theorem purchase_through_the_graph (env : Env) (st : State) (content : string)
    (tcs : option (list ToolCall)) (u : PartialState) (p : StockPurchase)
    (content' : string) (tc : ToolCall) (rest : list ToolCall) :
  last_message (messages st) = Some (AIMessage content tcs) ->
  Forall (fun c => Js.truthy (id c) = true) (or_empty tcs) ->
  outcome (preparePurchaseDetails env st) = Returned u ->
  upd_requestedStockPurchaseDetails u = Some (Value p) ->
  llmWithTools_invoke env
    (SystemMessage (systemMessageContent env) :: messages (applyUpdate st u))
  = Returned (AIMessage content' (Some (tc :: rest))) ->
  exists bound,
    bound <> ""
    /\ steps env 3 (AtNodes [PREPARE_PURCHASE_NODE] st)
       = AtLLM {| messages :=
                    (messages st ++ new_messages u
                     ++ [AIMessage content' (Some (tc :: rest))]
                     ++ new_messages (purchase_confirmation bound p))%list;
                  requestedStockPurchaseDetails := None |}.
Proof.
  intros Hlast Hids Hret Hkey Hllm.
  set (m := AIMessage content' (Some (tc :: rest))) in *.
  set (st1 := applyUpdate st u) in *.
  set (st2 := {| messages := (messages st1 ++ [m])%list;
                 requestedStockPurchaseDetails := requestedStockPurchaseDetails st1 |}).
  assert (Hp1 : requestedStockPurchaseDetails st1 = Some p).
  { unfold st1, applyUpdate. simpl. rewrite Hkey. reflexivity. }
  destruct (executable_after_preparation env st content tcs u p [m] st2
              Hlast Hids Hret eq_refl Hp1) as (bound & Hne & Hexec).
  exists bound. split; [ exact Hne | ].
  cbn [steps].
  rewrite (run_single_node env PREPARE_PURCHASE_NODE st u)
    by (rewrite runNode_prepare; exact Hret).
  fold st1. rewrite (step_llm_returned env st1 m Hllm). fold st2.
  assert (Hroute : route st2 = AtNodes [EXECUTE_PURCHASE_NODE] st2).
  { unfold route.
    rewrite (shouldContinue_pending st2 content' tc rest p);
      [ reflexivity | apply last_message_app | exact Hp1 ]. }
  rewrite Hroute.
  rewrite (run_single_node env EXECUTE_PURCHASE_NODE st2
             (purchase_confirmation bound p))
    by (rewrite runNode_execute; exact Hexec).
  f_equal. rewrite (State_eta (applyUpdate st2 (purchase_confirmation bound p))).
  f_equal.
  rewrite applyUpdate_messages.
  change (messages st2) with (messages st1 ++ [m])%list.
  unfold st1. rewrite applyUpdate_messages, <- !app_assoc. reflexivity.
Qed.

(** * Instances of the further properties *)

Section MoreInstances.

Import Examples.

Lemma history_append_only_witness :
  state_of (steps env_buying 2 (AtLLM aapl_asked)) = Some aapl_prepared
  /\ exists new, messages aapl_prepared = (messages aapl_asked ++ new)%list.
Proof.
  split; [ reflexivity | ].
  exact (history_append_only env_buying 2 (AtLLM aapl_asked) aapl_asked aapl_prepared
           eq_refl eq_refl).
Defined.

Lemma reasoning_step_never_fails_by_routing_witness :
  state_of (step env_buying (AtLLM aapl_asked)) = Some aapl_request.
Proof.
  exact (reasoning_step_never_fails_by_routing env_buying aapl_asked
           (AIMessage "" (Some [purchase_call "call_1" aapl_args])) eq_refl).
Defined.

Lemma plain_reply_ends_turn_witness :
  step (env_price (Js.of_Z 190)) (AtLLM pending_without_calls)
  = Stopped {| messages := [HumanMessage "Go ahead"; AIMessage "Done." (Some [])];
               requestedStockPurchaseDetails := Some aapl_purchase |}.
Proof.
  exact (plain_reply_ends_turn (env_price (Js.of_Z 190)) pending_without_calls
           (AIMessage "Done." (Some [])) eq_refl eq_refl).
Defined.

Lemma fan_out_partition_witness :
  route anonymous_request
  = AtNodes [PREPARE_PURCHASE_NODE; TOOLS_NODE] anonymous_request
  /\ exists ns,
       route anonymous_request = AtNodes ns anonymous_request
       /\ NoDup ns
       /\ (In PREPARE_PURCHASE_NODE ns
           <-> exists c, In c [purchase_call "call_1" no_args;
                               {| id := Some "call_2"; name := "price_snapshot";
                                  args := aapl_args |}]
                         /\ name c = "purchase_stock")
       /\ (In TOOLS_NODE ns
           <-> exists c, In c [purchase_call "call_1" no_args;
                               {| id := Some "call_2"; name := "price_snapshot";
                                  args := aapl_args |}]
                         /\ name c <> "purchase_stock")
       /\ (forall n, In n ns -> n = PREPARE_PURCHASE_NODE \/ n = TOOLS_NODE).
Proof.
  split; [ reflexivity | ].
  exact (fan_out_partition anonymous_request "" (purchase_call "call_1" no_args)
           [{| id := Some "call_2"; name := "price_snapshot"; args := aapl_args |}]
           eq_refl eq_refl).
Defined.

Lemma preparation_guards_throw_first_witness :
  trace (preparePurchaseDetails (env_price (Js.of_Z 190)) greeting) = []
  /\ exists msg, In msg preparation_guards
                 /\ outcome (preparePurchaseDetails (env_price (Js.of_Z 190)) greeting)
                    = Thrown msg.
Proof.
  apply (preparation_guards_throw_first (env_price (Js.of_Z 190)) greeting).
  intros content tcs pc Hlast. discriminate Hlast.
Defined.

Lemma price_read_iff_numeric_field_witness :
  read_currentPrice (env_price (Js.of_Z 190)) "<snapshot>" = Returned (Js.of_Z 190).
Proof.
  apply (proj2 (price_read_iff_numeric_field (env_price (Js.of_Z 190)) "<snapshot>" (Js.of_Z 190))).
  exists [("price", Js.JNumber (Js.of_Z 190)); ("ticker", Js.JString "AAPL")].
  split; reflexivity.
Defined.

Lemma malformed_price_is_reported_witness :
  maxPurchasePrice uncapped_args = None
  /\ outcome (preparePurchaseDetails
                (env_with (Thrown "Unexpected token A in JSON at position 0"))
                uncapped_request)
     = Returned (only_messages
                   [ToolMessage "call_1"
                      "Price error: Unexpected token A in JSON at position 0"]).
Proof.
  split; [ reflexivity | ].
  refine (malformed_price_is_reported
            (env_with (Thrown "Unexpected token A in JSON at position 0"))
            uncapped_request "" (Some [purchase_call "call_1" uncapped_args])
            (purchase_call "call_1" uncapped_args) "call_1" "AAPL" "<snapshot>"
            "Unexpected token A in JSON at position 0"
            eq_refl eq_refl eq_refl _ _ _ eq_refl eq_refl).
  - discriminate.
  - left. split; reflexivity.
  - discriminate.
Defined.

Lemma company_name_resolution_witness :
  preparePurchaseDetails (env_price (Js.of_Z 40)) acme_request
  = ([EWebSearch acme_query; EExtractTicker acme_prompt; EPriceSnapshot "ACME"],
     Returned (accepted "call_1" acme_purchase)).
Proof.
  refine (company_name_resolution (env_price (Js.of_Z 40)) acme_request ""
            (Some [purchase_call "call_1" acme_args])
            (purchase_call "call_1" acme_args) "call_1" "Acme Corp"
            "Acme Corp (NYSE: ACME)" "ACME"
            eq_refl eq_refl eq_refl _ eq_refl eq_refl _ eq_refl eq_refl);
    discriminate.
Defined.

Lemma unresolved_company_is_reported_witness :
  preparePurchaseDetails
    (env_lookup (Returned "No results") (Returned "") (Returned (snapshot (Js.of_Z 40))))
    acme_request
  = ([EWebSearch acme_query;
      EExtractTicker
        ("Given the following search results, extract the ticker symbol for Acme Corp:"
         ++ newline ++ "No results")],
     Returned (only_messages [ToolMessage "call_1" "Could not determine ticker.";
                              AIMessage "Could not determine ticker." (Some [])])).
Proof.
  refine (unresolved_company_is_reported
            (env_lookup (Returned "No results") (Returned "") (Returned (snapshot (Js.of_Z 40))))
            acme_request "" (Some [purchase_call "call_1" acme_args])
            (purchase_call "call_1" acme_args) "call_1" "Acme Corp" "No results"
            eq_refl eq_refl eq_refl _ eq_refl eq_refl _ eq_refl eq_refl);
    discriminate.
Defined.

Lemma failed_lookup_is_fatal_witness :
  outcome (findCompanyName
             (env_lookup (Thrown "Search unavailable") (Returned "ACME")
                (Returned (snapshot (Js.of_Z 40))))
             "Acme Corp")
  = Thrown "Search unavailable"
  /\ outcome (preparePurchaseDetails
                (env_lookup (Thrown "Search unavailable") (Returned "ACME")
                   (Returned (snapshot (Js.of_Z 40))))
                acme_request)
     = Thrown "Search unavailable"
  /\ snapshot_calls
       (trace (preparePurchaseDetails
                 (env_lookup (Thrown "Search unavailable") (Returned "ACME")
                    (Returned (snapshot (Js.of_Z 40))))
                 acme_request)) = 0.
Proof.
  split; [ reflexivity | ].
  refine (failed_lookup_is_fatal
            (env_lookup (Thrown "Search unavailable") (Returned "ACME")
               (Returned (snapshot (Js.of_Z 40))))
            acme_request "" (Some [purchase_call "call_1" acme_args])
            (purchase_call "call_1" acme_args) "call_1" "Acme Corp"
            "Search unavailable"
            eq_refl eq_refl eq_refl _ eq_refl eq_refl _ eq_refl);
    discriminate.
Defined.

Lemma given_ticker_is_not_looked_up_witness :
  trace (preparePurchaseDetails (env_price (Js.of_Z 190)) aapl_request) = [EPriceSnapshot "AAPL"]
  /\ lookup_calls (trace (preparePurchaseDetails (env_price (Js.of_Z 190)) aapl_request)) = 0.
Proof.
  refine (given_ticker_is_not_looked_up (env_price (Js.of_Z 190)) aapl_request ""
            (Some [purchase_call "call_1" aapl_args])
            (purchase_call "call_1" aapl_args) "call_1" "AAPL"
            eq_refl eq_refl eq_refl _ eq_refl _);
    discriminate.
Defined.

(** [pending_purchase_is_validated] on the purchase of Acme Corp at a
    price of 40 under a ceiling of 50, and on a purchase of AAPL at a price
    of 300.25 under a ceiling of 10^21, whose record prints the ceiling
    with an exponent. *)
Lemma pending_purchase_is_validated_witness :
  (outcome (preparePurchaseDetails (env_price (Js.of_Z 40)) acme_request)
   = Returned (accepted "call_1" acme_purchase)
   /\ exists content tcs pc pid text price,
        last_message (messages acme_request) = Some (AIMessage content tcs)
        /\ find (fun tc => name tc =? "purchase_stock") (or_empty tcs) = Some pc
        /\ id pc = Some pid
        /\ resolves_to (env_price (Js.of_Z 40)) (args pc) (sp_ticker acme_purchase)
        /\ sp_ticker acme_purchase <> ""
        /\ sp_quantity acme_purchase = quantity_or_one (args pc)
        /\ maxPurchasePrice (args pc) = Some (sp_maxPurchasePrice acme_purchase)
        /\ priceSnapshotTool_invoke (env_price (Js.of_Z 40)) (sp_ticker acme_purchase)
           = Returned text
        /\ read_currentPrice (env_price (Js.of_Z 40)) text = Returned price
        /\ Js.gtb price (sp_maxPurchasePrice acme_purchase) = false
        /\ new_messages (accepted "call_1" acme_purchase)
           = [ToolMessage pid (JSON_stringify_StockPurchase acme_purchase)])
  /\ (outcome (preparePurchaseDetails (env_price a_quarter_above_300) open_request)
      = Returned (accepted "call_1" open_purchase)
      /\ JSON_stringify_StockPurchase open_purchase = open_record_text
      /\ exists content tcs pc pid text price,
           last_message (messages open_request) = Some (AIMessage content tcs)
           /\ find (fun tc => name tc =? "purchase_stock") (or_empty tcs) = Some pc
           /\ id pc = Some pid
           /\ resolves_to (env_price a_quarter_above_300) (args pc)
                (sp_ticker open_purchase)
           /\ sp_ticker open_purchase <> ""
           /\ sp_quantity open_purchase = quantity_or_one (args pc)
           /\ maxPurchasePrice (args pc) = Some (sp_maxPurchasePrice open_purchase)
           /\ priceSnapshotTool_invoke (env_price a_quarter_above_300)
                (sp_ticker open_purchase) = Returned text
           /\ read_currentPrice (env_price a_quarter_above_300) text = Returned price
           /\ Js.gtb price (sp_maxPurchasePrice open_purchase) = false
           /\ new_messages (accepted "call_1" open_purchase)
              = [ToolMessage pid (JSON_stringify_StockPurchase open_purchase)]).
Proof.
  split.
  - split; [ reflexivity | ].
    exact (pending_purchase_is_validated (env_price (Js.of_Z 40)) acme_request
             (accepted "call_1" acme_purchase) acme_purchase eq_refl eq_refl).
  - split; [ reflexivity | ]. split; [ reflexivity | ].
    exact (pending_purchase_is_validated (env_price a_quarter_above_300) open_request
             (accepted "call_1" open_purchase) open_purchase eq_refl eq_refl).
Defined.

Lemma accepted_purchase_can_be_executed_witness :
  outcome (preparePurchaseDetails (env_price (Js.of_Z 190)) aapl_request)
  = Returned (accepted "call_1" aapl_purchase)
  /\ exists bound,
       bound <> ""
       /\ outcome (executePurchase aapl_confirming)
          = Returned (purchase_confirmation bound aapl_purchase)
       /\ requestedStockPurchaseDetails
            (applyUpdate aapl_confirming (purchase_confirmation bound aapl_purchase))
          = None.
Proof.
  split; [ reflexivity | ].
  refine (accepted_purchase_can_be_executed (env_price (Js.of_Z 190)) aapl_request ""
            (Some [purchase_call "call_1" aapl_args])
            (accepted "call_1" aapl_purchase) aapl_purchase
            [AIMessage "" (Some [purchase_call "call_2" aapl_args])]
            aapl_confirming eq_refl _ eq_refl eq_refl eq_refl eq_refl).
  repeat constructor.
Defined.

Lemma confirmation_answers_a_call_of_the_history_witness :
  outcome (executePurchase aapl_confirming)
  = Returned (purchase_confirmation "call_2" aapl_purchase)
  /\ exists p i,
       requestedStockPurchaseDetails aapl_confirming = Some p
       /\ purchase_confirmation "call_2" aapl_purchase = purchase_confirmation i p
       /\ i <> ""
       /\ call_in_history i (messages aapl_confirming)
       /\ requestedStockPurchaseDetails
            (applyUpdate aapl_confirming
               (purchase_confirmation "call_2" aapl_purchase)) = None.
Proof.
  split; [ reflexivity | ].
  exact (confirmation_answers_a_call_of_the_history aapl_confirming
           (purchase_confirmation "call_2" aapl_purchase) eq_refl).
Defined.

Lemma purchase_through_the_graph_witness :
  outcome (preparePurchaseDetails env_buying aapl_request)
  = Returned (accepted "call_1" aapl_purchase)
  /\ exists bound,
       bound <> ""
       /\ steps env_buying 3 (AtNodes [PREPARE_PURCHASE_NODE] aapl_request)
          = AtLLM {| messages :=
                       (messages aapl_request
                        ++ new_messages (accepted "call_1" aapl_purchase)
                        ++ [AIMessage "" (Some [purchase_call "call_1" aapl_args])]
                        ++ new_messages (purchase_confirmation bound aapl_purchase))%list;
                     requestedStockPurchaseDetails := None |}.
Proof.
  split; [ reflexivity | ].
  refine (purchase_through_the_graph env_buying aapl_request ""
            (Some [purchase_call "call_1" aapl_args])
            (accepted "call_1" aapl_purchase) aapl_purchase
            "" (purchase_call "call_1" aapl_args) []
            eq_refl _ eq_refl eq_refl eq_refl).
  repeat constructor.
Defined.

End MoreInstances.

(** * Properties of the tool registry *)

Section ToolFacts.

Import Tools.

Variable http : Http.

Lemma result_try_catch {A} (m : T A) (handler : string -> T A) :
  result (try_catch m handler) =
  match result m with
  | Returned a => Returned a
  | Thrown msg => result (handler msg)
  end.
Proof.
  destruct m as [t [a | msg]]; simpl; [ reflexivity | ].
  destruct (handler msg); reflexivity.
Qed.

Lemma result_andThen {A B} (m : T A) (k : A -> T B) :
  result (andThen m k) =
  match result m with
  | Thrown msg => Thrown msg
  | Returned a => result (k a)
  end.
Proof.
  destruct m as [t [a | msg]]; simpl; [ | reflexivity ].
  destruct (k a); reflexivity.
Qed.

Lemma result_report (warning failure e : string) :
  result (report warning failure e) = Returned (failure ++ e).
Proof. reflexivity. Qed.

(** A tool whose [catch] clause is [report] returns a text. *)
Lemma reported_tool_returns (m : T string) (warning failure : string) :
  exists s, result (try_catch m (report warning failure)) = Returned s.
Proof.
  rewrite result_try_catch. destruct (result m) as [s | e].
  - exists s. reflexivity.
  - exists (failure ++ e). apply result_report.
Qed.

Lemma callFinancialDatasetAPI_no_key (fields : ApiFields) :
  Js.truthy (FINANCIAL_DATASETS_API_KEY http) = false ->
  callFinancialDatasetAPI http fields
  = ([], Thrown "FINANCIAL_DATASETS_API_KEY is not set").
Proof.
  intro Hkey. unfold callFinancialDatasetAPI. rewrite Hkey. reflexivity.
Qed.

Lemma callFinancialDatasetAPI_with_key (fields : ApiFields) (key : string) :
  FINANCIAL_DATASETS_API_KEY http = Some key -> key <> "" ->
  callFinancialDatasetAPI http fields
  = ([Fetch (api_request http key fields)],
     match fetch http (api_request http key fields) with
     | Thrown msg => Thrown msg
     | Returned response =>
         if ok response then json response
         else Thrown ("Failed to fetch data from " ++ endpoint fields ++ "." ++ newline
                      ++ "Status: " ++ Js.number_to_string (status response) ++ newline
                      ++ "Response: " ++ failure_text http response)
     end).
Proof.
  intros Hkey Hne. unfold callFinancialDatasetAPI.
  rewrite Hkey, (truthy_some key Hne). cbn [negb or_blank].
  unfold andThen, effect.
  destruct (fetch http (api_request http key fields)) as [response | msg];
    [ | reflexivity ].
  destruct (ok response); reflexivity.
Qed.

(** A tool of the usual shape when the key is missing. *)
Lemma keyless_tool (fields : ApiFields) (k : Js.json -> T string)
    (warning failure : string) :
  Js.truthy (FINANCIAL_DATASETS_API_KEY http) = false ->
  try_catch (andThen (callFinancialDatasetAPI http fields) k) (report warning failure)
  = ([ConsoleWarn warning "FINANCIAL_DATASETS_API_KEY is not set"],
     Returned (failure ++ "FINANCIAL_DATASETS_API_KEY is not set")).
Proof.
  intro Hkey. rewrite (callFinancialDatasetAPI_no_key fields Hkey). reflexivity.
Qed.

(** X18. The tool functions return text: the function of each of the nine
    API-backed tools of the registry, run on an input that its schema has
    parsed, returns a text whatever the key, the network and the API do;
    a failure is part of that text, never an exception. The statement is
    about the function handed to [tool], from the parsed input on: an
    input that the schema rejects (a limit of 0, for one) makes [invoke]
    throw before the function runs, and the web search tool is not one
    of the nine. *)
Theorem tool_functions_return_text (input : StatementsInput) (ticker : string)
    (query : Js.json) (filing : SecFilingsInput) :
  Forall (fun entry => exists s, result (snd entry) = Returned s)
         (api_tools http input ticker query)
  /\ exists s, result (secFilingsTool http filing) = Returned s.
Proof.
  split.
  - unfold api_tools. repeat constructor; cbn [snd]; apply reported_tool_returns.
  - unfold secFilingsTool.
    destruct (negb (Js.truthy (sec_ticker filing)) && negb (Js.truthy (sec_cik filing))).
    + eexists. reflexivity.
    + apply reported_tool_returns.
Qed.

(** X19. Without an API key nothing is requested: when
    [FINANCIAL_DATASETS_API_KEY] is unset or empty, each API-backed tool
    sends no request and returns its error prefix followed by
    [FINANCIAL_DATASETS_API_KEY is not set]. *)
Theorem missing_api_key_is_reported (input : StatementsInput) (ticker : string)
    (query : Js.json) :
  Js.truthy (FINANCIAL_DATASETS_API_KEY http) = false ->
  Forall (fun entry =>
            requests (effects (snd entry)) = []
            /\ result (snd entry)
               = Returned (fst entry ++ "FINANCIAL_DATASETS_API_KEY is not set"))
         (api_tools http input ticker query).
Proof.
  intro Hkey.
  unfold api_tools, incomeStatementsTool, balanceSheetsTool, cashFlowStatementsTool,
    companyFactsTool, priceSnapshotTool, financialMetricsSnapshotTool,
    financialsSearchTool, getAvailableTickersTool.
  repeat constructor; cbn [snd fst]; rewrite (keyless_tool _ _ _ _ Hkey); reflexivity.
Qed.

Lemma append_empty_r (s : string) : s ++ "" = s.
Proof. induction s as [ | c s IH]; simpl; [ | rewrite IH ]; reflexivity. Qed.

(** X20. One keyed request: with a key configured, one call of
    [callFinancialDatasetAPI] sends exactly one request; it carries the
    key in [X-API-KEY]; it carries a JSON content type exactly when the
    method is POST and a body exactly when one was given; and without
    [params] its URL is the base URL followed by the endpoint. *)
Theorem one_keyed_request (fields : ApiFields) (key : string) :
  FINANCIAL_DATASETS_API_KEY http = Some key -> key <> "" ->
  exists r,
    requests (effects (callFinancialDatasetAPI http fields)) = [r]
    /\ In ("X-API-KEY", key) (headers r)
    /\ (In ("Content-Type", "application/json") (headers r)
        <-> api_method fields = Some POST)
    /\ (body r = None <-> api_body fields = None)
    /\ (params fields = None -> url r = baseURL ++ endpoint fields).
Proof.
  intros Hkey Hne. exists (api_request http key fields).
  rewrite (callFinancialDatasetAPI_with_key fields key Hkey Hne).
  split; [ reflexivity | ].
  unfold api_request. cbn [headers body url].
  split; [ left; reflexivity | ]. split; [ | split ].
  - destruct (api_method fields) as [[ | ] | ]; simpl; split;
      try discriminate; try tauto; intros [H | H]; try discriminate; tauto.
  - destruct (api_body fields); split; try discriminate; trivial.
  - intros ->. cbn. rewrite append_empty_r. reflexivity.
Qed.

(** X21. Data come from a successful response only: whenever
    [callFinancialDatasetAPI] returns data, a key is configured, the
    request it sent was answered with [ok], and the data are the JSON of
    that response. *)
Theorem data_only_from_ok_response (fields : ApiFields) (data : Js.json) :
  result (callFinancialDatasetAPI http fields) = Returned data ->
  exists key response,
    FINANCIAL_DATASETS_API_KEY http = Some key /\ key <> ""
    /\ fetch http (api_request http key fields) = Returned response
    /\ ok response = true
    /\ json response = Returned data.
Proof.
  destruct (Js.truthy (FINANCIAL_DATASETS_API_KEY http)) eqn:Hkey.
  - destruct (truthy_inv _ Hkey) as (key & Hk & Hne).
    rewrite (callFinancialDatasetAPI_with_key fields key Hk Hne). cbn [result snd].
    destruct (fetch http (api_request http key fields)) as [response | msg] eqn:Hfetch;
      [ | discriminate ].
    destruct (ok response) eqn:Hok; [ | discriminate ].
    intro Hdata. exists key, response. repeat split; trivial.
  - rewrite (callFinancialDatasetAPI_no_key fields Hkey). discriminate.
Qed.

(** X22. A refused request is reported: when the API answers the price
    snapshot request with a response that is not [ok], the tool sends
    that one request, warns once and returns a text that names the
    endpoint and the status, followed by the pretty-printed body when
    the body is JSON, by the status text when the body is not JSON or
    cannot be read, and by nothing when the response has no body. The
    raw text of a body that is not JSON is never reported: reading it as
    JSON has consumed it. *)
Theorem refused_request_is_reported (ticker key : string) (response : Response) :
  FINANCIAL_DATASETS_API_KEY http = Some key -> key <> "" ->
  let fields := {| endpoint := "/prices/snapshot";
                   params := Some [("ticker", ticker)];
                   api_method := None; api_body := None |} in
  fetch http (api_request http key fields) = Returned response ->
  ok response = false ->
  let failure := "Failed to fetch data from /prices/snapshot." ++ newline
                 ++ "Status: " ++ Js.number_to_string (status response) ++ newline
                 ++ "Response: "
                 ++ match response_body response with
                    | Some (Returned data) => JSON_stringify_2 http data
                    | Some (Thrown _) => statusText response
                    | None => ""
                    end in
  priceSnapshotTool http ticker
  = ([Fetch (api_request http key fields);
      ConsoleWarn "Error fetching price snapshots" failure],
     Returned ("An error occurred while fetching price snapshots: " ++ failure)).
Proof.
  intros Hkey Hne fields Hfetch Hok failure. unfold priceSnapshotTool.
  fold fields. rewrite (callFinancialDatasetAPI_with_key fields key Hkey Hne).
  rewrite Hfetch, Hok.
  assert (Htext : failure_text http response
                  = match response_body response with
                    | Some (Returned data) => JSON_stringify_2 http data
                    | Some (Thrown _) => statusText response
                    | None => ""
                    end).
  { unfold failure_text, json, text.
    destruct (response_body response) as [[data | msg] | ]; reflexivity. }
  cbn [negb]. rewrite Htext. reflexivity.
Qed.

Lemma truthy_or_blank (v : option string) :
  Js.truthy v = true -> or_blank v <> "".
Proof.
  intro H. destruct (truthy_inv _ H) as (s & -> & Hne). exact Hne.
Qed.

(** X23. The runtime guard of [sec_filings]: an input with neither a
    ticker nor a CIK, which the refined schema rejects, makes the tool
    return its fixed error text without any request or warning. *)
Theorem sec_filings_guard (input : SecFilingsInput) :
  Js.truthy (sec_ticker input) = false ->
  Js.truthy (sec_cik input) = false ->
  secFilingsTool http input
  = ([], Returned "Error: Either ticker or CIK must be provided to sec_filings tool.")
  /\ SecFilingsInputSchema input = false.
Proof.
  intros Ht Hc. unfold secFilingsTool, SecFilingsInputSchema.
  rewrite Ht, Hc. split; [ reflexivity | apply andb_false_r ].
Qed.

(** X24. What [sec_filings] asks for: for an input the refined schema
    accepts and a configured key, the tool sends exactly one request, to
    [/filings], whose parameters are the non-empty fields of the input
    among [ticker], [cik] and [filing_type], in this order; there is at
    least one and none has an empty value. *)
Theorem sec_filings_request (input : SecFilingsInput) (key : string) :
  SecFilingsInputSchema input = true ->
  FINANCIAL_DATASETS_API_KEY http = Some key -> key <> "" ->
  requests (effects (secFilingsTool http input))
  = [api_request http key {| endpoint := "/filings";
                             params := Some (sec_filings_params input);
                             api_method := None; api_body := None |}]
  /\ sec_filings_params input <> []
  /\ Forall (fun kv => snd kv <> "") (sec_filings_params input)
  /\ Forall (fun kv => In (fst kv) ["ticker"; "cik"; "filing_type"])
            (sec_filings_params input).
Proof.
  intros Hschema Hkey Hne.
  unfold SecFilingsInputSchema in Hschema.
  apply andb_true_iff in Hschema as [_ Hsome].
  split; [ | split; [ | split ] ].
  - unfold secFilingsTool.
    assert (Hguard : negb (Js.truthy (sec_ticker input))
                     && negb (Js.truthy (sec_cik input)) = false).
    { rewrite <- negb_orb, Hsome. reflexivity. }
    rewrite Hguard.
    rewrite (callFinancialDatasetAPI_with_key _ key Hkey Hne).
    set (r := api_request http key _).
    destruct (fetch http r) as [response | msg]; [ | reflexivity ].
    destruct (ok response); [ | reflexivity ].
    destruct (json response) as [data | msg]; [ | reflexivity ].
    cbn [andThen]. destruct (get data "filings") as [filings | msg]; reflexivity.
  - unfold sec_filings_params. apply orb_true_iff in Hsome as [H | H]; rewrite H.
    + discriminate.
    + destruct (Js.truthy (sec_ticker input)); discriminate.
  - unfold sec_filings_params.
    destruct (Js.truthy (sec_ticker input)) eqn:H1,
             (Js.truthy (sec_cik input)) eqn:H2,
             (Js.truthy (sec_filing_type input)) eqn:H3;
      cbn [app]; repeat constructor; cbn [snd]; apply truthy_or_blank; assumption.
  - unfold sec_filings_params.
    destruct (Js.truthy (sec_ticker input)), (Js.truthy (sec_cik input)),
      (Js.truthy (sec_filing_type input)); cbn [app];
      repeat (apply Forall_cons || apply Forall_nil); cbn [fst In];
      first [ left; reflexivity | right; left; reflexivity
            | right; right; left; reflexivity ].
Qed.

(** The request of a tool of the usual shape when a key is configured. *)
Lemma keyed_tool_requests (fields : ApiFields) (key warning failure : string)
    (render : Js.json -> string) :
  FINANCIAL_DATASETS_API_KEY http = Some key -> key <> "" ->
  requests (effects (try_catch
                       (andThen (callFinancialDatasetAPI http fields)
                                (fun data => pure (render data)))
                       (report warning failure)))
  = [api_request http key fields].
Proof.
  intros Hkey Hne. rewrite (callFinancialDatasetAPI_with_key fields key Hkey Hne).
  destruct (fetch http (api_request http key fields)) as [response | msg];
    [ | reflexivity ].
  destruct (ok response); [ | reflexivity ].
  destruct (json response); reflexivity.
Qed.

(** X25. Schema defaults reach the request: an input that the schema of
    the statement tools accepts has the given ticker, a period among
    [annual], [quarterly] and [ttm] that is [annual] when none was given,
    and a positive integer limit that is 5 when none was given; and with a key
    configured [income_statements] sends exactly one request, whose
    parameters are that ticker, period and limit. *)
Theorem statements_defaults_reach_the_request (raw : StatementsRaw)
    (input : StatementsInput) (key : string) :
  statements_schema raw = Some input ->
  FINANCIAL_DATASETS_API_KEY http = Some key -> key <> "" ->
  raw_ticker raw = Some (in_ticker input)
  /\ In (in_period input) periods
  /\ in_period input = match raw_period raw with Some p => p | None => "annual" end
  /\ Js.positive (in_limit input) = true
  /\ Js.is_integer (in_limit input) = true
  /\ in_limit input = match raw_limit raw with Some l => l | None => Js.of_Z 5 end
  /\ requests (effects (incomeStatementsTool http input))
     = [api_request http key
          {| endpoint := "/financials/income-statements";
             params := Some [("ticker", in_ticker input);
                             ("period", in_period input);
                             ("limit", Js.number_to_string (in_limit input))];
             api_method := None; api_body := None |}].
Proof.
  intros Hschema Hkey Hne. unfold statements_schema in Hschema.
  destruct (raw_ticker raw) as [t | ]; [ | discriminate ].
  assert (Hperiod : exists p,
             match raw_period raw with
             | None => Some "annual"
             | Some p => if existsb (String.eqb p) periods then Some p else None
             end = Some p
             /\ In p periods
             /\ p = match raw_period raw with Some q => q | None => "annual" end).
  { destruct (raw_period raw) as [p | ].
    - destruct (existsb (String.eqb p) periods) eqn:Hp.
      + exists p. repeat split; trivial.
        apply existsb_exists in Hp as (q & Hq & Heq).
        apply String.eqb_eq in Heq. subst q. exact Hq.
      + destruct (raw_limit raw) as [l | ];
          [ destruct (Js.is_integer l && Js.positive l) | ]; discriminate.
    - exists "annual". repeat split. left. reflexivity. }
  destruct Hperiod as (p & Hp & Hin & Hdef). rewrite Hp in Hschema.
  destruct (raw_limit raw) as [l | ].
  - destruct (Js.is_integer l && Js.positive l) eqn:Hl; [ | discriminate ].
    apply andb_true_iff in Hl as [Hint Hpos].
    injection Hschema as <-. cbn [in_ticker in_period in_limit].
    repeat split; trivial.
    exact (keyed_tool_requests _ key _ _ _ Hkey Hne).
  - injection Hschema as <-. cbn [in_ticker in_period in_limit].
    repeat split; trivial.
    exact (keyed_tool_requests _ key _ _ _ Hkey Hne).
Qed.

(** X26. The price lookup cannot fail the turn: with the registry's
    [priceSnapshotTool] behind Preparation, a purchase call that carries
    an id, a ticker and a price ceiling always makes Preparation return,
    with one tool message bound to the call, whatever the network, the
    API and the parser do. *)
Theorem price_lookup_never_fails_the_turn (env : Env) (st : State)
    (content : string) (tcs : option (list ToolCall)) (pc : ToolCall)
    (pid t : string) (max : Js.number) :
  last_message (messages st) = Some (AIMessage content tcs) ->
  find (fun tc => name tc =? "purchase_stock") (or_empty tcs) = Some pc ->
  id pc = Some pid -> pid <> "" ->
  ticker (args pc) = Some t -> t <> "" ->
  maxPurchasePrice (args pc) = Some max ->
  exists u text,
    outcome (preparePurchaseDetails (with_price_tool http env) st) = Returned u
    /\ new_messages u = [ToolMessage pid text].
Proof.
  intros Hlast Hfind Hid Hpid Hticker Ht Hmax.
  rewrite (prepare_found _ st content tcs pc Hlast Hfind)
    by (rewrite Hid; apply truthy_some; exact Hpid).
  unfold purchase_for_call. rewrite Hticker, Hid, (truthy_some t Ht).
  cbn [negb or_blank]. unfold purchase_with_ticker.
  rewrite (truthy_some t Ht). cbn [negb].
  rewrite outcome_bind, outcome_perform.
  cbn [priceSnapshotTool_invoke with_price_tool].
  destruct (reported_tool_returns
              (andThen (callFinancialDatasetAPI http
                          {| endpoint := "/prices/snapshot";
                             params := Some [("ticker", t)];
                             api_method := None; api_body := None |})
                       (fun data => pure (JSON_stringify http data)))
              "Error fetching price snapshots"
              "An error occurred while fetching price snapshots: ") as [s Hs].
  unfold priceSnapshotTool. rewrite Hs.
  destruct (read_currentPrice (with_price_tool http env) s) as [price | e].
  - rewrite Hmax. destruct (Js.gtb price max); eexists; eexists; split; reflexivity.
  - eexists; eexists; split; reflexivity.
Qed.

End ToolFacts.

(** * Properties of the browser side *)

Section FrontendFacts.

Import Tools Frontend.

Variable browser : Browser.

Lemma or_text_truthy (field : option Js.json) (fallback : string) :
  fallback <> "" -> truthy_json (or_text field fallback) = true.
Proof.
  intro Hne. unfold or_text.
  destruct field as [v | ]; [ destruct (truthy_json v) eqn:Hv; trivial | ];
    cbn [truthy_json]; apply negb_true_iff, String.eqb_neq; exact Hne.
Qed.

(** X27. What [fetchSecFilings] can return: for every input and whatever
    the network does, it returns a value and never throws; that value is
    either the schema-validated body of a response that was [ok], or an
    object with an empty [filings] list and a truthy [error]. *)
Theorem fetched_filings_are_validated_or_empty (params : SecFilingsInput) :
  exists v,
    result (fetchSecFilings browser params) = Returned v
    /\ ((exists response data,
            browser_fetch browser (filings_request browser params) = Returned response
            /\ ok response = true
            /\ json response = Returned data
            /\ FilingsResponseSchema_safeParse browser data = Some v)
        \/ exists e, v = no_filings e /\ truthy_json e = true).
Proof.
  unfold fetchSecFilings.
  destruct (negb (Js.truthy (sec_ticker params)) && negb (Js.truthy (sec_cik params))).
  { eexists. split; [ reflexivity | ]. right. eexists. split; reflexivity. }
  unfold try_catch, andThen, effect, pure.
  destruct (browser_fetch browser (filings_request browser params))
    as [response | msg] eqn:Hfetch;
    [ | eexists; split; [ reflexivity | right; eexists; split; reflexivity ] ].
  destruct (json response) as [data | msg] eqn:Hjson;
    [ | eexists; split; [ reflexivity | right; eexists; split; reflexivity ] ].
  destruct (ok response) eqn:Hok; cbn [negb].
  - destruct (FilingsResponseSchema_safeParse browser data) as [parsed | ] eqn:Hparse.
    + exists parsed. split; [ reflexivity | ]. left.
      exists response, data. repeat split; trivial.
    + eexists. split; [ reflexivity | right; eexists; split; reflexivity ].
  - destruct (get data "error") as [error | msg];
      [ | eexists; split; [ reflexivity | right; eexists; split; reflexivity ] ].
    eexists. split; [ reflexivity | ]. right. eexists. split; [ reflexivity | ].
    apply or_text_truthy. discriminate.
Qed.

(** X28. The request of [fetchSecFilings]: it sends one GET request to the
    filings route, with the non-empty fields of the input as query, when
    the input has a ticker or a CIK, and no request at all otherwise. *)
Theorem filings_are_fetched_once (params : SecFilingsInput) :
  requests (effects (fetchSecFilings browser params))
  = if Js.truthy (sec_ticker params) || Js.truthy (sec_cik params)
    then [filings_request browser params] else [].
Proof.
  unfold fetchSecFilings. rewrite <- negb_orb.
  destruct (Js.truthy (sec_ticker params) || Js.truthy (sec_cik params));
    cbn [negb]; [ | reflexivity ].
  unfold try_catch, andThen, effect, pure.
  destruct (browser_fetch browser (filings_request browser params))
    as [response | msg]; [ | reflexivity ].
  destruct (json response) as [data | msg]; [ | reflexivity ].
  destruct (ok response); cbn [negb].
  - destruct (FilingsResponseSchema_safeParse browser data); reflexivity.
  - destruct (get data "error"); reflexivity.
Qed.

(** X29. What [fetchAvailableTickers] can return: it sends exactly one
    request and always returns an array, never throwing; the array is
    either the [tickers] array of a response that was [ok] and carried no
    truthy [error], or a single entry that starts with [ERROR: ]. *)
Theorem fetched_tickers_are_a_list :
  exists items,
    result (fetchAvailableTickers browser) = Returned (Js.JArray items)
    /\ requests (effects (fetchAvailableTickers browser)) = [tickers_request]
    /\ ((exists response data error,
            browser_fetch browser tickers_request = Returned response
            /\ ok response = true
            /\ json response = Returned data
            /\ get data "error" = Returned error /\ truthy_field error = false
            /\ get data "tickers" = Returned (Some (Js.JArray items)))
        \/ exists message, items = [Js.JString ("ERROR: " ++ message)]).
Proof.
  unfold fetchAvailableTickers, try_catch, andThen, effect, pure, error_entry.
  destruct (browser_fetch browser tickers_request) as [response | msg] eqn:Hfetch;
    [ | eexists; repeat split; right; eexists; reflexivity ].
  destruct (json response) as [data | msg] eqn:Hjson;
    [ | eexists; repeat split; right; eexists; reflexivity ].
  destruct (get data "error") as [error | msg] eqn:Herror;
    [ | eexists; repeat split; right; eexists; reflexivity ].
  destruct (ok response) eqn:Hok; cbn [negb orb];
    [ | eexists; repeat split; right; eexists; reflexivity ].
  destruct (truthy_field error) eqn:Htruthy;
    [ eexists; repeat split; right; eexists; reflexivity | ].
  destruct (get data "tickers") as [tickers | msg] eqn:Htickers;
    [ | eexists; repeat split; right; eexists; reflexivity ].
  destruct (truthy_json data); cbn [andb];
    [ | eexists; repeat split; right; eexists; reflexivity ].
  destruct tickers as [[ | | | | items | ] | ]; cbn [isArray];
    try (eexists; repeat split; right; eexists; reflexivity).
  exists items. repeat split. left.
  exists response, data, error. repeat split; trivial.
Qed.

End FrontendFacts.

(** * The channels *)

(** The messages an update of the [messages] channel carries. *)
Lemma messages_value_app (current : option (list BaseMessage))
    (update : option MessagesUpdate) :
  messages_value current update
  = ((match current with Some cur => cur | None => [] end)
     ++ new_messages {| upd_messages := update;
                        upd_requestedStockPurchaseDetails := None |})%list.
Proof.
  unfold new_messages. cbn [upd_messages].
  destruct current as [[ | m cur] | ], update as [[x | xs] | ]; simpl;
    try reflexivity; rewrite ?app_nil_r; reflexivity.
Qed.

(** X30. The [messages] channel appends: whatever the current value
    (absent, empty or not) and the update (absent, one message or an
    array), the reducer returns the current messages followed by those of
    the update; hence two updates in a row amount to one update with
    both lists of messages. *)
Theorem messages_channel_appends (current : option (list BaseMessage))
    (first second : option MessagesUpdate) :
  let elements (u : option MessagesUpdate) :=
    new_messages {| upd_messages := u; upd_requestedStockPurchaseDetails := None |} in
  messages_value current first
  = ((match current with Some cur => cur | None => [] end) ++ elements first)%list
  /\ messages_value (Some (messages_value current first)) second
     = messages_value current
         (Some (ManyMessages (elements first ++ elements second)%list)).
Proof.
  intro elements. split; [ apply messages_value_app | ].
  rewrite !messages_value_app. unfold elements, new_messages. cbn [upd_messages].
  rewrite app_assoc. reflexivity.
Qed.

(** * Instances of the properties of the registry *)

Section ToolInstances.

Import Tools ToolExamples Examples.

Lemma missing_api_key_is_reported_witness :
  Js.truthy (FINANCIAL_DATASETS_API_KEY (http_with None (Thrown "offline"))) = false
  /\ Forall (fun entry =>
               requests (effects (snd entry)) = []
               /\ result (snd entry)
                  = Returned (fst entry ++ "FINANCIAL_DATASETS_API_KEY is not set"))
            (api_tools (http_with None (Thrown "offline")) annual_five "AAPL"
               (Js.JObject [])).
Proof.
  split; [ reflexivity | ].
  exact (missing_api_key_is_reported (http_with None (Thrown "offline"))
           annual_five "AAPL" (Js.JObject []) eq_refl).
Defined.

Lemma one_keyed_request_witness :
  requests (effects (callFinancialDatasetAPI
                       (http_with (Some "secret") (Returned (ok_response Js.JNull)))
                       (snapshot_fields "AAPL")))
  = [ {| url := "https://api.financialdatasets.ai/prices/snapshot?ticker=AAPL";
         method := "GET"; headers := [("X-API-KEY", "secret")]; body := None |} ]
  /\ exists r,
       requests (effects (callFinancialDatasetAPI
                            (http_with (Some "secret") (Returned (ok_response Js.JNull)))
                            (snapshot_fields "AAPL"))) = [r]
       /\ In ("X-API-KEY", "secret") (headers r)
       /\ (In ("Content-Type", "application/json") (headers r)
           <-> api_method (snapshot_fields "AAPL") = Some POST)
       /\ (body r = None <-> api_body (snapshot_fields "AAPL") = None)
       /\ (params (snapshot_fields "AAPL") = None ->
           url r = baseURL ++ endpoint (snapshot_fields "AAPL")).
Proof.
  split; [ reflexivity | ].
  refine (one_keyed_request
            (http_with (Some "secret") (Returned (ok_response Js.JNull)))
            (snapshot_fields "AAPL") "secret" eq_refl _).
  discriminate.
Defined.

Lemma data_only_from_ok_response_witness :
  result (callFinancialDatasetAPI
            (http_with (Some "secret") (Returned (ok_response (snapshot (Js.of_Z 190)))))
            (snapshot_fields "AAPL"))
  = Returned (snapshot (Js.of_Z 190))
  /\ exists key response,
       FINANCIAL_DATASETS_API_KEY
         (http_with (Some "secret") (Returned (ok_response (snapshot (Js.of_Z 190))))) = Some key
       /\ key <> ""
       /\ fetch (http_with (Some "secret") (Returned (ok_response (snapshot (Js.of_Z 190)))))
            (api_request
               (http_with (Some "secret") (Returned (ok_response (snapshot (Js.of_Z 190)))))
               key (snapshot_fields "AAPL"))
          = Returned response
       /\ ok response = true
       /\ json response = Returned (snapshot (Js.of_Z 190)).
Proof.
  split; [ reflexivity | ].
  exact (data_only_from_ok_response
           (http_with (Some "secret") (Returned (ok_response (snapshot (Js.of_Z 190)))))
           (snapshot_fields "AAPL") (snapshot (Js.of_Z 190)) eq_refl).
Defined.

(** [refused_request_is_reported] on a refusal whose body is the plain
    text [Invalid API key], and on one whose body is JSON. *)
Lemma refused_request_is_reported_witness :
  (ok refused = false
   /\ result (priceSnapshotTool (http_with (Some "secret") (Returned refused)) "AAPL")
      = Returned ("An error occurred while fetching price snapshots: "
                  ++ "Failed to fetch data from /prices/snapshot." ++ newline
                  ++ "Status: 401" ++ newline ++ "Response: Unauthorized"))
  /\ (ok (refused_with Js.JNull) = false
      /\ result (priceSnapshotTool
                   (http_with (Some "secret") (Returned (refused_with Js.JNull))) "AAPL")
         = Returned ("An error occurred while fetching price snapshots: "
                     ++ "Failed to fetch data from /prices/snapshot." ++ newline
                     ++ "Status: 401" ++ newline ++ "Response: <pretty data>")).
Proof.
  assert (Hkey : "secret" <> "") by discriminate.
  split; (split; [ reflexivity | ]).
  - exact (f_equal snd
             (refused_request_is_reported (http_with (Some "secret") (Returned refused))
                "AAPL" "secret" refused eq_refl Hkey eq_refl eq_refl)).
  - exact (f_equal snd
             (refused_request_is_reported
                (http_with (Some "secret") (Returned (refused_with Js.JNull)))
                "AAPL" "secret" (refused_with Js.JNull) eq_refl Hkey eq_refl eq_refl)).
Defined.

Lemma sec_filings_guard_witness :
  BaseSecFilingsInputSchema no_company = true
  /\ secFilingsTool (http_with (Some "secret") (Returned refused)) no_company
     = ([], Returned "Error: Either ticker or CIK must be provided to sec_filings tool.")
  /\ SecFilingsInputSchema no_company = false.
Proof.
  split; [ reflexivity | ].
  exact (sec_filings_guard (http_with (Some "secret") (Returned refused)) no_company
           eq_refl eq_refl).
Defined.

Lemma sec_filings_request_witness :
  sec_filings_params aapl_annual_reports = [("ticker", "AAPL"); ("filing_type", "10-K")]
  /\ requests (effects (secFilingsTool
                          (http_with (Some "secret") (Returned (ok_response Js.JNull)))
                          aapl_annual_reports))
     = [api_request (http_with (Some "secret") (Returned (ok_response Js.JNull)))
          "secret"
          {| endpoint := "/filings";
             params := Some (sec_filings_params aapl_annual_reports);
             api_method := None; api_body := None |}]
  /\ sec_filings_params aapl_annual_reports <> []
  /\ Forall (fun kv => snd kv <> "") (sec_filings_params aapl_annual_reports)
  /\ Forall (fun kv => In (fst kv) ["ticker"; "cik"; "filing_type"])
            (sec_filings_params aapl_annual_reports).
Proof.
  split; [ reflexivity | ].
  refine (sec_filings_request
            (http_with (Some "secret") (Returned (ok_response Js.JNull)))
            aapl_annual_reports "secret" eq_refl eq_refl _).
  discriminate.
Defined.

(** The schema of the statement tools rejects a limit of 0 and a limit
    that is not an integer. *)
Lemma statements_schema_rejects_bad_limits :
  statements_schema {| raw_ticker := Some "AAPL"; raw_period := None;
                       raw_limit := Some (Js.of_Z 0) |} = None
  /\ statements_schema {| raw_ticker := Some "AAPL"; raw_period := None;
                          raw_limit := Some Examples.a_quarter_above_300 |} = None.
Proof. split; reflexivity. Qed.

Lemma statements_defaults_reach_the_request_witness :
  statements_schema ticker_only = Some annual_five
  /\ raw_ticker ticker_only = Some (in_ticker annual_five)
  /\ In (in_period annual_five) periods
  /\ in_period annual_five = "annual"
  /\ Js.positive (in_limit annual_five) = true
  /\ Js.is_integer (in_limit annual_five) = true
  /\ in_limit annual_five = Js.of_Z 5
  /\ requests (effects (incomeStatementsTool
                          (http_with (Some "secret") (Returned (ok_response Js.JNull)))
                          annual_five))
     = [ {| url := "https://api.financialdatasets.ai/financials/income-statements"
                   ++ "?ticker=AAPL&period=annual&limit=5";
            method := "GET"; headers := [("X-API-KEY", "secret")]; body := None |} ].
Proof.
  split; [ reflexivity | ].
  refine (statements_defaults_reach_the_request
            (http_with (Some "secret") (Returned (ok_response Js.JNull)))
            ticker_only annual_five "secret" eq_refl eq_refl _).
  discriminate.
Defined.

Lemma price_lookup_never_fails_the_turn_witness :
  outcome (preparePurchaseDetails
             (with_price_tool (http_with None (Thrown "offline"))
                (env_with (Thrown "Unexpected token A in JSON at position 0")))
             aapl_request)
  = Returned (only_messages
                [ToolMessage "call_1"
                   "Price error: Unexpected token A in JSON at position 0"])
  /\ exists u text,
       outcome (preparePurchaseDetails
                  (with_price_tool (http_with None (Thrown "offline"))
                     (env_with (Thrown "Unexpected token A in JSON at position 0")))
                  aapl_request) = Returned u
       /\ new_messages u = [ToolMessage "call_1" text].
Proof.
  split; [ reflexivity | ].
  refine (price_lookup_never_fails_the_turn (http_with None (Thrown "offline"))
            (env_with (Thrown "Unexpected token A in JSON at position 0"))
            aapl_request "" (Some [purchase_call "call_1" aapl_args])
            (purchase_call "call_1" aapl_args) "call_1" "AAPL" (Js.of_Z 300)
            eq_refl eq_refl eq_refl _ eq_refl _ eq_refl);
    discriminate.
Defined.

End ToolInstances.
